(** * ZENIBO v2: ledger filtering, balance accumulation, CSV export,
      coupons, bearer tokens and the routes of the server

    A shallow embedding of

    - [public/static/app.js] (class [CashBookApp]): [renderTransactions],
      [updateTotals], [previewMonthlyClosing], [exportToCSV],
      [sendMonthlyClosing], the four CSV generators, the tax-code tables
      and the name look-ups; the plan dialog: [updateMeteredBilling],
      [updateMeteredBillingCalculator] and [applyCoupon];
    - the API client (class [APIClient]): its token handling;
    - [src/routes/coupons.ts]: the coupon routes [POST /validate],
      [POST /], [PUT /:id] and [DELETE /:id]; and, in the same file of the
      source tree at hand, the book routes, the transaction routes and the
      recipient routes of the account routes;
    - [src/routes/auth.ts]: [register], [login], [me], [subscribe] and
      [unsubscribe];
    - [src/middleware/auth.ts] and [src/utils/auth.ts] (the last parts of
      [src/routes/receipts.ts] in the source tree at hand):
      [authMiddleware], [verifyPassword], [generateToken], [verifyToken]
      and [getCurrentUserId].

    Conventions.  JavaScript strings are modelled as [string] (sequences of
    bytes, UTF-8 for the non-ASCII literals of the source); the integer-valued
    JavaScript numbers of the ledger (yen amounts, balances, ids, epoch
    seconds) are modelled as [Z]; [null]/[undefined]/the empty DOM value are
    modelled by [option] or by the empty string, as noted at each field. *)

From Stdlib Require Import ZArith List String Ascii Bool Lia ZifyNat.
From Stdlib Require Import QArith.
From Stdlib Require Import Decimal DecimalString DecimalZ.
From Stdlib Require Import Permutation.
Import ListNotations.

Close Scope Q_scope.
Open Scope string_scope.
Open Scope Z_scope.

(* ================================================================== *)
(** * JavaScript primitives used by the source *)
(* ================================================================== *)

Module JS.

(** The double-quote character (code 34). *)
Definition dquote : ascii := Ascii.ascii_of_nat 34.

(** Template-literal rendering [`${n}`] of an integer-valued number. *)
Definition numToString (z : Z) : string :=
  NilEmpty.string_of_int (Z.to_int z).

(** [x || 0] on a number: the falsy number [0] is replaced by [0]. *)
Definition orZero (z : Z) : Z := if z =? 0 then 0 else z.

(** [s || d] on a string: the empty string is falsy. *)
Definition orElse (s d : string) : string :=
  match s with EmptyString => d | _ => s end.

(** Truthiness of a string value. *)
Definition truthy (s : string) : bool :=
  match s with EmptyString => false | _ => true end.

(** [a <= b] and [a >= b] on strings: code-unit-wise lexicographic order. *)
Definition str_le (a b : string) : bool := String.leb a b.
Definition str_ge (a b : string) : bool := String.leb b a.

(** [String.prototype.toLowerCase], on the ASCII letters. *)
Definition lowerChar (c : ascii) : ascii :=
  let n := nat_of_ascii c in
  if andb (Nat.leb 65 n) (Nat.leb n 90) then ascii_of_nat (n + 32) else c.

Fixpoint toLowerCase (s : string) : string :=
  match s with
  | EmptyString => EmptyString
  | String c r => String (lowerChar c) (toLowerCase r)
  end.

(** White space removed by [String.prototype.trim] (ASCII part):
    TAB, LF, VT, FF, CR and SPACE. *)
Definition isSpace (c : ascii) : bool :=
  let n := nat_of_ascii c in
  orb (andb (Nat.leb 9 n) (Nat.leb n 13)) (Nat.eqb n 32).

Fixpoint trimStart (s : string) : string :=
  match s with
  | EmptyString => EmptyString
  | String c r => if isSpace c then trimStart r else s
  end.

(** Drops trailing white space: a character is kept when it is not a
    space or when something is kept after it. *)
Fixpoint trimEnd (s : string) : string :=
  match s with
  | EmptyString => EmptyString
  | String c r =>
      match trimEnd r with
      | EmptyString => if isSpace c then EmptyString else String c EmptyString
      | r' => String c r'
      end
  end.

Definition trim (s : string) : string := trimEnd (trimStart s).

(** [s.startsWith(p)]. *)
Fixpoint startsWith (s p : string) : bool :=
  match p, s with
  | EmptyString, _ => true
  | String _ _, EmptyString => false
  | String b p', String a s' => andb (Ascii.eqb a b) (startsWith s' p')
  end.

(** [s.includes(k)]: [k] occurs in [s] at some position. *)
Fixpoint includes (s k : string) : bool :=
  orb (startsWith s k)
      (match s with
       | EmptyString => false
       | String _ r => includes r k
       end).

(** The global replace of the source that escapes a CSV field: every
    double-quote character is replaced by two of them. *)
Fixpoint escapeQuotes (s : string) : string :=
  match s with
  | EmptyString => EmptyString
  | String c r =>
      if Ascii.eqb c dquote
      then String dquote (String dquote (escapeQuotes r))
      else String c (escapeQuotes r)
  end.

(** [s.substring(0, n)]. *)
Definition substring0 (n : nat) (s : string) : string := String.substring 0 n s.

(** Own-property lookup [obj[key]] in an object literal whose values are
    non-empty strings; [None] is [undefined].  Keys naming members
    inherited from [Object.prototype] are outside the model. *)
Fixpoint lookup (obj : list (string * string)) (key : string) : option string :=
  match obj with
  | [] => None
  | (k, v) :: rest => if String.eqb k key then Some v else lookup rest key
  end.

(** [obj[key] || d] for such an object. *)
Definition lookupOr (obj : list (string * string)) (key d : string) : string :=
  match lookup obj key with
  | Some v => orElse v d
  | None => d
  end.

End JS.

(* ================================================================== *)
(** * Data model of the client ([CashBookApp]) *)
(* ================================================================== *)

(** [transaction.type]: the entry form offers ['income'] and ['expense']. *)
Inductive TxType : Type := income | expense.

Definition TxType_eqb (a b : TxType) : bool :=
  match a, b with
  | income, income | expense, expense => true
  | _, _ => false
  end.

(** A transaction in app format, as built by [loadTransactionsFromAPI]. *)
Record Transaction : Type := {
  txid : string;                     (* id: t.id.toString() *)
  date : string;                     (* ISO calendar date, YYYY-MM-DD *)
  type : TxType;
  description : string;              (* the entry form always sends one *)
  client : string;                   (* t.client || '' *)
  amount : Z;
  account_subject_id : option Z;     (* number or null *)
  sub_account_id : option Z;         (* number or null *)
  taxType : string;                  (* t.tax_code || '' *)
  receiptPDF : option Z              (* { id } or null *)
}.

Record SubAccount : Type := { sub_id : Z; sub_name : string }.

Record AccountSubject : Type := {
  subject_id : Z;
  subject_name : string;
  sub_accounts : list SubAccount
}.

(** [book.settings]. *)
Record Settings : Type := {
  openingBalance : Z;
  exportFormat : string              (* '' when unset *)
}.

Record Book : Type := {
  businessName : string;
  accountName : string;
  settings : Settings;
  transactions : list Transaction
}.

(** The part of the [CashBookApp] instance the modelled methods read. *)
Record App : Type := {
  currentBook : option Book;         (* getCurrentBook(): a book or undefined *)
  accountSubjects : list AccountSubject;
  plan : string                      (* this.subscription.plan, '' when unset *)
}.

(** The values read from the filter controls by [renderTransactions].
    Text and date inputs yield a string, empty when nothing is entered; a
    number input yields either the empty string ([None]) or a numeral, read
    by [parseFloat] ([Some q]); the account-subject select yields either
    the empty string or the id of the chosen subject. *)
Record FilterInputs : Type := {
  filter_start_date : string;
  filter_end_date : string;
  filter_keyword : string;
  filter_min_amount : option Q;
  filter_max_amount : option Q;
  filter_account_subject : option Z
}.

(** Upper amount bound: a number or [Infinity]. *)
Inductive UpperBound : Type := Finite (q : Q) | Infinity.

Definition amount_ge (a : Z) (lo : Q) : bool := Qle_bool lo (inject_Z a).

Definition amount_le (a : Z) (hi : UpperBound) : bool :=
  match hi with
  | Finite q => Qle_bool (inject_Z a) q
  | Infinity => true
  end.

(** [t.account_subject_id == accountSubjectId]: [null] equals no id. *)
Definition subject_eq (a : option Z) (sel : Z) : bool :=
  match a with
  | Some n => n =? sel
  | None => false
  end.

(** The accumulators of the row loop of [renderTransactions]. *)
Record Acc : Type := { balance : Z; totalIncome : Z; totalExpense : Z }.

(** The cells of a rendered table row that carry ledger data. *)
Record RowView : Type := {
  row_date : string;
  row_description : string;
  row_client : string;
  row_income : option Z;             (* shown only when income > 0 *)
  row_expense : option Z;            (* shown only when expense > 0 *)
  row_balance : Z;
  row_taxLabel : string
}.

(** What [updateTotals] writes to the three totals elements. *)
Record TotalsView : Type := {
  total_income : Z;
  total_expense : Z;
  final_balance : Z
}.

(** The outcome of [renderTransactions]: the table body, whether the
    empty-state element is shown, and the totals. *)
Record View : Type := {
  rows : list RowView;
  emptyState : bool;
  totals : TotalsView
}.

(** Outcome of [exportToCSV]: one of its two alerts, or the text handed to
    the download blob. *)
Inductive ExportOutcome : Type :=
| AlertSelectPeriod
| AlertNoData
| Download (csv : string).

(** Outcome of [sendMonthlyClosing]: an alert, a declined confirmation, or
    the [csvContent] passed to the mail API. *)
Inductive ClosingOutcome : Type :=
| ClosingSelectPeriod
| ClosingNoRecipient
| ClosingNoData
| ClosingDeclined
| ClosingSent (csvContent : string).

Module CashBookApp.

(** Byte-order mark U+FEFF (UTF-8: EF BB BF). *)
Definition BOM : string :=
  String (ascii_of_nat 239) (String (ascii_of_nat 187)
    (String (ascii_of_nat 191) EmptyString)).

Definition newline : string := String (ascii_of_nat 10) EmptyString.

(** A value placed between double quotes by a row template. *)
Definition quoted (s : string) : string :=
  String JS.dquote (s ++ String JS.dquote EmptyString).

(** [escapeHtml]: the text is serialised as the content of an element,
    which replaces the ampersand, the two angle brackets and the
    no-break space (U+00A0, bytes C2 A0) by character references. *)
Fixpoint escapeHtml (s : string) : string :=
  match s with
  | EmptyString => EmptyString
  | String c r =>
      if Ascii.eqb c (ascii_of_nat 38) then "&amp;" ++ escapeHtml r
      else if Ascii.eqb c (ascii_of_nat 60) then "&lt;" ++ escapeHtml r
      else if Ascii.eqb c (ascii_of_nat 62) then "&gt;" ++ escapeHtml r
      else if Ascii.eqb c (ascii_of_nat 194) then
        match r with
        | String c' r' =>
            if Ascii.eqb c' (ascii_of_nat 160) then "&nbsp;" ++ escapeHtml r'
            else String c (escapeHtml r)
        | EmptyString => String c EmptyString
        end
      else String c (escapeHtml r)
  end.

(** ** Tax-code tables *)



Definition freeeCodes : list (string * string) :=
  [ ("taxable-10", "課税売上10%");
    ("taxable-8", "軽減税率8%");
    ("non-taxable", "非課税売上");
    ("tax-exempt", "免税売上");
    ("out-of-scope", "対象外") ].

Definition getFreeeTaxCode (taxType : string) : string :=
  JS.lookupOr freeeCodes taxType "課税売上10%".

Definition yayoiCodes : list (string * string) :=
  [ ("taxable-10", "課売10%");
    ("taxable-8", "課売8%");
    ("non-taxable", "非課税");
    ("tax-exempt", "免税");
    ("out-of-scope", "対象外") ].

Definition getYayoiTaxCode (taxType : string) : string :=
  JS.lookupOr yayoiCodes taxType "課売10%".

(** The [taxLabels] table local to [generateBasicCSV]. *)
Definition taxLabels : list (string * string) :=
  [ ("tax10", "課税10%");
    ("tax8", "軽減税率8%");
    ("nontax", "非課税");
    ("taxfree", "免税");
    ("notaxable", "不課税") ].

Definition basicTaxLabel (taxType : string) : string :=
  JS.lookupOr taxLabels taxType "".

(** The [labels] table of [getTaxLabel] (transaction list). *)
Definition labels : list (string * string) :=
  [ ("taxable-10", "課税10%");
    ("taxable-8", "軽減8%");
    ("non-taxable", "非課税");
    ("tax-exempt", "免税");
    ("out-of-scope", "不課税") ].

Definition getTaxLabel (taxType : string) : string :=
  JS.lookupOr labels taxType taxType.

(** ** Totals *)

Definition isIncome (t : Transaction) : bool := TxType_eqb (type t) income.
Definition isExpense (t : Transaction) : bool := TxType_eqb (type t) expense.

(** [xs.reduce((sum, t) => sum + t.amount, 0)]. *)
Definition sumAmounts (xs : list Transaction) : Z :=
  fold_left (fun sum t => sum + amount t) xs 0.

Definition updateTotals (txs : list Transaction) (finalBalance : Z) : TotalsView :=
  let totalIncome := sumAmounts (filter isIncome txs) in
  let totalExpense := sumAmounts (filter isExpense txs) in
  {| total_income := totalIncome;
     total_expense := totalExpense;
     final_balance := finalBalance |}.

(** ** Filter Engine: the filtering part of [renderTransactions]

    The list of active conditions collected for the status line is a
    matter of presentation and is left out. *)

Definition applyFilters (f : FilterInputs) (all : list Transaction)
  : list Transaction :=
  let startDate := filter_start_date f in
  let endDate := filter_end_date f in
  let keyword := JS.trim (JS.toLowerCase (filter_keyword f)) in
  let minAmount := filter_min_amount f in
  let maxAmount := filter_max_amount f in
  let accountSubjectId := filter_account_subject f in
  let filtered := all in
  (* date range *)
  let filtered :=
    if JS.truthy startDate && JS.truthy endDate then
      filter (fun t => JS.str_ge (date t) startDate && JS.str_le (date t) endDate)
             filtered
    else if JS.truthy startDate then
      filter (fun t => JS.str_ge (date t) startDate) filtered
    else if JS.truthy endDate then
      filter (fun t => JS.str_le (date t) endDate) filtered
    else filtered in
  (* keyword, searched in description and client *)
  let filtered :=
    if JS.truthy keyword then
      filter (fun t =>
                JS.includes (JS.toLowerCase (description t)) keyword
                || JS.includes (JS.toLowerCase (client t)) keyword)
             filtered
    else filtered in
  (* amount range *)
  let filtered :=
    match minAmount, maxAmount with
    | None, None => filtered
    | _, _ =>
        let min := match minAmount with Some q => q | None => inject_Z 0 end in
        let max := match maxAmount with Some q => Finite q | None => Infinity end in
        filter (fun t => amount_ge (amount t) min && amount_le (amount t) max)
               filtered
    end in
  (* account subject *)
  let filtered :=
    match accountSubjectId with
    | Some sel => filter (fun t => subject_eq (account_subject_id t) sel) filtered
    | None => filtered
    end in
  filtered.

(** ** Balance Accumulator: the row loop of [renderTransactions] *)

Definition renderRow (a : Acc) (t : Transaction) : Acc * RowView :=
  let income := match type t with income => amount t | expense => 0 end in
  let expense := match type t with expense => amount t | income => 0 end in
  let balance' := balance a + (income - expense) in
  let totalIncome' := totalIncome a + income in
  let totalExpense' := totalExpense a + expense in
  ({| balance := balance'; totalIncome := totalIncome'; totalExpense := totalExpense' |},
   {| row_date := date t;
      row_description := escapeHtml (description t);
      row_client := escapeHtml (client t);
      row_income := if income >? 0 then Some income else None;
      row_expense := if expense >? 0 then Some expense else None;
      row_balance := balance';
      row_taxLabel := getTaxLabel (taxType t) |}).

Fixpoint renderRows (a : Acc) (txs : list Transaction) : Acc * list RowView :=
  match txs with
  | [] => (a, [])
  | t :: rest =>
      let (a1, r) := renderRow a t in
      let (a2, rs) := renderRows a1 rest in
      (a2, r :: rs)
  end.

Section WithApp.

Variable app : App.

Definition getCurrentTransactions : list Transaction :=
  match currentBook app with
  | Some book => transactions book
  | None => []
  end.

Definition getCurrentSettings : Settings :=
  match currentBook app with
  | Some book => settings book
  | None => {| openingBalance := 0; exportFormat := "" |}
  end.

(** The loop of [renderTransactions] started from the opening balance. *)
Definition accumulate (filtered : list Transaction) : Acc * list RowView :=
  let settings := getCurrentSettings in
  renderRows {| balance := JS.orZero (openingBalance settings);
                totalIncome := 0;
                totalExpense := 0 |} filtered.

Definition renderTransactions (f : FilterInputs) : View :=
  let filtered := applyFilters f getCurrentTransactions in
  match filtered with
  | [] =>
      {| rows := []; emptyState := true; totals := updateTotals [] 0 |}
  | _ :: _ =>
      let (acc, body) := accumulate filtered in
      {| rows := body;
         emptyState := false;
         totals := updateTotals filtered (balance acc) |}
  end.

(** ** Account-subject names *)

(** [getAccountSubjectName]: the later of the two definitions in the
    class body, which is the one in force. *)
Definition getAccountSubjectName (accountSubjectId : option Z) : string :=
  match accountSubjects app with
  | [] => ""
  | _ :: _ =>
      match find (fun s => match accountSubjectId with
                           | Some n => subject_id s =? n
                           | None => false
                           end) (accountSubjects app) with
      | Some subject => escapeHtml (subject_name subject)
      | None => ""
      end
  end.

(** The search loop of [getSubAccountName]. *)
Fixpoint findSubAccount (subjects : list AccountSubject) (subAccountId : option Z)
  : string :=
  match subjects with
  | [] => ""
  | subject :: rest =>
      match find (fun s => match subAccountId with
                           | Some n => sub_id s =? n
                           | None => false
                           end) (sub_accounts subject) with
      | Some subAccount => escapeHtml (sub_name subAccount)
      | None => findSubAccount rest subAccountId
      end
  end.

Definition getSubAccountName (subAccountId : option Z) : string :=
  findSubAccount (accountSubjects app) subAccountId.

(** ** Export Formatter *)

Definition basicHeader : string :=
  "取引日,区分,取引内容,取引先,勘定科目,補助科目,入金,出金,残高,消費税区分" ++ newline.

(** The ten comma-separated fields of a row of the basic format;
    [balance] is the running balance after the transaction. *)
Definition basicFields (t : Transaction) (balance : Z) : list string :=
  let type_ := match type t with income => "入金" | expense => "出金" end in
  let income := match type t with income => JS.numToString (amount t) | expense => "" end in
  let expense := match type t with expense => JS.numToString (amount t) | income => "" end in
  let description := JS.escapeQuotes (description t) in
  let client := JS.escapeQuotes (client t) in
  let accountSubject := JS.orElse (getAccountSubjectName (account_subject_id t)) "" in
  let subAccount :=
    match sub_account_id t with
    | Some n => if n =? 0 then "" else getSubAccountName (account_subject_id t)
    | None => ""
    end in
  let taxType := basicTaxLabel (taxType t) in
  [ date t; quoted type_; quoted description; quoted client;
    quoted accountSubject; quoted subAccount;
    income; expense; JS.numToString balance; quoted taxType ].

Definition basicRow (t : Transaction) (balance : Z) : string :=
  String.concat "," (basicFields t balance) ++ newline.

(** One iteration of the [forEach] of [generateBasicCSV] on the pair
    (csv, balance). *)
Definition basicStep (st : string * Z) (t : Transaction) : string * Z :=
  let (csv, balance) := st in
  let balance' :=
    match type t with
    | income => balance + amount t
    | expense => balance - amount t
    end in
  (csv ++ basicRow t balance', balance').

Definition basicLoop (txs : list Transaction) : string * Z :=
  fold_left basicStep txs
            (basicHeader, JS.orZero (openingBalance getCurrentSettings)).

Definition generateBasicCSV (txs : list Transaction) : string :=
  fst (basicLoop txs).

End WithApp.

Definition mfHeader : string :=
  "取引No,取引日,借方勘定科目,借方補助科目,借方部門,借方税区分,借方金額,借方税額,貸方勘定科目,貸方補助科目,貸方部門,貸方税区分,貸方金額,貸方税額,摘要,取引先,品目,メモタグ,期日" ++ newline.

(** Fields of a row of the MF Cloud format; [index] counts from 0. *)
Definition mfFields (index : Z) (t : Transaction) : list string :=
  let amount := JS.numToString (amount t) in
  let description := JS.escapeQuotes (description t) in
  let client := JS.escapeQuotes (client t) in
  match type t with
  | income =>
      [ JS.numToString (index + 1); date t; "現金"; ""; ""; ""; amount; "";
        "売上高"; ""; ""; ""; amount; "";
        quoted description; quoted client; ""; ""; ""; "" ]
  | expense =>
      [ JS.numToString (index + 1); date t; "経費"; ""; ""; ""; amount; "";
        "現金"; ""; ""; ""; amount; "";
        quoted description; quoted client; ""; ""; ""; "" ]
  end.

Definition mfRow (index : Z) (t : Transaction) : string :=
  String.concat "," (mfFields index t) ++ newline.

(** [transactions.forEach((t, index) => csv += row)] from index [i]. *)
Fixpoint appendIndexed (row : Z -> Transaction -> string) (i : Z)
         (txs : list Transaction) (csv : string) : string :=
  match txs with
  | [] => csv
  | t :: rest => appendIndexed row (i + 1) rest (csv ++ row i t)
  end.

Definition generateMFCloudCSV (txs : list Transaction) : string :=
  appendIndexed mfRow 0 txs mfHeader.

Definition freeeHeader : string :=
  "収支区分,管理番号,発生日,決済期日,取引先,勘定科目,税区分,金額,税額,備考,品目,部門,メモタグ,セグメント1,セグメント2,セグメント3" ++ newline.

Definition freeeFields (t : Transaction) : list string :=
  let taxCode := getFreeeTaxCode (taxType t) in
  let amount := JS.numToString (amount t) in
  let description := JS.escapeQuotes (description t) in
  let client := JS.escapeQuotes (client t) in
  let type_ := match type t with income => "収入" | expense => "支出" end in
  let account := match type t with income => "売上高" | expense => "経費" end in
  [ type_; ""; date t; ""; client; account; taxCode; amount; "";
    quoted description; ""; ""; ""; ""; ""; "" ].

Definition freeeRow (t : Transaction) : string :=
  String.concat "," (freeeFields t) ++ newline.

Definition generateFreeeCSV (txs : list Transaction) : string :=
  fold_left (fun csv t => csv ++ freeeRow t) txs freeeHeader.

Definition yayoiHeader : string :=
  "伝票No,決算,取引日付,借方勘定科目,借方補助科目,借方部門,借方税区分,借方金額,借方税額,貸方勘定科目,貸方補助科目,貸方部門,貸方税区分,貸方金額,貸方税額,摘要,期日,証憑番号,入力マシン,入力ユーザ,入力アプリ,入力会社,入力日付" ++ newline.

Definition yayoiFields (index : Z) (t : Transaction) : list string :=
  let taxCode := getYayoiTaxCode (taxType t) in
  let amount := JS.numToString (amount t) in
  let description := JS.escapeQuotes (description t) in
  match type t with
  | income =>
      [ JS.numToString (index + 1); ""; date t; "現金"; ""; ""; taxCode; amount; "";
        "売上高"; ""; ""; taxCode; amount; "";
        quoted description; ""; ""; ""; ""; ""; ""; ""; "" ]
  | expense =>
      [ JS.numToString (index + 1); ""; date t; "経費"; ""; ""; taxCode; amount; "";
        "現金"; ""; ""; taxCode; amount; "";
        quoted description; ""; ""; ""; ""; ""; ""; ""; "" ]
  end.

Definition yayoiRow (index : Z) (t : Transaction) : string :=
  String.concat "," (yayoiFields index t) ++ newline.

Definition generateYayoiCSV (txs : list Transaction) : string :=
  appendIndexed yayoiRow 0 txs yayoiHeader.

(** The month filter shared by [previewMonthlyClosing], [exportToCSV] and
    [sendMonthlyClosing]. *)
Definition inMonthRange (startMonth endMonth : string) (t : Transaction) : bool :=
  let transMonth := JS.substring0 7 (date t) in
  JS.str_ge transMonth startMonth && JS.str_le transMonth endMonth.

Section Exporting.

Variable app : App.

(** [exportToCSV]; the file name and the toast are left out. *)
Definition exportToCSV (startMonth endMonth : string) : ExportOutcome :=
  if negb (JS.truthy startMonth) || negb (JS.truthy endMonth) then
    AlertSelectPeriod
  else
    let filtered :=
      filter (inMonthRange startMonth endMonth) (getCurrentTransactions app) in
    match filtered with
    | [] => AlertNoData
    | _ :: _ =>
        let plan := JS.orElse (plan app) "free" in
        let format :=
          if String.eqb plan "basic" || String.eqb plan "professional"
          then JS.orElse (exportFormat (getCurrentSettings app)) "mf"
          else "basic" in
        let csv := BOM in
        let csv :=
          if String.eqb format "basic" then csv ++ generateBasicCSV app filtered
          else if String.eqb format "mf" then csv ++ generateMFCloudCSV filtered
          else if String.eqb format "freee" then csv ++ generateFreeeCSV filtered
          else if String.eqb format "yayoi" then csv ++ generateYayoiCSV filtered
          else csv ++ generateMFCloudCSV filtered in
        Download csv
    end.

(** [sendMonthlyClosing] up to the call of the mail API.
    [selectedRecipient] is the entry of the recipient list picked in the
    select, if any; [confirmed] is the answer to the confirmation. *)
Definition sendMonthlyClosing (startMonth endMonth : string)
           (selectedRecipient : option string) (confirmed : bool)
  : ClosingOutcome :=
  if negb (JS.truthy startMonth) || negb (JS.truthy endMonth) then
    ClosingSelectPeriod
  else
    match selectedRecipient with
    | None => ClosingNoRecipient
    | Some _ =>
        let filtered :=
          filter (inMonthRange startMonth endMonth) (getCurrentTransactions app) in
        match filtered with
        | [] => ClosingNoData
        | _ :: _ =>
            let format := JS.orElse (exportFormat (getCurrentSettings app)) "mf" in
            if negb confirmed then ClosingDeclined
            else
              let csvContent :=
                if String.eqb format "mf" then generateMFCloudCSV filtered
                else if String.eqb format "freee" then generateFreeeCSV filtered
                else if String.eqb format "yayoi" then generateYayoiCSV filtered
                else generateBasicCSV app filtered in
              ClosingSent csvContent
        end
    end.

End Exporting.

End CashBookApp.

(* ================================================================== *)
(** * Coupons: [src/routes/coupons.ts] *)
(* ================================================================== *)

Module Coupons.

(** A row of the [coupons] table.  Columns without [NOT NULL] are
    optional; [DATETIME] values are the stored text. *)
Record Coupon : Type := {
  id : Z;
  code : string;
  discount_type : string;
  discount_value : Q;
  plan_restriction : option string;
  max_redemptions : option Z;
  redemption_count : option Z;
  valid_from : option string;
  valid_until : option string;
  is_active : option Z;
  stripe_coupon_id : option string
}.

(** A row of the [coupon_redemptions] table. *)
Record Redemption : Type := {
  redemption_id : Z;
  coupon_id : Z;
  user_id : Z;
  redeemed_at : string
}.

(** The two tables the coupon routes work on. *)
Record DB : Type := {
  coupons : list Coupon;
  coupon_redemptions : list Redemption
}.

(** ** SQL three-valued logic *)

Inductive tri : Type := TTrue | TFalse | TNull.

Definition tri_of_bool (b : bool) : tri := if b then TTrue else TFalse.

Definition tri_and (a b : tri) : tri :=
  match a, b with
  | TFalse, _ | _, TFalse => TFalse
  | TTrue, TTrue => TTrue
  | _, _ => TNull
  end.

Definition tri_or (a b : tri) : tri :=
  match a, b with
  | TTrue, _ | _, TTrue => TTrue
  | TFalse, TFalse => TFalse
  | _, _ => TNull
  end.

(** [x IS NULL]. *)
Definition is_null {A : Type} (x : option A) : tri :=
  match x with None => TTrue | Some _ => TFalse end.

(** A comparison is NULL as soon as one operand is. *)
Definition cmp {A : Type} (op : A -> A -> bool) (x y : option A) : tri :=
  match x, y with
  | Some a, Some b => tri_of_bool (op a b)
  | _, _ => TNull
  end.

(** The [WHERE] clause of the validation query; [code] and [plan] are the
    bound parameters (a string or NULL), [now] is [datetime('now')]. *)
Definition validWhere (code plan : option string) (now : string) (c : Coupon) : tri :=
  tri_and (cmp String.eqb (Some (Coupons.code c)) code)
 (tri_and (cmp Z.eqb (is_active c) (Some 1))
 (tri_and (tri_or (is_null (valid_from c))
                  (cmp String.leb (valid_from c) (Some now)))
 (tri_and (tri_or (is_null (valid_until c))
                  (cmp String.leb (Some now) (valid_until c)))
 (tri_and (tri_or (is_null (max_redemptions c))
                  (cmp Z.ltb (redemption_count c) (max_redemptions c)))
          (tri_or (is_null (plan_restriction c))
                  (cmp String.eqb (plan_restriction c) plan)))))).

(** A [SELECT ... WHERE w] followed by [.first()]: the first row for which
    the clause is true. *)
Definition selectFirst (w : Coupon -> tri) (rows : list Coupon) : option Coupon :=
  find (fun c => match w c with TTrue => true | _ => false end) rows.

(** ** Handlers as state transformers on the database *)

Definition DBM (A : Type) : Type := DB -> A * DB.

Definition ret {A : Type} (a : A) : DBM A := fun db => (a, db).

Definition bind {A B : Type} (m : DBM A) (k : A -> DBM B) : DBM B :=
  fun db => let (a, db') := m db in k a db'.

(** [db.prepare(query).bind(...).first()] for a [SELECT]. *)
Definition first {A : Type} (query : DB -> option A) : DBM (option A) :=
  fun db => (query db, db).

(** [db.prepare(stmt).bind(...).run()] for a statement that writes. *)
Definition run (stmt : DB -> DB) : DBM unit :=
  fun db => (tt, stmt db).

Notation "x <- m ;; k" := (bind m (fun x => k))
  (at level 61, m at next level, right associativity).

(** JSON responses of the handlers. *)
Inductive Response : Type :=
| Json200Valid (coupon : Coupon)     (* { coupon, valid: true } *)
| Json200Success                     (* { success: true } *)
| Json400 (error : string)
| Json500 (error : string).

(** The request body after [c.req.json()]: the message of the error when
    reading the body throws, else the [code] and [plan] members, each a
    string or null. *)
Definition Body : Type := (string + (option string * option string))%type.

(** [coupons.post('/validate')]. *)
Definition validate (body : Body) (now : string) : DBM Response :=
  match body with
  | inl message => ret (Json500 message)
  | inr (code, plan) =>
      coupon <- first (fun db => selectFirst (validWhere code plan now) (coupons db)) ;;
      match coupon with
      | None => ret (Json400 "Invalid or expired coupon")
      | Some coupon => ret (Json200Valid coupon)
      end
  end.

(** [coupons.delete('/:id')]: deleting a coupon cascades to its
    redemptions. *)
Definition deleteCoupon (couponId : Z) : DBM Response :=
  _ <- run (fun db =>
              {| coupons := filter (fun c => negb (id c =? couponId)) (coupons db);
                 coupon_redemptions :=
                   filter (fun r => negb (coupon_id r =? couponId))
                          (coupon_redemptions db) |}) ;;
  ret Json200Success.

(** A sequence of validation requests served one after the other. *)
Fixpoint validateAll (reqs : list (Body * string)) : DBM (list Response) :=
  match reqs with
  | [] => ret []
  | (body, now) :: rest =>
      r <- validate body now ;;
      rs <- validateAll rest ;;
      ret (r :: rs)
  end.

End Coupons.

(* ================================================================== *)
(** * Bearer tokens: [generateToken] and [verifyToken] *)
(* ================================================================== *)

(** [btoa] and [atob] on binary strings. *)
Module Base64.

Local Open Scope nat_scope.

(** The character of the base64 alphabet for a six-bit value. *)
Definition alphabetChar (n : nat) : ascii :=
  if n <? 26 then ascii_of_nat (65 + n)
  else if n <? 52 then ascii_of_nat (97 + (n - 26))
  else if n <? 62 then ascii_of_nat (48 + (n - 52))
  else if n =? 62 then ascii_of_nat 43
  else ascii_of_nat 47.

(** The six-bit value of a character of the alphabet. *)
Definition sextetOf (c : ascii) : option nat :=
  let k := nat_of_ascii c in
  if (65 <=? k) && (k <=? 90) then Some (k - 65)
  else if (97 <=? k) && (k <=? 122) then Some (k - 71)
  else if (48 <=? k) && (k <=? 57) then Some (k + 4)
  else if k =? 43 then Some 62
  else if k =? 47 then Some 63
  else None.

Definition pad : ascii := ascii_of_nat 61.

(** [btoa]: three bytes give four characters; a last group of one or two
    bytes is padded. *)
Fixpoint btoa (s : string) : string :=
  match s with
  | EmptyString => EmptyString
  | String a EmptyString =>
      let x := nat_of_ascii a in
      String (alphabetChar (x / 4))
        (String (alphabetChar (x mod 4 * 16))
           (String pad (String pad EmptyString)))
  | String a (String b EmptyString) =>
      let x := nat_of_ascii a in
      let y := nat_of_ascii b in
      String (alphabetChar (x / 4))
        (String (alphabetChar (x mod 4 * 16 + y / 16))
           (String (alphabetChar (y mod 16 * 4))
              (String pad EmptyString)))
  | String a (String b (String c rest)) =>
      let x := nat_of_ascii a in
      let y := nat_of_ascii b in
      let z := nat_of_ascii c in
      String (alphabetChar (x / 4))
        (String (alphabetChar (x mod 4 * 16 + y / 16))
           (String (alphabetChar (y mod 16 * 4 + z / 64))
              (String (alphabetChar (z mod 64)) (btoa rest))))
  end.

(** ASCII white space ignored by [atob]: TAB, LF, FF, CR, SPACE. *)
Definition isAsciiWhitespace (c : ascii) : bool :=
  let k := nat_of_ascii c in
  (k =? 9) || (k =? 10) || (k =? 12) || (k =? 13) || (k =? 32).

Fixpoint stripWhitespace (s : string) : string :=
  match s with
  | EmptyString => EmptyString
  | String c r =>
      if isAsciiWhitespace c then stripWhitespace r
      else String c (stripWhitespace r)
  end.

(** Two characters carry one byte, three carry two, four carry three;
    the bits left over in a short last group are dropped. *)
Definition dec2 (c1 c2 : ascii) : option string :=
  match sextetOf c1, sextetOf c2 with
  | Some p, Some q =>
      Some (String (ascii_of_nat (p * 4 + q / 16)) EmptyString)
  | _, _ => None
  end.

Definition dec3 (c1 c2 c3 : ascii) : option string :=
  match sextetOf c1, sextetOf c2, sextetOf c3 with
  | Some p, Some q, Some r =>
      Some (String (ascii_of_nat (p * 4 + q / 16))
              (String (ascii_of_nat (q mod 16 * 16 + r / 4)) EmptyString))
  | _, _, _ => None
  end.

Definition dec4 (c1 c2 c3 c4 : ascii) (tail : string) : option string :=
  match sextetOf c1, sextetOf c2, sextetOf c3, sextetOf c4 with
  | Some p, Some q, Some r, Some t =>
      Some (String (ascii_of_nat (p * 4 + q / 16))
              (String (ascii_of_nat (q mod 16 * 16 + r / 4))
                 (String (ascii_of_nat (r mod 4 * 64 + t)) tail)))
  | _, _, _, _ => None
  end.

(** Forgiving base64 decoding of a string without white space: one or
    two padding characters are accepted at the end of a last group of
    four; a character outside the alphabet elsewhere, or a lone last
    character, is an error. *)
Fixpoint decode (s : string) : option string :=
  match s with
  | EmptyString => Some EmptyString
  | String c1 EmptyString => None
  | String c1 (String c2 EmptyString) => dec2 c1 c2
  | String c1 (String c2 (String c3 EmptyString)) => dec3 c1 c2 c3
  | String c1 (String c2 (String c3 (String c4 rest))) =>
      match rest with
      | EmptyString =>
          if Ascii.eqb c4 pad then
            if Ascii.eqb c3 pad then dec2 c1 c2 else dec3 c1 c2 c3
          else dec4 c1 c2 c3 c4 EmptyString
      | String _ _ =>
          match decode rest with
          | Some tail => dec4 c1 c2 c3 c4 tail
          | None => None
          end
      end
  end.

(** [atob]; [None] when it throws. *)
Definition atob (s : string) : option string := decode (stripWhitespace s).

End Base64.

(** [JSON.stringify] and [JSON.parse] on the fragment of JSON the tokens
    live in: numbers are integer literals (a fraction or exponent part is
    not modelled and is refused), strings may use the two-character escapes
    (the four-digit unicode escape is not modelled and is refused). *)
Module JSON.

#[warnings="-register-all"] Inductive value : Type :=
| Null
| Bool (b : bool)
| Number (z : Z)
| Str (s : string)
| Array (elements : list value)
| Object (members : list (string * value)).

Definition q : string := String JS.dquote EmptyString.

(** [JSON.stringify({ userId, exp })] for two integer-valued numbers. *)
Definition stringifyPayload (userId exp : Z) : string :=
  "{" ++ q ++ "userId" ++ q ++ ":" ++ JS.numToString userId ++ ","
      ++ q ++ "exp" ++ q ++ ":" ++ JS.numToString exp ++ "}".

Definition isWs (c : ascii) : bool :=
  let k := nat_of_ascii c in
  ((k =? 32) || (k =? 9) || (k =? 10) || (k =? 13))%nat.

Fixpoint skipWs (s : string) : string :=
  match s with
  | EmptyString => EmptyString
  | String c r => if isWs c then skipWs r else s
  end.

Definition isDigit (c : ascii) : bool :=
  let k := nat_of_ascii c in
  ((48 <=? k) && (k <=? 57))%nat.

(** Splits off the longest prefix of digits. *)
Fixpoint spanDigits (s : string) : string * string :=
  match s with
  | EmptyString => (EmptyString, EmptyString)
  | String c r =>
      if isDigit c then
        let (ds, rest) := spanDigits r in (String c ds, rest)
      else (EmptyString, s)
  end.

(** What may not follow the integer part in the fragment. *)
Definition startsFraction (s : string) : bool :=
  match s with
  | EmptyString => false
  | String c _ =>
      let k := nat_of_ascii c in
      ((k =? 46) || (k =? 101) || (k =? 69))%nat
  end.

(** The text after a number: neither a digit nor the start of a fraction
    or exponent. *)
Definition endsNumber (rest : string) : Prop :=
  spanDigits rest = (EmptyString, rest) /\ startsFraction rest = false.

Definition parseDigits (negative : bool) (s : string) : option (value * string) :=
  let (ds, rest) := spanDigits s in
  let leadingZero :=
    match ds with
    | String c (String _ _) => (nat_of_ascii c =? 48)%nat
    | _ => false
    end in
  match ds with
  | EmptyString => None
  | String _ _ =>
      if leadingZero || startsFraction rest then None
      else
        match NilEmpty.uint_of_string ds with
        | Some u =>
            Some (Number (if negative then - Z.of_uint u else Z.of_uint u), rest)
        | None => None
        end
  end.

Definition parseNumber (s : string) : option (value * string) :=
  match s with
  | EmptyString => None
  | String c r =>
      if (nat_of_ascii c =? 45)%nat then parseDigits true r
      else parseDigits false s
  end.

(** The character denoted by a two-character escape. *)
Definition unescape (e : ascii) : option ascii :=
  let k := nat_of_ascii e in
  if (k =? 34)%nat then Some e
  else if (k =? 92)%nat then Some e
  else if (k =? 47)%nat then Some e
  else if (k =? 98)%nat then Some (ascii_of_nat 8)
  else if (k =? 102)%nat then Some (ascii_of_nat 12)
  else if (k =? 110)%nat then Some (ascii_of_nat 10)
  else if (k =? 114)%nat then Some (ascii_of_nat 13)
  else if (k =? 116)%nat then Some (ascii_of_nat 9)
  else None.

(** The contents of a string literal, read after its opening quote. *)
Fixpoint parseStringBody (s : string) : option (string * string) :=
  match s with
  | EmptyString => None
  | String c r =>
      let k := nat_of_ascii c in
      if (k =? 34)%nat then Some (EmptyString, r)
      else if (k =? 92)%nat then
        match r with
        | EmptyString => None
        | String e r' =>
            match unescape e, parseStringBody r' with
            | Some ch, Some (str, rest) => Some (String ch str, rest)
            | _, _ => None
            end
        end
      else if (k <? 32)%nat then None
      else
        match parseStringBody r with
        | Some (str, rest) => Some (String c str, rest)
        | None => None
        end
  end.

Definition dropPrefix (n : nat) (s : string) : string :=
  String.substring n (String.length s - n) s.

Section Composite.

(** The parser of a nested value. *)
Variable parseValue : string -> option (value * string).

(** Members of an object after the opening brace or a comma; [n]
    bounds the number of members. *)
Fixpoint parseMembers (n : nat) (s : string) (acc : list (string * value))
  : option (value * string) :=
  match n with
  | O => None
  | S n' =>
      match skipWs s with
      | EmptyString => None
      | String c r =>
          if (nat_of_ascii c =? 34)%nat then
            match parseStringBody r with
            | None => None
            | Some (key, r1) =>
                match skipWs r1 with
                | EmptyString => None
                | String c1 r2 =>
                    if (nat_of_ascii c1 =? 58)%nat then
                      match parseValue r2 with
                      | None => None
                      | Some (v, r3) =>
                          match skipWs r3 with
                          | EmptyString => None
                          | String c2 r4 =>
                              if (nat_of_ascii c2 =? 44)%nat then
                                parseMembers n' r4 (acc ++ [(key, v)])
                              else if (nat_of_ascii c2 =? 125)%nat then
                                Some (Object (acc ++ [(key, v)]), r4)
                              else None
                          end
                      end
                    else None
                end
            end
          else None
      end
  end.

(** Elements of an array after the opening bracket or a comma. *)
Fixpoint parseElements (n : nat) (s : string) (acc : list value)
  : option (value * string) :=
  match n with
  | O => None
  | S n' =>
      match parseValue s with
      | None => None
      | Some (v, r1) =>
          match skipWs r1 with
          | EmptyString => None
          | String c r2 =>
              if (nat_of_ascii c =? 44)%nat then parseElements n' r2 (acc ++ [v])
              else if (nat_of_ascii c =? 93)%nat then Some (Array (acc ++ [v]), r2)
              else None
          end
      end
  end.

End Composite.

(** A value, with leading white space; [fuel] bounds the nesting depth
    and the number of members of each composite. *)
Fixpoint parseValue (fuel : nat) (s : string) : option (value * string) :=
  match fuel with
  | O => None
  | S fuel' =>
      match skipWs s with
      | EmptyString => None
      | String c r =>
          let k := nat_of_ascii c in
          if (k =? 123)%nat then
            match skipWs r with
            | String c' r' =>
                if (nat_of_ascii c' =? 125)%nat then Some (Object [], r')
                else parseMembers (parseValue fuel') fuel' r []
            | EmptyString => None
            end
          else if (k =? 91)%nat then
            match skipWs r with
            | String c' r' =>
                if (nat_of_ascii c' =? 93)%nat then Some (Array [], r')
                else parseElements (parseValue fuel') fuel' r []
            | EmptyString => None
            end
          else if (k =? 34)%nat then
            match parseStringBody r with
            | Some (str, rest) => Some (Str str, rest)
            | None => None
            end
          else if (k =? 45)%nat || isDigit c then parseNumber (String c r)
          else if JS.startsWith (String c r) "true" then
            Some (Bool true, dropPrefix 4 (String c r))
          else if JS.startsWith (String c r) "false" then
            Some (Bool false, dropPrefix 5 (String c r))
          else if JS.startsWith (String c r) "null" then
            Some (Null, dropPrefix 4 (String c r))
          else None
      end
  end.

(** [JSON.parse]; [None] when it throws.  The fuel exceeds the length of
    the text, hence its nesting depth and member counts. *)
Definition parse (s : string) : option value :=
  match parseValue (S (String.length s)) s with
  | Some (v, rest) =>
      match skipWs rest with
      | EmptyString => Some v
      | String _ _ => None
      end
  | None => None
  end.

End JSON.

Module Auth.

(** A value read from a parsed payload: [undefined] or a JSON value. *)
Inductive jsval : Type := Undefined | Val (v : JSON.value).

(** The member of an object literal named [name]; of duplicates, the
    last one counts. *)
Fixpoint member (ms : list (string * JSON.value)) (name : string) : jsval :=
  match ms with
  | [] => Undefined
  | (k, v) :: rest =>
      match member rest name with
      | Undefined => if String.eqb k name then Val v else Undefined
      | found => found
      end
  end.

(** [payload.name] for the names [exp] and [userId]; [None] when the
    access throws, which it does on [null]. *)
Definition getProp (payload : JSON.value) (name : string) : option jsval :=
  match payload with
  | JSON.Null => None
  | JSON.Object ms => Some (member ms name)
  | _ => Some Undefined
  end.

(** [String(v)] for a primitive, and the comma-separated rendering of an
    array. *)
Fixpoint toString (v : JSON.value) : string :=
  match v with
  | JSON.Null => "null"
  | JSON.Bool true => "true"
  | JSON.Bool false => "false"
  | JSON.Number z => JS.numToString z
  | JSON.Str s => s
  | JSON.Array l =>
      String.concat ","
        (map (fun e => match e with JSON.Null => "" | _ => toString e end) l)
  | JSON.Object _ => "[object Object]"
  end.

(** Conversion of a string to a number: the empty string is 0, a signed
    integer numeral is its value, anything else is NaN ([None]).  Numerals
    with a fraction, an exponent or a radix prefix, and [Infinity], are
    not modelled. *)
Definition stringToNumber (s : string) : option Z :=
  match JS.trim s with
  | EmptyString => Some 0
  | String c r =>
      let (negative, ds) :=
        if (nat_of_ascii c =? 45)%nat then (true, r)
        else if (nat_of_ascii c =? 43)%nat then (false, r)
        else (false, String c r) in
      match ds with
      | EmptyString => None
      | String _ _ =>
          match NilEmpty.uint_of_string ds with
          | Some u => Some (if negative then - Z.of_uint u else Z.of_uint u)
          | None => None
          end
      end
  end.

(** Conversion to a number, as done by a comparison with a number. *)
Definition toNumber (x : jsval) : option Z :=
  match x with
  | Undefined => None
  | Val JSON.Null => Some 0
  | Val (JSON.Bool b) => Some (if b then 1 else 0)
  | Val (JSON.Number z) => Some z
  | Val (JSON.Str s) => stringToNumber s
  | Val (JSON.Array l) => stringToNumber (toString (JSON.Array l))
  | Val (JSON.Object _) => None
  end.

(** [x < n] for a number [n]: false when [x] converts to NaN. *)
Definition lessThan (x : jsval) (n : Z) : bool :=
  match toNumber x with
  | Some z => z <? n
  | None => false
  end.

(** Thirty days, in seconds. *)
Definition thirtyDays : Z := 60 * 60 * 24 * 30.

(** [generateToken(userId)] when [Date.now()] is [now] milliseconds. *)
Definition generateToken (userId : Z) (now : Z) : string :=
  let exp := now / 1000 + thirtyDays in
  Base64.btoa (JSON.stringifyPayload userId exp).

(** [verifyToken(token)] when [Date.now()] is [now] milliseconds: [None]
    is [null], [Some u] is the object whose [userId] member is [u]. *)
Definition verifyToken (token : string) (now : Z) : option jsval :=
  match Base64.atob token with
  | None => None
  | Some text =>
      match JSON.parse text with
      | None => None
      | Some payload =>
          match getProp payload "exp" with
          | None => None
          | Some exp =>
              if lessThan exp (now / 1000) then None
              else getProp payload "userId"
          end
      end
  end.

End Auth.

(* ================================================================== *)
(** * The specification's own notions *)
(* ================================================================== *)

Module Spec.

(** Sum of the amounts of the transactions of one type (spec, 4.2, 8). *)
Definition sumOf (ty : TxType) (txs : list Transaction) : Z :=
  fold_right Z.add 0 (map amount (filter (fun t => TxType_eqb (type t) ty) txs)).

(** The keyword option as the engine uses it: lower-cased and trimmed. *)
Definition keywordOf (f : FilterInputs) : string :=
  JS.trim (JS.toLowerCase (filter_keyword f)).

(** [dateFrom]: inclusive lower bound on the date, when supplied. *)
Definition dateFromOk (f : FilterInputs) (t : Transaction) : bool :=
  match filter_start_date f with
  | EmptyString => true
  | from => String.leb from (date t)
  end.

(** [dateTo]: inclusive upper bound on the date, when supplied. *)
Definition dateToOk (f : FilterInputs) (t : Transaction) : bool :=
  match filter_end_date f with
  | EmptyString => true
  | to => String.leb (date t) to
  end.

(** [keyword]: case-insensitive substring match against the description or
    the counterparty name, when supplied. *)
Definition keywordOk (f : FilterInputs) (t : Transaction) : bool :=
  match keywordOf f with
  | EmptyString => true
  | k => JS.includes (JS.toLowerCase (description t)) k
         || JS.includes (JS.toLowerCase (client t)) k
  end.

(** [minAmount]/[maxAmount]: inclusive bounds, when one is supplied; the
    missing bound is 0, respectively +infinity. *)
Definition amountOk (f : FilterInputs) (t : Transaction) : bool :=
  match filter_min_amount f, filter_max_amount f with
  | None, None => true
  | Some lo, Some hi =>
      Qle_bool lo (inject_Z (amount t)) && Qle_bool (inject_Z (amount t)) hi
  | Some lo, None => Qle_bool lo (inject_Z (amount t))
  | None, Some hi =>
      Qle_bool (inject_Z 0) (inject_Z (amount t))
      && Qle_bool (inject_Z (amount t)) hi
  end.

(** [accountSubjectId]: exact match, when supplied. *)
Definition subjectOk (f : FilterInputs) (t : Transaction) : bool :=
  match filter_account_subject f with
  | None => true
  | Some sel =>
      match account_subject_id t with
      | Some n => n =? sel
      | None => false
      end
  end.






(** The conjunction of the supplied predicates. *)
Definition matches (f : FilterInputs) (t : Transaction) : bool :=
  dateFromOk f t && dateToOk f t && keywordOk f t && amountOk f t && subjectOk f t.

(** The filter specification with no option set. *)
Definition noOptions : FilterInputs :=
  {| filter_start_date := "";
     filter_end_date := "";
     filter_keyword := "";
     filter_min_amount := None;
     filter_max_amount := None;
     filter_account_subject := None |}.


(** A coupon is usable (spec, 3): active, within its validity window when
    bounds are set, with a redemption count strictly below its cap when a
    cap is set, and, when restricted to a plan, requested for that plan. *)
Definition usable (c : Coupons.Coupon) (now : string) (plan : option string) : Prop :=
  Coupons.is_active c = Some 1 /\
  (forall from, Coupons.valid_from c = Some from -> String.leb from now = true) /\
  (forall until, Coupons.valid_until c = Some until -> String.leb now until = true) /\
  (forall cap, Coupons.max_redemptions c = Some cap ->
               exists n, Coupons.redemption_count c = Some n /\ n < cap) /\
  (forall r, Coupons.plan_restriction c = Some r -> plan = Some r).


End Spec.

Import CashBookApp.

(* ================================================================== *)
(** * Sample data *)
(* ================================================================== *)

(** A book with an opening balance of 5000 and no transaction. *)
Definition emptyBookApp : App :=
  {| currentBook :=
       Some {| businessName := "Shop";
               accountName := "Cash";
               settings := {| openingBalance := 5000; exportFormat := "" |};
               transactions := [] |};
     accountSubjects := [];
     plan := "" |}.

(** A book on the basic plan holding one income of 10000 from a client
    whose name has a comma and double quotes, exported as freee. *)
Definition quotedClientTx : Transaction :=
  {| txid := "1";
     date := "2024-01-05";
     type := income;
     description := "Consulting";
     client := "Acme, " ++ CashBookApp.quoted "Inc";
     amount := 10000;
     account_subject_id := None;
     sub_account_id := None;
     taxType := "taxable-10";
     receiptPDF := None |}.

Definition freeeBookApp : App :=
  {| currentBook :=
       Some {| businessName := "Shop";
               accountName := "Cash";
               settings := {| openingBalance := 0; exportFormat := "freee" |};
               transactions := [quotedClientTx] |};
     accountSubjects := [];
     plan := "basic" |}.

(** Scenario F: a coupon capped at one redemption, redeemed once. *)
Definition onceCoupon : Coupons.Coupon :=
  {| Coupons.id := 1;
     Coupons.code := "ONCE";
     Coupons.discount_type := "percentage";
     Coupons.discount_value := inject_Z 10;
     Coupons.plan_restriction := None;
     Coupons.max_redemptions := Some 1;
     Coupons.redemption_count := Some 1;
     Coupons.valid_from := None;
     Coupons.valid_until := None;
     Coupons.is_active := Some 1;
     Coupons.stripe_coupon_id := None |}.

(** The same coupon before its redemption. *)
Definition freshCoupon : Coupons.Coupon :=
  {| Coupons.id := 1;
     Coupons.code := "ONCE";
     Coupons.discount_type := "percentage";
     Coupons.discount_value := inject_Z 10;
     Coupons.plan_restriction := None;
     Coupons.max_redemptions := Some 1;
     Coupons.redemption_count := Some 0;
     Coupons.valid_from := None;
     Coupons.valid_until := None;
     Coupons.is_active := Some 1;
     Coupons.stripe_coupon_id := None |}.

Definition onceDB : Coupons.DB :=
  {| Coupons.coupons := [onceCoupon];
     Coupons.coupon_redemptions :=
       [ {| Coupons.redemption_id := 1;
            Coupons.coupon_id := 1;
            Coupons.user_id := 7;
            Coupons.redeemed_at := "2024-01-05 10:00:00" |} ] |}.

Definition freshDB : Coupons.DB :=
  {| Coupons.coupons := [freshCoupon]; Coupons.coupon_redemptions := [] |}.


(** A transaction with the fields the scenarios of the specification
    mention; the others are unset. *)
Definition mkTx (d : string) (ty : TxType) (desc cl : string) (amt : Z) : Transaction :=
  {| txid := "0";
     date := d;
     type := ty;
     description := desc;
     client := cl;
     amount := amt;
     account_subject_id := None;
     sub_account_id := None;
     taxType := "";
     receiptPDF := None |}.

(** An app whose current book has the given opening balance and
    transactions. *)
Definition appWith (opening : Z) (txs : list Transaction) : App :=
  {| currentBook :=
       Some {| businessName := "Shop";
               accountName := "Cash";
               settings := {| openingBalance := opening; exportFormat := "" |};
               transactions := txs |};
     accountSubjects := [];
     plan := "" |}.

(** Filter specifications with a single option set. *)
Definition keywordOnly (k : string) : FilterInputs :=
  {| filter_start_date := "";
     filter_end_date := "";
     filter_keyword := k;
     filter_min_amount := None;
     filter_max_amount := None;
     filter_account_subject := None |}.

Definition amountsOnly (lo hi : Z) : FilterInputs :=
  {| filter_start_date := "";
     filter_end_date := "";
     filter_keyword := "";
     filter_min_amount := Some (inject_Z lo);
     filter_max_amount := Some (inject_Z hi);
     filter_account_subject := None |}.

Definition datesOnly (from to : string) : FilterInputs :=
  {| filter_start_date := from;
     filter_end_date := to;
     filter_keyword := "";
     filter_min_amount := None;
     filter_max_amount := None;
     filter_account_subject := None |}.

(* ================================================================== *)
(** * Further code of the client *)
(* ================================================================== *)

(** What [previewMonthlyClosing] writes to the closing summary. *)
Record ClosingSummary : Type := {
  summary_period : string;
  summary_count : nat;
  summary_income : Z;
  summary_expense : Z;
  summary_balance : Z
}.

(** Outcome of [previewMonthlyClosing]: one of its three alerts, or the
    summary shown, with which the export and send buttons are enabled. *)
Inductive PreviewOutcome : Type :=
| PreviewSelectPeriod
| PreviewStartAfterEnd
| PreviewNoData
| PreviewShown (summary : ClosingSummary).

Module Closing.

(** [a > b] on strings. *)
Definition str_gt (a b : string) : bool := String.ltb b a.

Section ClosingApp.

Variable app : App.

(** [previewMonthlyClosing]; the toast is left out. *)
Definition previewMonthlyClosing (startMonth endMonth : string) : PreviewOutcome :=
  if negb (JS.truthy startMonth) || negb (JS.truthy endMonth) then
    PreviewSelectPeriod
  else if str_gt startMonth endMonth then
    PreviewStartAfterEnd
  else
    let filtered :=
      filter (CashBookApp.inMonthRange startMonth endMonth)
             (CashBookApp.getCurrentTransactions app) in
    match filtered with
    | [] => PreviewNoData
    | _ :: _ =>
        let totalIncome :=
          CashBookApp.sumAmounts (filter CashBookApp.isIncome filtered) in
        let totalExpense :=
          CashBookApp.sumAmounts (filter CashBookApp.isExpense filtered) in
        let periodDisplay :=
          if String.eqb startMonth endMonth then startMonth
          else startMonth ++ " ～ " ++ endMonth in
        PreviewShown
          {| summary_period := periodDisplay;
             summary_count := List.length filtered;
             summary_income := totalIncome;
             summary_expense := totalExpense;
             summary_balance := totalIncome - totalExpense |}
    end.

End ClosingApp.

End Closing.

(** A reader of CSV fields, by which the quoting of the generators is
    shown to be unambiguous. *)
Module CSVReader.

(** The rows of a payload put one after the other. *)
Definition joinRows (rows : list string) : string :=
  fold_right append EmptyString rows.

(** Contents of a quoted field, read after its opening quote: two
    consecutive quotes stand for one, a single quote closes the field. *)
Fixpoint readQuotedBody (s : string) : option (string * string) :=
  match s with
  | EmptyString => None
  | String c r =>
      if Ascii.eqb c JS.dquote then
        match r with
        | String c' r' =>
            if Ascii.eqb c' JS.dquote then
              match readQuotedBody r' with
              | Some (body, rest) => Some (String JS.dquote body, rest)
              | None => None
              end
            else Some (EmptyString, r)
        | EmptyString => Some (EmptyString, EmptyString)
        end
      else
        match readQuotedBody r with
        | Some (body, rest) => Some (String c body, rest)
        | None => None
        end
  end.

(** A quoted field at the head of [s]: its contents and what follows. *)
Definition readQuoted (s : string) : option (string * string) :=
  match s with
  | String c r => if Ascii.eqb c JS.dquote then readQuotedBody r else None
  | EmptyString => None
  end.

(** An unquoted field at the head of [s]: the text up to the next comma
    or line feed. *)
Fixpoint readBare (s : string) : string * string :=
  match s with
  | EmptyString => (EmptyString, EmptyString)
  | String c r =>
      if Ascii.eqb c (ascii_of_nat 44) || Ascii.eqb c (ascii_of_nat 10)
      then (EmptyString, s)
      else let (field, rest) := readBare r in (String c field, rest)
  end.

End CSVReader.

(** A transaction with another sub-account. *)
Definition withSubAccount (t : Transaction) (sub : option Z) : Transaction :=
  {| txid := txid t;
     date := date t;
     type := type t;
     description := description t;
     client := client t;
     amount := amount t;
     account_subject_id := account_subject_id t;
     sub_account_id := sub;
     taxType := taxType t;
     receiptPDF := receiptPDF t |}.

(** An app with another plan. *)
Definition withPlan (app : App) (p : string) : App :=
  {| currentBook := currentBook app;
     accountSubjects := accountSubjects app;
     plan := p |}.


(** Two accounts of which the second has a sub-account, and a transaction
    filed under that sub-account. *)
Definition sampleSubjects : list AccountSubject :=
  [ {| subject_id := 1; subject_name := "Sales"; sub_accounts := [] |};
    {| subject_id := 2; subject_name := "Travel";
       sub_accounts := [ {| sub_id := 7; sub_name := "Taxi" |} ] |} ].

Definition subAccountTx : Transaction :=
  {| txid := "3";
     date := "2024-01-07";
     type := expense;
     description := "Taxi";
     client := "";
     amount := 3000;
     account_subject_id := Some 2;
     sub_account_id := Some 7;
     taxType := "";
     receiptPDF := None |}.

Definition subjectsApp : App :=
  {| currentBook :=
       Some {| businessName := "Shop";
               accountName := "Cash";
               settings := {| openingBalance := 0; exportFormat := "" |};
               transactions := [subAccountTx] |};
     accountSubjects := sampleSubjects;
     plan := "" |}.

(** Metered billing of the professional plan: [updateMeteredBilling] and
    [updateMeteredBillingCalculator]. *)
Module Billing.







End Billing.

(** The coupon field of the plan-change dialog: [applyCoupon]. *)
Module CouponForm.

(** [String.prototype.toUpperCase] on the ASCII letters; other bytes are
    left as they are. *)
Definition upperChar (c : ascii) : ascii :=
  let n := nat_of_ascii c in
  if andb (Nat.leb 97 n) (Nat.leb n 122) then ascii_of_nat (n - 32) else c.

Fixpoint toUpperCase (s : string) : string :=
  match s with
  | EmptyString => EmptyString
  | String c r => String (upperChar c) (toUpperCase r)
  end.

(** An ASCII lower-case letter. *)
Definition isLower (c : ascii) : bool :=
  let n := nat_of_ascii c in andb (Nat.leb 97 n) (Nat.leb n 122).

(** The string holds an ASCII lower-case letter. *)
Fixpoint hasLower (s : string) : bool :=
  match s with
  | EmptyString => false
  | String c r => isLower c || hasLower r
  end.

(** The price preview the dialog reads from the answer. *)
Record Preview : Type := {
  original_price : Z;
  discount_amount : Z;
  final_price : Z
}.

(** What [apiClient.validateCoupon] gives back: the error it throws for
    an answer that is not ok, or the body of the answer, of which the
    dialog reads the members [valid], [coupon], [preview] and [error]
    (a missing member is [None], [valid] is read for its truth). *)
Inductive ApiResult : Type :=
| Threw (message : string)
| Data (valid : bool) (coupon : option Coupons.Coupon) (preview : option Preview)
       (error : option string).



(** The code sent to the server. *)
Definition normalize (input : string) : string := toUpperCase (JS.trim input).


(** The answer of the validation handler as [apiClient.request] hands it
    over: an answer that is not ok is thrown as an error. *)
Definition clientView (r : Coupons.Response) : ApiResult :=
  match r with
  | Coupons.Json200Valid coupon => Data true (Some coupon) None None
  | Coupons.Json200Success => Data false None None None
  | Coupons.Json400 error => Threw error
  | Coupons.Json500 error => Threw error
  end.

(** [validateCoupon] served by the coupon routes on database [db] at time
    [now]: [rejection] is the error of the authentication middleware when
    it turns the request down, else the validation handler answers. *)
Definition served (rejection : option string) (db : Coupons.DB) (now : string)
           (code : string) (plan : option string) : ApiResult :=
  match rejection with
  | Some error => Threw error
  | None => clientView (fst (Coupons.validate (inr (Some code, plan)) now db))
  end.

End CouponForm.

(** Token handling of the API client: [APIClient]. *)
Module APIClient.

(** [this.token] and the [auth_token] entry of the local storage; [None]
    is [null]. *)
Record State : Type := {
  token : option string;
  storage : option string
}.

Definition truthy (v : option string) : bool :=
  match v with
  | Some s => JS.truthy s
  | None => false
  end.

Definition constructor (stored : option string) : State :=
  {| token := stored; storage := stored |}.

Definition setToken (t : string) (st : State) : State :=
  {| token := Some t; storage := Some t |}.

Definition getToken (st : State) : option string :=
  if truthy (token st) then token st else storage st.

Definition clearToken (st : State) : State :=
  {| token := None; storage := None |}.

Definition isAuthenticated (st : State) : bool := truthy (getToken st).

(** The [Authorization] header [request] adds, if any. *)
Definition authorization (st : State) (skipAuth : bool) : option string :=
  match token st with
  | Some t => if JS.truthy t && negb skipAuth then Some ("Bearer " ++ t)%string else None
  | None => None
  end.

(** [login] and [register] after an answer whose [token] member is
    [tokenMember]; [logout]. *)
Definition login (tokenMember : option string) (st : State) : State :=
  match tokenMember with
  | Some t => if JS.truthy t then setToken t st else st
  | None => st
  end.

Definition logout (st : State) : State := clearToken st.

(** The operations that touch the token. *)
Inductive Op : Type :=
| OpSetToken (t : string)
| OpClearToken
| OpLogin (tokenMember : option string)
| OpLogout.

Definition step (st : State) (op : Op) : State :=
  match op with
  | OpSetToken t => setToken t st
  | OpClearToken => clearToken st
  | OpLogin m => login m st
  | OpLogout => logout st
  end.

Definition run (ops : list Op) (st : State) : State := fold_left step ops st.

End APIClient.

(* ================================================================== *)
(** * The server: users, books and transactions *)
(* ================================================================== *)

(** The authentication middleware, the account routes of
    [src/routes/auth.ts] and the book and transaction routes, as state
    transformers on the tables [users], [books] and [transactions].
    Each statement takes effect on its own: what a handler wrote before
    a later statement throws stays written. *)
Module Server.

(** A member of a request body that has the JSON type its handler
    expects: missing ([undefined] once read), [null], or given. *)
Inductive member (A : Type) : Type :=
| Missing
| IsNull
| Given (a : A).

Arguments Missing {A}.
Arguments IsNull {A}.
Arguments Given {A} a.

(** Truthiness of a text and of a numeric member. *)
Definition truthyText (m : member string) : bool :=
  match m with
  | Given s => JS.truthy s
  | _ => false
  end.

Definition truthyNumber (m : member Z) : bool :=
  match m with
  | Given z => negb (z =? 0)
  | _ => false
  end.

(** [m || null] as a bound value: [None] is NULL. *)
Definition textOrNull (m : member string) : option string :=
  match m with
  | Given s => if JS.truthy s then Some s else None
  | _ => None
  end.

Definition numberOrNull (m : member Z) : option Z :=
  match m with
  | Given z => if z =? 0 then None else Some z
  | _ => None
  end.

(** [m || 0]. *)
Definition numberOrZero (m : member Z) : Z :=
  match m with
  | Given z => z
  | _ => 0
  end.

(** A value bound to a statement. *)
Inductive param : Type :=
| PNull
| PInt (z : Z)
| PText (s : string).

(** What [bind] makes of a value read from a token payload: [None] when
    it throws, which it does on [undefined], arrays and objects; a
    boolean is bound as 1 or 0. *)
Definition bindValue (v : Auth.jsval) : option param :=
  match v with
  | Auth.Undefined => None
  | Auth.Val JSON.Null => Some PNull
  | Auth.Val (JSON.Bool b) => Some (PInt (if b then 1 else 0))
  | Auth.Val (JSON.Number z) => Some (PInt z)
  | Auth.Val (JSON.Str s) => Some (PText s)
  | Auth.Val (JSON.Array _) => None
  | Auth.Val (JSON.Object _) => None
  end.

(** [s.substring(n)]. *)
Fixpoint substringFrom (n : nat) (s : string) : string :=
  match n, s with
  | O, _ => s
  | S n', String _ r => substringFrom n' r
  | S _, EmptyString => EmptyString
  end.

(** Rows of the three tables.  Columns no route reads or writes by name
    are left out of [users]. *)
Module User.
Record t : Type := {
  id : Z;
  email : string;
  password_hash : string;
  name : string;
  subscription_plan : option string;
  subscription_status : option string;
  subscription_start_date : option string;
  subscription_end_date : option string
}.
End User.

Module Book.
Record t : Type := {
  id : Z;
  user_id : Z;
  business_name : string;
  account_name : string;
  opening_balance : option Z;
  export_format : option string;
  created_at : string;
  updated_at : string
}.
End Book.

Module Tx.
Record t : Type := {
  id : Z;
  book_id : Z;
  date : string;
  description : option string;
  debit_account : option string;
  debit_sub_account : option string;
  debit_amount : option Z;
  credit_account : option string;
  credit_sub_account : option string;
  credit_amount : option Z;
  receipt_id : option Z;
  created_at : string;
  updated_at : string
}.
End Tx.

(** The tables, each with the largest row id it ever held (the
    [sqlite_sequence] entry of an [AUTOINCREMENT] key). *)
Record Store : Type := {
  users : list User.t;
  users_seq : Z;
  books : list Book.t;
  books_seq : Z;
  transactions : list Tx.t;
  transactions_seq : Z
}.

(** The id given to an inserted row: one more than the largest id the
    table holds or ever held. *)
Definition nextId (ids : list Z) (seq : Z) : Z :=
  Z.max (fold_right Z.max 0 ids) seq + 1.

(** [ORDER BY ... DESC]: [before y x] tells that [y] sorts strictly
    before [x]; rows that compare equal are left in table order. *)
Fixpoint insertOrdered {A : Type} (before : A -> A -> bool) (x : A) (l : list A)
  : list A :=
  match l with
  | [] => [x]
  | y :: r => if before y x then y :: insertOrdered before x r else x :: y :: r
  end.

Definition orderBy {A : Type} (before : A -> A -> bool) (l : list A) : list A :=
  fold_right (insertOrdered before) [] l.

(** Bodies of the JSON answers. *)
Inductive Body : Type :=
| Error (error : string)
| Thrown           (* the error member carries the message of the error caught *)
| Registered (token : string) (id : Z) (email name : string)
| LoggedIn (token : string) (id : Z) (email name : string)
           (subscription_plan subscription_status : option string)
| Me (id : Z) (email name : string) (plan status : string)
     (startDate endDate : option string)
| Subscribed (plan : option string) (startDate endDate : string)
| Success (message : string)
| Books (books : list Book.t)
| OneBook (book : option Book.t)
| Transactions (transactions : list Tx.t)
| OneTransaction (transaction : option Tx.t).

(** An answer: its status and its body. *)
Definition Response : Type := (Z * Body)%type.

Definition Handler : Type := Store -> Response * Store.

(** The members of the bodies the routes read. *)
Record Credentials : Type := {
  cred_email : member string;
  cred_password : member string;
  cred_name : member string
}.

Record BookData : Type := {
  data_business_name : member string;
  data_account_name : member string;
  data_opening_balance : member Z;
  data_export_format : member string
}.

Record TxData : Type := {
  data_date : member string;
  data_description : member string;
  data_debit_account : member string;
  data_debit_sub_account : member string;
  data_debit_amount : member Z;
  data_credit_account : member string;
  data_credit_sub_account : member string;
  data_credit_amount : member Z;
  data_receipt_id : member Z
}.

(** An assignment [column = ?] of an [UPDATE]: nothing for a missing
    member, else the value, NULL included. *)
Definition assigned {A : Type} (m : member A) (old : option A) : option A :=
  match m with
  | Missing => old
  | IsNull => None
  | Given a => Some a
  end.

(** The same for a [NOT NULL] column, when the value is not NULL. *)
Definition assignedText (m : member string) (old : string) : string :=
  match m with
  | Given s => s
  | _ => old
  end.

Definition isMissing {A : Type} (m : member A) : bool :=
  match m with
  | Missing => true
  | _ => false
  end.

Definition isNull {A : Type} (m : member A) : bool :=
  match m with
  | IsNull => true
  | _ => false
  end.

Section Routes.

(** The integer a text is read as when it is compared with, or stored
    in, an [INTEGER] column, if it reads as one. *)
Variable textAsInteger : string -> option Z.

(** [hashPassword]: the hexadecimal SHA-256 digest. *)
Variable hashPassword : string -> string.

(** [new Date(ms).toISOString()]. *)
Variable toISOString : Z -> string.

(** [column = ?] for an [INTEGER] column. *)
Definition idIs (p : param) (column : Z) : bool :=
  match p with
  | PNull => false
  | PInt z => column =? z
  | PText s =>
      match textAsInteger s with
      | Some z => column =? z
      | None => false
      end
  end.

(** ** The authentication middleware *)

Inductive AuthResult : Type :=
| Rejected (status : Z) (error : string)
| Crashed          (* an error nothing catches *)
| Accepted (user : User.t).

(** [authMiddleware] when [Date.now()] is [now]. *)
Definition authMiddleware (authHeader : option string) (now : Z) (st : Store)
  : AuthResult :=
  match authHeader with
  | None => Rejected 401 "Unauthorized"
  | Some authHeader =>
      if negb (JS.startsWith authHeader "Bearer ") then Rejected 401 "Unauthorized"
      else
        let token := substringFrom 7 authHeader in
        match Auth.verifyToken token now with
        | None => Rejected 401 "Invalid token"
        | Some userId =>
            match bindValue userId with
            | None => Crashed
            | Some p =>
                match find (fun u => idIs p (User.id u)) (users st) with
                | None => Rejected 401 "User not found"
                | Some user => Accepted user
                end
            end
        end
  end.

(** ** Accounts: [src/routes/auth.ts] *)

Definition withUsers (st : Store) (us : list User.t) (seq : Z) : Store :=
  {| users := us; users_seq := seq;
     books := books st; books_seq := books_seq st;
     transactions := transactions st; transactions_seq := transactions_seq st |}.

(** [auth.post('/register')]; [None] is a body that cannot be read. *)
Definition register (body : option Credentials) (now : Z) : Handler :=
  fun st =>
    match body with
    | None => ((500, Thrown), st)
    | Some body =>
        match cred_email body, cred_password body, cred_name body with
        | Given email, Given password, Given name =>
            if negb (JS.truthy email) || negb (JS.truthy password)
               || negb (JS.truthy name)
            then ((400, Error "Email, password, and name are required"), st)
            else
              match find (fun u => String.eqb (User.email u) email) (users st) with
              | Some _ => ((409, Error "Email already registered"), st)
              | None =>
                  let passwordHash := hashPassword password in
                  let userId := nextId (map User.id (users st)) (users_seq st) in
                  let user :=
                    {| User.id := userId;
                       User.email := email;
                       User.password_hash := passwordHash;
                       User.name := name;
                       User.subscription_plan := Some "free";
                       User.subscription_status := Some "inactive";
                       User.subscription_start_date := None;
                       User.subscription_end_date := None |} in
                  let token := Auth.generateToken userId now in
                  ((200, Registered token userId email name),
                   withUsers st (users st ++ [user]) userId)
              end
        | _, _, _ => ((400, Error "Email, password, and name are required"), st)
        end
    end.

(** [verifyPassword]. *)
Definition verifyPassword (password hash : string) : bool :=
  String.eqb (hashPassword password) hash.

(** [auth.post('/login')]. *)
Definition login (body : option Credentials) (now : Z) : Handler :=
  fun st =>
    match body with
    | None => ((500, Thrown), st)
    | Some body =>
        match cred_email body, cred_password body with
        | Given email, Given password =>
            if negb (JS.truthy email) || negb (JS.truthy password)
            then ((400, Error "Email and password are required"), st)
            else
              match find (fun u => String.eqb (User.email u) email) (users st) with
              | None => ((401, Error "Invalid email or password"), st)
              | Some user =>
                  if negb (verifyPassword password (User.password_hash user))
                  then ((401, Error "Invalid email or password"), st)
                  else
                    let token := Auth.generateToken (User.id user) now in
                    ((200, LoggedIn token (User.id user) (User.email user)
                                    (User.name user) (User.subscription_plan user)
                                    (User.subscription_status user)), st)
              end
        | _, _ => ((400, Error "Email and password are required"), st)
        end
    end.

(** [v || d] for a nullable text column. *)
Definition textOr (v : option string) (d : string) : string :=
  match v with
  | Some s => if JS.truthy s then s else d
  | None => d
  end.

(** [auth.get('/me')] for the user the middleware accepted; the answer
    gives plan, status and dates twice, under [user] and under
    [subscription]. *)
Definition me (user : User.t) : Handler :=
  fun st =>
    ((200, Me (User.id user) (User.email user) (User.name user)
              (textOr (User.subscription_plan user) "free")
              (textOr (User.subscription_status user) "inactive")
              (User.subscription_start_date user)
              (User.subscription_end_date user)), st).

(** [UPDATE users SET ... WHERE id = ?] with a row id. *)
Definition updateUser (userId : Z) (f : User.t -> User.t) (st : Store) : Store :=
  withUsers st (map (fun u => if User.id u =? userId then f u else u) (users st))
            (users_seq st).

(** [auth.post('/subscribe')] when [Date.now()] is [now]; of the body
    only [plan] is used. *)
Definition subscribe (user : User.t) (body : option (member string)) (now : Z)
  : Handler :=
  fun st =>
    match body with
    | None => ((500, Thrown), st)
    | Some Missing => ((500, Thrown), st)
    | Some plan =>
        let plan := assigned plan None in
        let startDate := toISOString now in
        let endDate := toISOString (now + 30 * 24 * 60 * 60 * 1000) in
        ((200, Subscribed plan startDate endDate),
         updateUser (User.id user)
           (fun u =>
              {| User.id := User.id u;
                 User.email := User.email u;
                 User.password_hash := User.password_hash u;
                 User.name := User.name u;
                 User.subscription_plan := plan;
                 User.subscription_status := Some "active";
                 User.subscription_start_date := Some startDate;
                 User.subscription_end_date := Some endDate |}) st)
    end.

(** [auth.post('/unsubscribe')]. *)
Definition unsubscribe (user : User.t) : Handler :=
  fun st =>
    ((200, Success "Subscription cancelled"),
     updateUser (User.id user)
       (fun u =>
          {| User.id := User.id u;
             User.email := User.email u;
             User.password_hash := User.password_hash u;
             User.name := User.name u;
             User.subscription_plan := User.subscription_plan u;
             User.subscription_status := Some "cancelled";
             User.subscription_start_date := User.subscription_start_date u;
             User.subscription_end_date := User.subscription_end_date u |}) st).

(** ** Books *)

Definition withBooks (st : Store) (bs : list Book.t) (seq : Z) : Store :=
  {| users := users st; users_seq := users_seq st;
     books := bs; books_seq := seq;
     transactions := transactions st; transactions_seq := transactions_seq st |}.

Definition withTransactions (st : Store) (ts : list Tx.t) (seq : Z) : Store :=
  {| users := users st; users_seq := users_seq st;
     books := books st; books_seq := books_seq st;
     transactions := ts; transactions_seq := seq |}.

(** [SELECT ... FROM books WHERE id = ? AND user_id = ?] with the route
    parameter and the user's id, then [.first()]. *)
Definition ownedBook (bookId : string) (userId : Z) (st : Store) : option Book.t :=
  find (fun b => idIs (PText bookId) (Book.id b) && (Book.user_id b =? userId))
       (books st).

Definition newerBook (y x : Book.t) : bool :=
  String.ltb (Book.created_at x) (Book.created_at y).

(** [books.get('/')]. *)
Definition getBooks (userId : Z) : Handler :=
  fun st =>
    ((200, Books (orderBy newerBook
                    (filter (fun b => Book.user_id b =? userId) (books st)))), st).

(** [books.get('/:id')]. *)
Definition getBook (userId : Z) (bookId : string) : Handler :=
  fun st =>
    match ownedBook bookId userId st with
    | None => ((404, Error "Book not found"), st)
    | Some book => ((200, OneBook (Some book)), st)
    end.

(** [books.post('/')] when [CURRENT_TIMESTAMP] is [timestamp]. *)
Definition createBook (userId : Z) (body : option BookData) (timestamp : string)
  : Handler :=
  fun st =>
    match body with
    | None => ((500, Thrown), st)
    | Some body =>
        match data_business_name body, data_account_name body with
        | Given business_name, Given account_name =>
            if negb (JS.truthy business_name) || negb (JS.truthy account_name)
            then ((400, Error "Business name and account name are required"), st)
            else
              let opening_balance :=
                match data_opening_balance body with
                | Missing => Some 0
                | m => assigned m None
                end in
              let export_format :=
                match data_export_format body with
                | Missing => Some "mf"
                | m => assigned m None
                end in
              let bookId := nextId (map Book.id (books st)) (books_seq st) in
              let book :=
                {| Book.id := bookId;
                   Book.user_id := userId;
                   Book.business_name := business_name;
                   Book.account_name := account_name;
                   Book.opening_balance := opening_balance;
                   Book.export_format := export_format;
                   Book.created_at := timestamp;
                   Book.updated_at := timestamp |} in
              let st' := withBooks st (books st ++ [book]) bookId in
              ((201, OneBook (find (fun b => Book.id b =? bookId) (books st'))), st')
        | _, _ => ((400, Error "Business name and account name are required"), st)
        end
    end.

(** The row after [UPDATE books SET ... WHERE id = ?]. *)
Definition updatedBook (updates : BookData) (timestamp : string) (b : Book.t) : Book.t :=
  {| Book.id := Book.id b;
     Book.user_id := Book.user_id b;
     Book.business_name := assignedText (data_business_name updates) (Book.business_name b);
     Book.account_name := assignedText (data_account_name updates) (Book.account_name b);
     Book.opening_balance := assigned (data_opening_balance updates) (Book.opening_balance b);
     Book.export_format := assigned (data_export_format updates) (Book.export_format b);
     Book.created_at := Book.created_at b;
     Book.updated_at := timestamp |}.

(** [books.put('/:id')]: assigning NULL to a [NOT NULL] column makes the
    statement throw. *)
Definition updateBook (userId : Z) (bookId : string) (body : option BookData)
           (timestamp : string) : Handler :=
  fun st =>
    match body with
    | None => ((500, Thrown), st)
    | Some updates =>
        match ownedBook bookId userId st with
        | None => ((404, Error "Book not found"), st)
        | Some _ =>
            if isMissing (data_business_name updates)
               && isMissing (data_account_name updates)
               && isMissing (data_opening_balance updates)
               && isMissing (data_export_format updates)
            then ((400, Error "No valid updates provided"), st)
            else if isNull (data_business_name updates)
                    || isNull (data_account_name updates)
            then ((500, Thrown), st)
            else
              let st' :=
                withBooks st
                  (map (fun b => if idIs (PText bookId) (Book.id b)
                                 then updatedBook updates timestamp b else b)
                       (books st))
                  (books_seq st) in
              ((200, OneBook (find (fun b => idIs (PText bookId) (Book.id b))
                                   (books st'))), st')
        end
    end.

(** [DELETE FROM books WHERE id = ?]: the transactions of a deleted book
    go with it. *)
Definition deleteBooks (bookId : string) (st : Store) : Store :=
  let gone := filter (fun b => idIs (PText bookId) (Book.id b)) (books st) in
  {| users := users st; users_seq := users_seq st;
     books := filter (fun b => negb (idIs (PText bookId) (Book.id b))) (books st);
     books_seq := books_seq st;
     transactions :=
       filter (fun t => negb (existsb (fun b => Book.id b =? Tx.book_id t) gone))
              (transactions st);
     transactions_seq := transactions_seq st |}.

(** [books.delete('/:id')]. *)
Definition deleteBook (userId : Z) (bookId : string) : Handler :=
  fun st =>
    match ownedBook bookId userId st with
    | None => ((404, Error "Book not found"), st)
    | Some _ => ((200, Success "Book deleted successfully"), deleteBooks bookId st)
    end.

(** ** Transactions *)

Definition laterTx (y x : Tx.t) : bool :=
  String.ltb (Tx.date x) (Tx.date y)
  || (String.eqb (Tx.date x) (Tx.date y)
      && String.ltb (Tx.created_at x) (Tx.created_at y)).

(** [transactions.get('/book/:bookId')]. *)
Definition getTransactions (userId : Z) (bookId : string) : Handler :=
  fun st =>
    match ownedBook bookId userId st with
    | None => ((404, Error "Book not found"), st)
    | Some _ =>
        ((200, Transactions
                 (orderBy laterTx
                    (filter (fun t => idIs (PText bookId) (Tx.book_id t))
                            (transactions st)))), st)
    end.

(** [transactions.post('/book/:bookId')]: the book id stored is the
    integer the route parameter reads as, that of the book found. *)
Definition createTransaction (userId : Z) (bookId : string) (body : option TxData)
           (timestamp : string) : Handler :=
  fun st =>
    match body with
    | None => ((500, Thrown), st)
    | Some transaction =>
        match ownedBook bookId userId st with
        | None => ((404, Error "Book not found"), st)
        | Some book =>
            match data_date transaction with
            | Given date =>
                let transactionId :=
                  nextId (map Tx.id (transactions st)) (transactions_seq st) in
                let row :=
                  {| Tx.id := transactionId;
                     Tx.book_id := Book.id book;
                     Tx.date := date;
                     Tx.description := textOrNull (data_description transaction);
                     Tx.debit_account := textOrNull (data_debit_account transaction);
                     Tx.debit_sub_account :=
                       textOrNull (data_debit_sub_account transaction);
                     Tx.debit_amount :=
                       Some (numberOrZero (data_debit_amount transaction));
                     Tx.credit_account := textOrNull (data_credit_account transaction);
                     Tx.credit_sub_account :=
                       textOrNull (data_credit_sub_account transaction);
                     Tx.credit_amount :=
                       Some (numberOrZero (data_credit_amount transaction));
                     Tx.receipt_id := numberOrNull (data_receipt_id transaction);
                     Tx.created_at := timestamp;
                     Tx.updated_at := timestamp |} in
                let st' :=
                  withTransactions st (transactions st ++ [row]) transactionId in
                ((201, OneTransaction
                         (find (fun t => Tx.id t =? transactionId) (transactions st'))),
                 st')
            | _ => ((500, Thrown), st)
            end
        end
    end.

(** [SELECT ... FROM transactions t JOIN books b ON t.book_id = b.id
    WHERE t.id = ? AND b.user_id = ?], then [.first()]. *)
Definition ownedTransaction (transactionId : string) (userId : Z) (st : Store)
  : option Tx.t :=
  find (fun t => idIs (PText transactionId) (Tx.id t)
                 && existsb (fun b => (Book.id b =? Tx.book_id t)
                                      && (Book.user_id b =? userId)) (books st))
       (transactions st).

(** The row after [UPDATE transactions SET ... WHERE id = ?]. *)
Definition updatedTransaction (updates : TxData) (timestamp : string) (t : Tx.t) : Tx.t :=
  {| Tx.id := Tx.id t;
     Tx.book_id := Tx.book_id t;
     Tx.date := assignedText (data_date updates) (Tx.date t);
     Tx.description := assigned (data_description updates) (Tx.description t);
     Tx.debit_account := assigned (data_debit_account updates) (Tx.debit_account t);
     Tx.debit_sub_account :=
       assigned (data_debit_sub_account updates) (Tx.debit_sub_account t);
     Tx.debit_amount := assigned (data_debit_amount updates) (Tx.debit_amount t);
     Tx.credit_account := assigned (data_credit_account updates) (Tx.credit_account t);
     Tx.credit_sub_account :=
       assigned (data_credit_sub_account updates) (Tx.credit_sub_account t);
     Tx.credit_amount := assigned (data_credit_amount updates) (Tx.credit_amount t);
     Tx.receipt_id := Tx.receipt_id t;
     Tx.created_at := Tx.created_at t;
     Tx.updated_at := timestamp |}.

(** [transactions.put('/:id')]. *)
Definition updateTransaction (userId : Z) (transactionId : string)
           (body : option TxData) (timestamp : string) : Handler :=
  fun st =>
    match body with
    | None => ((500, Thrown), st)
    | Some updates =>
        match ownedTransaction transactionId userId st with
        | None => ((404, Error "Transaction not found"), st)
        | Some _ =>
            if isMissing (data_date updates)
               && isMissing (data_description updates)
               && isMissing (data_debit_account updates)
               && isMissing (data_debit_sub_account updates)
               && isMissing (data_debit_amount updates)
               && isMissing (data_credit_account updates)
               && isMissing (data_credit_sub_account updates)
               && isMissing (data_credit_amount updates)
            then ((400, Error "No valid updates provided"), st)
            else if isNull (data_date updates)
            then ((500, Thrown), st)
            else
              let st' :=
                withTransactions st
                  (map (fun t => if idIs (PText transactionId) (Tx.id t)
                                 then updatedTransaction updates timestamp t else t)
                       (transactions st))
                  (transactions_seq st) in
              ((200, OneTransaction
                       (find (fun t => idIs (PText transactionId) (Tx.id t))
                             (transactions st'))), st')
        end
    end.

(** [transactions.delete('/:id')]. *)
Definition deleteTransaction (userId : Z) (transactionId : string) : Handler :=
  fun st =>
    match ownedTransaction transactionId userId st with
    | None => ((404, Error "Transaction not found"), st)
    | Some _ =>
        ((200, Success "Transaction deleted successfully"),
         withTransactions st
           (filter (fun t => negb (idIs (PText transactionId) (Tx.id t)))
                   (transactions st))
           (transactions_seq st))
    end.

(** ** Requests behind the middleware *)

Inductive Request : Type :=
| GetMe
| PostSubscribe (body : option (member string))
| PostUnsubscribe
| GetBooks
| GetBook (id : string)
| PostBook (body : option BookData)
| PutBook (id : string) (body : option BookData)
| DeleteBook (id : string)
| GetTransactions (bookId : string)
| PostTransaction (bookId : string) (body : option TxData)
| PutTransaction (id : string) (body : option TxData)
| DeleteTransaction (id : string).

(** [getCurrentUserId]: it throws for a user whose id is falsy, and the
    handler answers with the message of the error. *)
Definition getCurrentUserId (user : User.t) : option Z :=
  if User.id user =? 0 then None else Some (User.id user).

Definition withUserId (user : User.t) (h : Z -> Handler) : Handler :=
  fun st =>
    match getCurrentUserId user with
    | None => ((500, Error "Unauthorized"), st)
    | Some userId => h userId st
    end.

(** The handler of a request, for the user the middleware accepted,
    when [Date.now()] is [now] and [CURRENT_TIMESTAMP] is [timestamp]. *)
Definition handle (user : User.t) (now : Z) (timestamp : string) (req : Request)
  : Handler :=
  match req with
  | GetMe => me user
  | PostSubscribe body => subscribe user body now
  | PostUnsubscribe => unsubscribe user
  | GetBooks => withUserId user getBooks
  | GetBook id => withUserId user (fun userId => getBook userId id)
  | PostBook body => withUserId user (fun userId => createBook userId body timestamp)
  | PutBook id body =>
      withUserId user (fun userId => updateBook userId id body timestamp)
  | DeleteBook id => withUserId user (fun userId => deleteBook userId id)
  | GetTransactions bookId =>
      withUserId user (fun userId => getTransactions userId bookId)
  | PostTransaction bookId body =>
      withUserId user (fun userId => createTransaction userId bookId body timestamp)
  | PutTransaction id body =>
      withUserId user (fun userId => updateTransaction userId id body timestamp)
  | DeleteTransaction id =>
      withUserId user (fun userId => deleteTransaction userId id)
  end.

(** A request as the application serves it: the middleware, then the
    handler.  [None] is the answer to an error nothing catches. *)
Definition serve (authHeader : option string) (now : Z) (timestamp : string)
           (req : Request) (st : Store) : option Response * Store :=
  match authMiddleware authHeader now st with
  | Rejected status error => (Some (status, Error error), st)
  | Crashed => (None, st)
  | Accepted user =>
      let (response, st') := handle user now timestamp req st in
      (Some response, st')
  end.

End Routes.

End Server.

(** Notions in which the properties of the server are stated. *)
Module Tenancy.

Import Server.

(** Row ids and mail addresses are unique, and every transaction belongs
    to a book of the table. *)
Definition wellFormed (st : Store) : Prop :=
  NoDup (map User.id (users st)) /\
  NoDup (map User.email (users st)) /\
  NoDup (map Book.id (books st)) /\
  NoDup (map Tx.id (transactions st)) /\
  forall t, In t (transactions st) ->
            exists b, In b (books st) /\ Book.id b = Tx.book_id t.








(** A call to the application. *)
Inductive Call : Type :=
| Register (body : option Credentials) (now : Z)
| Login (body : option Credentials) (now : Z)
| Authenticated (authHeader : option string) (now : Z) (timestamp : string)
                (req : Request).

Section Running.

Variable textAsInteger : string -> option Z.
Variable hashPassword : string -> string.
Variable toISOString : Z -> string.

Definition call (st : Store) (c : Call) : Store :=
  match c with
  | Register body now => snd (register hashPassword body now st)
  | Login body now => snd (login hashPassword body now st)
  | Authenticated authHeader now timestamp req =>
      snd (serve textAsInteger toISOString authHeader now timestamp req st)
  end.

(** The store after a sequence of calls. *)
Definition run (calls : list Call) (st : Store) : Store := fold_left call calls st.

End Running.

End Tenancy.

(** Sample data for the server: two users with a book and a transaction
    each.  The three functions stand in for the engine's reading of a
    text as an integer, for the digest and for the rendering of a time. *)
Definition sampleTextAsInteger (s : string) : option Z :=
  match s with
  | EmptyString => None
  | _ => option_map Z.of_uint (NilEmpty.uint_of_string s)
  end.

Definition sampleHash (s : string) : string := ("digest of " ++ s)%string.

Definition sampleISO (ms : Z) : string := JS.numToString ms.

Definition alice : Server.User.t :=
  {| Server.User.id := 1;
     Server.User.email := "alice@example.com";
     Server.User.password_hash := sampleHash "correct horse";
     Server.User.name := "Alice";
     Server.User.subscription_plan := Some "free";
     Server.User.subscription_status := Some "inactive";
     Server.User.subscription_start_date := None;
     Server.User.subscription_end_date := None |}.

Definition bob : Server.User.t :=
  {| Server.User.id := 2;
     Server.User.email := "bob@example.com";
     Server.User.password_hash := sampleHash "battery staple";
     Server.User.name := "Bob";
     Server.User.subscription_plan := Some "basic";
     Server.User.subscription_status := Some "active";
     Server.User.subscription_start_date := Some "2024-01-01T00:00:00.000Z";
     Server.User.subscription_end_date := Some "2024-01-31T00:00:00.000Z" |}.

Definition sampleBook (id owner : Z) (name : string) : Server.Book.t :=
  {| Server.Book.id := id;
     Server.Book.user_id := owner;
     Server.Book.business_name := name;
     Server.Book.account_name := "cash";
     Server.Book.opening_balance := Some 5000;
     Server.Book.export_format := Some "mf";
     Server.Book.created_at := "2024-01-01 00:00:00";
     Server.Book.updated_at := "2024-01-01 00:00:00" |}.

Definition sampleTx (id book : Z) : Server.Tx.t :=
  {| Server.Tx.id := id;
     Server.Tx.book_id := book;
     Server.Tx.date := "2024-01-15";
     Server.Tx.description := Some "stationery";
     Server.Tx.debit_account := Some "supplies";
     Server.Tx.debit_sub_account := None;
     Server.Tx.debit_amount := Some 1200;
     Server.Tx.credit_account := Some "cash";
     Server.Tx.credit_sub_account := None;
     Server.Tx.credit_amount := Some 1200;
     Server.Tx.receipt_id := None;
     Server.Tx.created_at := "2024-01-15 09:00:00";
     Server.Tx.updated_at := "2024-01-15 09:00:00" |}.

Definition sampleStore : Server.Store :=
  {| Server.users := [alice; bob];
     Server.users_seq := 2;
     Server.books := [sampleBook 1 1 "Alice and co"; sampleBook 2 2 "Bob and co"];
     Server.books_seq := 2;
     Server.transactions := [sampleTx 1 1; sampleTx 2 2];
     Server.transactions_seq := 2 |}.

(** Alice's bearer token, issued at time 0. *)
Definition aliceHeader : option string :=
  Some ("Bearer " ++ Auth.generateToken 1 0)%string.


(* ================================================================== *)
(** * The server: administration of coupons *)
(* ================================================================== *)

(** The routes of [src/routes/coupons.ts] that write: creation, update
    and deletion of coupons, on the tables of the validation handler. *)
Module CouponAdmin.

Import Server.

(** The two tables and the largest coupon id ever given. *)
Record Store : Type := {
  db : Coupons.DB;
  coupons_seq : Z
}.

(** The members of a creation body. *)
Record CouponData : Type := {
  data_code : member string;
  data_discount_type : member string;
  data_discount_value : member Q;
  data_plan_restriction : member string;
  data_max_redemptions : member Z;
  data_valid_from : member string;
  data_valid_until : member string
}.

(** The members of an update body; of [is_active] only the truth of the
    value given counts. *)
Record CouponUpdate : Type := {
  update_is_active : member bool;
  update_max_redemptions : member Z
}.

(** Answers: their status and the coupon they carry. *)
Inductive Answer : Type :=
| Created (coupon : option Coupons.Coupon)     (* 201 *)
| Updated (coupon : option Coupons.Coupon)     (* 200 *)
| Deleted                                      (* 200, success *)
| Failed.                                      (* 500, an error was caught *)

Section Routes.

Variable textAsInteger : string -> option Z.

Definition couponIs (couponId : string) (c : Coupons.Coupon) : bool :=
  idIs textAsInteger (PText couponId) (Coupons.id c).

(** [coupons.post('/')]: binding a missing member throws, and so does
    inserting NULL into a [NOT NULL] column or a code already there. *)
Definition create (body : option CouponData) (st : Store) : Answer * Store :=
  match body with
  | None => (Failed, st)
  | Some couponData =>
      match data_code couponData, data_discount_type couponData,
            data_discount_value couponData with
      | Given code, Given discount_type, Given discount_value =>
          if existsb (fun c => String.eqb (Coupons.code c) code)
                     (Coupons.coupons (db st))
          then (Failed, st)
          else
            let couponId :=
              nextId (map Coupons.id (Coupons.coupons (db st))) (coupons_seq st) in
            let row :=
              {| Coupons.id := couponId;
                 Coupons.code := code;
                 Coupons.discount_type := discount_type;
                 Coupons.discount_value := discount_value;
                 Coupons.plan_restriction :=
                   textOrNull (data_plan_restriction couponData);
                 Coupons.max_redemptions :=
                   numberOrNull (data_max_redemptions couponData);
                 Coupons.redemption_count := Some 0;
                 Coupons.valid_from := textOrNull (data_valid_from couponData);
                 Coupons.valid_until := textOrNull (data_valid_until couponData);
                 Coupons.is_active := Some 1;
                 Coupons.stripe_coupon_id := None |} in
            let rows := (Coupons.coupons (db st) ++ [row])%list in
            (Created (find (fun c => Coupons.id c =? couponId) rows),
             {| db := {| Coupons.coupons := rows;
                         Coupons.coupon_redemptions :=
                           Coupons.coupon_redemptions (db st) |};
                coupons_seq := couponId |})
      | _, _, _ => (Failed, st)
      end
  end.

(** The row after [UPDATE coupons SET ... WHERE id = ?]. *)
Definition updatedCoupon (updates : CouponUpdate) (c : Coupons.Coupon)
  : Coupons.Coupon :=
  {| Coupons.id := Coupons.id c;
     Coupons.code := Coupons.code c;
     Coupons.discount_type := Coupons.discount_type c;
     Coupons.discount_value := Coupons.discount_value c;
     Coupons.plan_restriction := Coupons.plan_restriction c;
     Coupons.max_redemptions :=
       assigned (update_max_redemptions updates) (Coupons.max_redemptions c);
     Coupons.redemption_count := Coupons.redemption_count c;
     Coupons.valid_from := Coupons.valid_from c;
     Coupons.valid_until := Coupons.valid_until c;
     Coupons.is_active :=
       match update_is_active updates with
       | Missing => Coupons.is_active c
       | IsNull => Some 0
       | Given b => Some (if b then 1 else 0)
       end;
     Coupons.stripe_coupon_id := Coupons.stripe_coupon_id c |}.

(** [coupons.put('/:id')]. *)
Definition update (couponId : string) (body : option CouponUpdate) (st : Store)
  : Answer * Store :=
  match body with
  | None => (Failed, st)
  | Some updates =>
      let st' :=
        if isMissing (update_is_active updates)
           && isMissing (update_max_redemptions updates)
        then st
        else
          {| db := {| Coupons.coupons :=
                        map (fun c => if couponIs couponId c
                                      then updatedCoupon updates c else c)
                            (Coupons.coupons (db st));
                      Coupons.coupon_redemptions :=
                        Coupons.coupon_redemptions (db st) |};
             coupons_seq := coupons_seq st |} in
      (Updated (find (couponIs couponId) (Coupons.coupons (db st'))), st')
  end.

(** [coupons.delete('/:id')]: the redemptions of a deleted coupon go
    with it. *)
Definition delete (couponId : string) (st : Store) : Answer * Store :=
  let gone := filter (couponIs couponId) (Coupons.coupons (db st)) in
  (Deleted,
   {| db := {| Coupons.coupons :=
                 filter (fun c => negb (couponIs couponId c))
                        (Coupons.coupons (db st));
               Coupons.coupon_redemptions :=
                 filter (fun r => negb (existsb (fun c => Coupons.id c
                                                          =? Coupons.coupon_id r)
                                                gone))
                        (Coupons.coupon_redemptions (db st)) |};
      coupons_seq := coupons_seq st |}).

(** [coupons.post('/validate')] on this store. *)
Definition validate (body : Coupons.Body) (now : string) (st : Store)
  : Coupons.Response * Store :=
  let (r, db') := Coupons.validate body now (db st) in
  (r, {| db := db'; coupons_seq := coupons_seq st |}).

(** A call to the coupon routes. *)
Inductive Call : Type :=
| Validate (body : Coupons.Body) (now : string)
| Create (body : option CouponData)
| Update (couponId : string) (body : option CouponUpdate)
| Delete (couponId : string).

Definition call (st : Store) (c : Call) : Store :=
  match c with
  | Validate body now => snd (validate body now st)
  | Create body => snd (create body st)
  | Update couponId body => snd (update couponId body st)
  | Delete couponId => snd (delete couponId st)
  end.

(** The store after a sequence of calls. *)
Definition run (calls : list Call) (st : Store) : Store := fold_left call calls st.

End Routes.

(** From [st] to [st'] no redemption was recorded: every coupon is one of
    [st] with the code and the redemption count it had, or has a count of
    zero, and every redemption row was there before. *)
Definition countsKept (st st' : Store) : Prop :=
  (forall c', In c' (Coupons.coupons (db st')) ->
              (exists c, In c (Coupons.coupons (db st))
                         /\ Coupons.id c = Coupons.id c'
                         /\ Coupons.code c = Coupons.code c'
                         /\ Coupons.redemption_count c = Coupons.redemption_count c')
              \/ Coupons.redemption_count c' = Some 0) /\
  incl (Coupons.coupon_redemptions (db st')) (Coupons.coupon_redemptions (db st)).

End CouponAdmin.

(** Sample data: the store of the fresh coupon. *)
Definition couponStore : CouponAdmin.Store :=
  {| CouponAdmin.db := freshDB; CouponAdmin.coupons_seq := 1 |}.

(** A second coupon, and the store of the two. *)
Definition twiceCoupon : Coupons.Coupon :=
  {| Coupons.id := 2;
     Coupons.code := "TWICE";
     Coupons.discount_type := "fixed";
     Coupons.discount_value := inject_Z 100;
     Coupons.plan_restriction := None;
     Coupons.max_redemptions := Some 2;
     Coupons.redemption_count := Some 0;
     Coupons.valid_from := None;
     Coupons.valid_until := None;
     Coupons.is_active := Some 1;
     Coupons.stripe_coupon_id := None |}.

Definition twoCouponStore : CouponAdmin.Store :=
  {| CouponAdmin.db :=
       {| Coupons.coupons := [freshCoupon; twiceCoupon];
          Coupons.coupon_redemptions := [] |};
     CouponAdmin.coupons_seq := 2 |}.

Definition welcomeCoupon (cap : Server.member Z) : CouponAdmin.CouponData :=
  {| CouponAdmin.data_code := Server.Given "WELCOME";
     CouponAdmin.data_discount_type := Server.Given "percentage";
     CouponAdmin.data_discount_value := Server.Given (inject_Z 20);
     CouponAdmin.data_plan_restriction := Server.Missing;
     CouponAdmin.data_max_redemptions := cap;
     CouponAdmin.data_valid_from := Server.Missing;
     CouponAdmin.data_valid_until := Server.Missing |}.



(** A subject name made of two texts with a quote, a comma and a quote in
    between. *)
Definition splitName (n m : string) : string :=
  (n ++ String JS.dquote ("," ++ String JS.dquote m))%string.

Definition splitSubjectApp : App :=
  {| currentBook :=
       Some {| businessName := "Shop";
               accountName := "Cash";
               settings := {| openingBalance := 0; exportFormat := "" |};
               transactions := [subAccountTx] |};
     accountSubjects :=
       [ {| subject_id := 2; subject_name := splitName "R&D" "Travel";
            sub_accounts := [] |} ];
     plan := "" |}.


(* ================================================================== *)
(** * The server: recipients and their books *)
(* ================================================================== *)

(** The recipient routes of the account routes, on the tables
    [recipients] and [recipient_book_assignments]; [books] is only
    read. *)
Module Recipients.

Import Server.

Module Recipient.
Record t : Type := {
  id : Z;
  user_id : Z;
  name : string;
  email : string;
  sort_order : option Z;
  created_at : string;
  updated_at : string
}.
End Recipient.

Module Assignment.
Record t : Type := {
  id : Z;
  recipient_id : Z;
  book_id : Z
}.
End Assignment.

Record Store : Type := {
  books : list Book.t;
  recipients : list Recipient.t;
  recipients_seq : Z;
  assignments : list Assignment.t;
  assignments_seq : Z
}.

(** The members of a recipient body; [book_ids], when given, is an array
    of numbers. *)
Record RecipientData : Type := {
  data_name : member string;
  data_email : member string;
  data_book_ids : member (list Z);
  data_sort_order : member Z
}.

Inductive Body : Type :=
| Error (error : string)
| Thrown           (* the error member carries the message of the error caught *)
| Success (message : string)
| OneRecipient (recipient : option Recipient.t)
| UserRecipients (recipients : list (Recipient.t * list Book.t))
| BookRecipients (recipients : list Recipient.t).

Definition Response : Type := (Z * Body)%type.

Definition Handler : Type := Store -> Response * Store.

Definition withRecipients (st : Store) (rs : list Recipient.t) (seq : Z) : Store :=
  {| books := books st;
     recipients := rs; recipients_seq := seq;
     assignments := assignments st; assignments_seq := assignments_seq st |}.

Definition withAssignments (st : Store) (l : list Assignment.t) (seq : Z) : Store :=
  {| books := books st;
     recipients := recipients st; recipients_seq := recipients_seq st;
     assignments := l; assignments_seq := seq |}.

(** [ORDER BY sort_order, name]: NULL sorts first. *)
Definition orderLt (x y : option Z) : bool :=
  match x, y with
  | None, Some _ => true
  | Some a, Some b => a <? b
  | _, None => false
  end.

Definition orderEq (x y : option Z) : bool :=
  match x, y with
  | None, None => true
  | Some a, Some b => a =? b
  | _, _ => false
  end.

Definition earlierRecipient (y x : Recipient.t) : bool :=
  orderLt (Recipient.sort_order y) (Recipient.sort_order x)
  || (orderEq (Recipient.sort_order y) (Recipient.sort_order x)
      && String.ltb (Recipient.name y) (Recipient.name x)).

(** [SELECT id FROM books WHERE id = ? AND user_id = ?] with a number
    of the body. *)
Definition ownsBook (userId : Z) (st : Store) (bookId : Z) : bool :=
  existsb (fun b => (Book.id b =? bookId) && (Book.user_id b =? userId)) (books st).

Definition assigned (st : Store) (recipientId bookId : Z) : bool :=
  existsb (fun a => (Assignment.recipient_id a =? recipientId)
                    && (Assignment.book_id a =? bookId)) (assignments st).

(** [INSERT INTO recipient_book_assignments]: [None] when the pair is
    already there, which makes the statement throw. *)
Definition insertAssignment (recipientId bookId : Z) (st : Store) : option Store :=
  if assigned st recipientId bookId then None
  else
    let assignmentId :=
      nextId (map Assignment.id (assignments st)) (assignments_seq st) in
    Some (withAssignments st
            (assignments st ++ [ {| Assignment.id := assignmentId;
                                    Assignment.recipient_id := recipientId;
                                    Assignment.book_id := bookId |} ])
            assignmentId).

(** The loop over [book_ids]: books of other users are passed over; the
    flag tells whether the loop came to its end. *)
Fixpoint assignBooks (recipientId userId : Z) (book_ids : list Z) (st : Store)
  : bool * Store :=
  match book_ids with
  | [] => (true, st)
  | bookId :: rest =>
      if ownsBook userId st bookId then
        match insertAssignment recipientId bookId st with
        | Some st' => assignBooks recipientId userId rest st'
        | None => (false, st)
        end
      else assignBooks recipientId userId rest st
  end.

Section Routes.

Variable textAsInteger : string -> option Z.

(** [SELECT id FROM recipients WHERE id = ? AND user_id = ?] with the
    route parameter. *)
Definition ownedRecipient (recipientId : string) (userId : Z) (st : Store)
  : option Recipient.t :=
  find (fun r => idIs textAsInteger (PText recipientId) (Recipient.id r)
                 && (Recipient.user_id r =? userId)) (recipients st).

Definition ownedBook (bookId : string) (userId : Z) (st : Store) : option Book.t :=
  find (fun b => idIs textAsInteger (PText bookId) (Book.id b)
                 && (Book.user_id b =? userId)) (books st).

(** [accounts.get('/recipients')]; of each assigned book the answer
    carries the id and the two names. *)
Definition getRecipients (userId : Z) : Handler :=
  fun st =>
    let own :=
      orderBy earlierRecipient
        (filter (fun r => Recipient.user_id r =? userId) (recipients st)) in
    ((200, UserRecipients
             (map (fun r =>
                     (r, flat_map
                           (fun a =>
                              if Assignment.recipient_id a =? Recipient.id r
                              then filter (fun b => Book.id b =? Assignment.book_id a)
                                          (books st)
                              else [])
                           (assignments st)))
                  own)), st).

(** [accounts.post('/recipients')]. *)
Definition createRecipient (userId : Z) (body : option RecipientData)
           (timestamp : string) : Handler :=
  fun st =>
    match body with
    | None => ((500, Thrown), st)
    | Some body =>
        match data_name body, data_email body with
        | Given name, Given email =>
            if negb (JS.truthy name) || negb (JS.truthy email)
            then ((400, Error "Name and email are required"), st)
            else
              let sort_order :=
                match data_sort_order body with
                | Missing => Some 0
                | m => Server.assigned m None
                end in
              let recipientId :=
                nextId (map Recipient.id (recipients st)) (recipients_seq st) in
              let row :=
                {| Recipient.id := recipientId;
                   Recipient.user_id := userId;
                   Recipient.name := name;
                   Recipient.email := email;
                   Recipient.sort_order := sort_order;
                   Recipient.created_at := timestamp;
                   Recipient.updated_at := timestamp |} in
              let st1 := withRecipients st (recipients st ++ [row]) recipientId in
              let book_ids :=
                match data_book_ids body with
                | Given l => l
                | _ => []
                end in
              let (finished, st2) := assignBooks recipientId userId book_ids st1 in
              if finished
              then ((201, OneRecipient
                            (find (fun r => Recipient.id r =? recipientId)
                                  (recipients st2))), st2)
              else ((500, Thrown), st2)
        | _, _ => ((400, Error "Name and email are required"), st)
        end
    end.

(** The row after [UPDATE recipients SET ... WHERE id = ?]. *)
Definition updatedRecipient (updates : RecipientData) (timestamp : string)
           (r : Recipient.t) : Recipient.t :=
  {| Recipient.id := Recipient.id r;
     Recipient.user_id := Recipient.user_id r;
     Recipient.name := assignedText (data_name updates) (Recipient.name r);
     Recipient.email := assignedText (data_email updates) (Recipient.email r);
     Recipient.sort_order :=
       Server.assigned (data_sort_order updates) (Recipient.sort_order r);
     Recipient.created_at := Recipient.created_at r;
     Recipient.updated_at := timestamp |}.

(** [accounts.put('/recipients/:id')]. *)
Definition updateRecipient (userId : Z) (recipientId : string)
           (body : option RecipientData) (timestamp : string) : Handler :=
  fun st =>
    match body with
    | None => ((500, Thrown), st)
    | Some updates =>
        match ownedRecipient recipientId userId st with
        | None => ((404, Error "Recipient not found"), st)
        | Some recipient =>
            if isNull (data_name updates) || isNull (data_email updates)
            then ((500, Thrown), st)
            else
              let st1 :=
                if isMissing (data_name updates) && isMissing (data_email updates)
                   && isMissing (data_sort_order updates)
                then st
                else
                  withRecipients st
                    (map (fun r => if idIs textAsInteger (PText recipientId)
                                           (Recipient.id r)
                                   then updatedRecipient updates timestamp r else r)
                         (recipients st))
                    (recipients_seq st) in
              let (finished, st2) :=
                match data_book_ids updates with
                | Given book_ids =>
                    assignBooks (Recipient.id recipient) userId book_ids
                      (withAssignments st1
                         (filter (fun a => negb (idIs textAsInteger (PText recipientId)
                                                      (Assignment.recipient_id a)))
                                 (assignments st1))
                         (assignments_seq st1))
                | _ => (true, st1)
                end in
              if finished
              then ((200, OneRecipient
                            (find (fun r => idIs textAsInteger (PText recipientId)
                                                 (Recipient.id r))
                                  (recipients st2))), st2)
              else ((500, Thrown), st2)
        end
    end.

(** [accounts.delete('/recipients/:id')]: the assignments of a deleted
    recipient go with it. *)
Definition deleteRecipient (userId : Z) (recipientId : string) : Handler :=
  fun st =>
    match ownedRecipient recipientId userId st with
    | None => ((404, Error "Recipient not found"), st)
    | Some _ =>
        let gone :=
          filter (fun r => idIs textAsInteger (PText recipientId) (Recipient.id r))
                 (recipients st) in
        ((200, Success "Recipient deleted successfully"),
         {| books := books st;
            recipients :=
              filter (fun r => negb (idIs textAsInteger (PText recipientId)
                                          (Recipient.id r)))
                     (recipients st);
            recipients_seq := recipients_seq st;
            assignments :=
              filter (fun a => negb (existsb (fun r => Recipient.id r
                                                       =? Assignment.recipient_id a)
                                             gone))
                     (assignments st);
            assignments_seq := assignments_seq st |})
    end.

(** [recipient_id = ? AND book_id = ?] with the two route parameters. *)
Definition pairIs (recipientId bookId : string) (a : Assignment.t) : bool :=
  idIs textAsInteger (PText recipientId) (Assignment.recipient_id a)
  && idIs textAsInteger (PText bookId) (Assignment.book_id a).

(** [accounts.post('/recipients/:id/books/:bookId')]: the ids stored are
    the integers the parameters read as, those of the rows found. *)
Definition assign (userId : Z) (recipientId bookId : string) : Handler :=
  fun st =>
    match ownedRecipient recipientId userId st with
    | None => ((404, Error "Recipient not found"), st)
    | Some recipient =>
        match ownedBook bookId userId st with
        | None => ((404, Error "Book not found"), st)
        | Some book =>
            if existsb (pairIs recipientId bookId) (assignments st)
            then ((200, Success "Assignment already exists"), st)
            else
              let assignmentId :=
                nextId (map Assignment.id (assignments st)) (assignments_seq st) in
              ((201, Success "Recipient assigned to book successfully"),
               withAssignments st
                 (assignments st
                    ++ [ {| Assignment.id := assignmentId;
                            Assignment.recipient_id := Recipient.id recipient;
                            Assignment.book_id := Book.id book |} ])
                 assignmentId)
        end
    end.

(** [accounts.delete('/recipients/:id/books/:bookId')]. *)
Definition unassign (userId : Z) (recipientId bookId : string) : Handler :=
  fun st =>
    match ownedRecipient recipientId userId st with
    | None => ((404, Error "Recipient not found"), st)
    | Some _ =>
        match ownedBook bookId userId st with
        | None => ((404, Error "Book not found"), st)
        | Some _ =>
            ((200, Success "Recipient unassigned from book successfully"),
             withAssignments st
               (filter (fun a => negb (pairIs recipientId bookId a)) (assignments st))
               (assignments_seq st))
        end
    end.

(** [accounts.get('/recipients/book/:bookId')]. *)
Definition getRecipientsForBook (userId : Z) (bookId : string) : Handler :=
  fun st =>
    match ownedBook bookId userId st with
    | None => ((404, Error "Book not found"), st)
    | Some _ =>
        ((200, BookRecipients
                 (orderBy earlierRecipient
                    (flat_map
                       (fun a =>
                          if idIs textAsInteger (PText bookId) (Assignment.book_id a)
                          then filter (fun r => Recipient.id r
                                                =? Assignment.recipient_id a)
                                      (recipients st)
                          else [])
                       (assignments st)))), st)
    end.

(** A request of the user [userId]. *)
Inductive Request : Type :=
| GetRecipients
| PostRecipient (body : option RecipientData)
| PutRecipient (id : string) (body : option RecipientData)
| DeleteRecipient (id : string)
| PostAssignment (id bookId : string)
| DeleteAssignment (id bookId : string)
| GetRecipientsForBook (bookId : string).

Definition handle (userId : Z) (timestamp : string) (req : Request) : Handler :=
  match req with
  | GetRecipients => getRecipients userId
  | PostRecipient body => createRecipient userId body timestamp
  | PutRecipient id body => updateRecipient userId id body timestamp
  | DeleteRecipient id => deleteRecipient userId id
  | PostAssignment id bookId => assign userId id bookId
  | DeleteAssignment id bookId => unassign userId id bookId
  | GetRecipientsForBook bookId => getRecipientsForBook userId bookId
  end.

(** The store after a sequence of requests, each with its user and its
    time. *)
Definition run (reqs : list (Z * string * Request)) (st : Store) : Store :=
  fold_left (fun st r => snd (handle (fst (fst r)) (snd (fst r)) (snd r) st)) reqs st.

End Routes.

(** Ids are unique and every assignment links a recipient to a book of
    the recipient's user. *)
Definition wellFormed (st : Store) : Prop :=
  NoDup (map Book.id (books st)) /\
  NoDup (map Recipient.id (recipients st)) /\
  forall a, In a (assignments st) ->
            exists r b, In r (recipients st) /\ In b (books st) /\
                        Recipient.id r = Assignment.recipient_id a /\
                        Book.id b = Assignment.book_id a /\
                        Recipient.user_id r = Book.user_id b.

(** The recipients an answer carries. *)
Definition recipientsOf (r : Response) : list Recipient.t :=
  match snd r with
  | OneRecipient (Some x) => [x]
  | UserRecipients l => map fst l
  | BookRecipients l => l
  | _ => []
  end.

End Recipients.

(** Sample data: Alice's accountant, and her book next to Bob's. *)
Definition accountant : Recipients.Recipient.t :=
  {| Recipients.Recipient.id := 1;
     Recipients.Recipient.user_id := 1;
     Recipients.Recipient.name := "Accountant";
     Recipients.Recipient.email := "books@example.com";
     Recipients.Recipient.sort_order := Some 0;
     Recipients.Recipient.created_at := "2024-01-01 00:00:00";
     Recipients.Recipient.updated_at := "2024-01-01 00:00:00" |}.

Definition recipientStore : Recipients.Store :=
  {| Recipients.books := [sampleBook 1 1 "Alice and co"; sampleBook 2 2 "Bob and co"];
     Recipients.recipients := [accountant];
     Recipients.recipients_seq := 1;
     Recipients.assignments :=
       [ {| Recipients.Assignment.id := 1;
            Recipients.Assignment.recipient_id := 1;
            Recipients.Assignment.book_id := 1 |} ];
     Recipients.assignments_seq := 1 |}.

Definition auditor (book_ids : list Z) : Recipients.RecipientData :=
  {| Recipients.data_name := Server.Given "Auditor";
     Recipients.data_email := Server.Given "audit@example.com";
     Recipients.data_book_ids := Server.Given book_ids;
     Recipients.data_sort_order := Server.Missing |}.


(* End of the definitions; the properties follow. *)

(* ================================================================== *)
(** * Balance Accumulator *)
(* ================================================================== *)


Lemma sumAmounts_from (txs : list Transaction) (k : Z) :
  fold_left (fun sum t => sum + amount t) txs k
  = k + fold_right Z.add 0 (map amount txs).
Proof.
  revert k. induction txs as [|t txs IH]; intros k; simpl.
  - lia.
  - rewrite IH. lia.
Qed.

(** The totals computed by [updateTotals] are the two sums of the
    specification. *)
Lemma updateTotals_sums (txs : list Transaction) (b : Z) :
  total_income (updateTotals txs b) = Spec.sumOf income txs /\
  total_expense (updateTotals txs b) = Spec.sumOf expense txs /\
  final_balance (updateTotals txs b) = b.
Proof.
  unfold updateTotals, sumAmounts, Spec.sumOf, isIncome, isExpense; simpl.
  rewrite !sumAmounts_from.
  split; [lia|]. split; [lia|reflexivity].
Qed.

Lemma sumOf_cons (ty : TxType) (t : Transaction) (txs : list Transaction) :
  Spec.sumOf ty (t :: txs)
  = (if TxType_eqb (type t) ty then amount t else 0) + Spec.sumOf ty txs.
Proof.
  unfold Spec.sumOf; simpl. destruct (TxType_eqb (type t) ty); simpl; lia.
Qed.







(** What [renderTransactions] shows when the filters leave nothing. *)
Lemma renderTransactions_empty (app : App) (f : FilterInputs) :
  applyFilters f (getCurrentTransactions app) = [] ->
  renderTransactions app f
  = {| rows := [];
       emptyState := true;
       totals := {| total_income := 0; total_expense := 0; final_balance := 0 |} |}.
Proof.
  intros H. unfold renderTransactions. rewrite H. reflexivity.
Qed.

(** C2.  On an empty filter result [renderTransactions] returns early and
    passes the constant 0 to [updateTotals] as the final balance: for a
    book whose opening balance is 5000 the totals are 0, 0 and a final
    balance of 0, not 5000, whereas the accumulator loop itself, run on
    the same empty sequence, leaves the balance at 5000. *)
Theorem C2_empty_result_final_balance_zero :
  applyFilters Spec.noOptions (getCurrentTransactions emptyBookApp) = [] /\
  openingBalance (getCurrentSettings emptyBookApp) = 5000 /\
  totals (renderTransactions emptyBookApp Spec.noOptions)
  = {| total_income := 0; total_expense := 0; final_balance := 0 |} /\
  final_balance (totals (renderTransactions emptyBookApp Spec.noOptions))
  <> openingBalance (getCurrentSettings emptyBookApp) /\
  balance (fst (accumulate emptyBookApp [])) = 5000 /\
  snd (basicLoop emptyBookApp []) = 5000.
Proof.
  split; [reflexivity|].
  split; [reflexivity|].
  split; [reflexivity|].
  split; [discriminate|].
  split; reflexivity.
Qed.

(* ================================================================== *)
(** * Filter Engine *)
(* ================================================================== *)

Lemma filter_filter {A : Type} (p q : A -> bool) (l : list A) :
  filter p (filter q l) = filter (fun x => q x && p x) l.
Proof.
  induction l as [|x l IH]; simpl; [reflexivity|].
  destruct (q x); simpl; [destruct (p x)|]; rewrite IH; reflexivity.
Qed.

Lemma filter_all {A : Type} (p : A -> bool) (l : list A) :
  (forall x, p x = true) -> filter p l = l.
Proof.
  intros H. induction l as [|x l IH]; simpl; [reflexivity|].
  rewrite H, IH. reflexivity.
Qed.


(** The date stage of [renderTransactions]. *)
Lemma stage_date (f : FilterInputs) (l : list Transaction) :
  (let startDate := filter_start_date f in
   let endDate := filter_end_date f in
   if JS.truthy startDate && JS.truthy endDate then
     filter (fun t => JS.str_ge (date t) startDate && JS.str_le (date t) endDate) l
   else if JS.truthy startDate then
     filter (fun t => JS.str_ge (date t) startDate) l
   else if JS.truthy endDate then
     filter (fun t => JS.str_le (date t) endDate) l
   else l)
  = filter (fun t => Spec.dateFromOk f t && Spec.dateToOk f t) l.
Proof.
  unfold Spec.dateFromOk, Spec.dateToOk, JS.str_ge, JS.str_le.
  destruct (filter_start_date f) as [|a s], (filter_end_date f) as [|b e]; cbn.
  - symmetry. apply filter_all. reflexivity.
  - apply filter_ext. reflexivity.
  - apply filter_ext. intros t. rewrite andb_true_r. reflexivity.
  - reflexivity.
Qed.

(** The keyword stage. *)
Lemma stage_keyword (f : FilterInputs) (l : list Transaction) :
  (let keyword := JS.trim (JS.toLowerCase (filter_keyword f)) in
   if JS.truthy keyword then
     filter (fun t =>
               JS.includes (JS.toLowerCase (description t)) keyword
               || JS.includes (JS.toLowerCase (client t)) keyword) l
   else l)
  = filter (Spec.keywordOk f) l.
Proof.
  unfold Spec.keywordOk, Spec.keywordOf.
  destruct (JS.trim (JS.toLowerCase (filter_keyword f))) as [|a k]; cbn.
  - symmetry. apply filter_all. reflexivity.
  - reflexivity.
Qed.

(** The amount stage. *)
Lemma stage_amount (f : FilterInputs) (l : list Transaction) :
  (let minAmount := filter_min_amount f in
   let maxAmount := filter_max_amount f in
   match minAmount, maxAmount with
   | None, None => l
   | _, _ =>
       let min := match minAmount with Some q => q | None => inject_Z 0 end in
       let max := match maxAmount with Some q => Finite q | None => Infinity end in
       filter (fun t => amount_ge (amount t) min && amount_le (amount t) max) l
   end)
  = filter (Spec.amountOk f) l.
Proof.
  unfold Spec.amountOk, amount_ge, amount_le.
  destruct (filter_min_amount f) as [lo|], (filter_max_amount f) as [hi|]; cbn.
  - reflexivity.
  - apply filter_ext. intros t. apply andb_true_r.
  - reflexivity.
  - symmetry. apply filter_all. reflexivity.
Qed.

(** The account-subject stage. *)
Lemma stage_subject (f : FilterInputs) (l : list Transaction) :
  match filter_account_subject f with
  | Some sel => filter (fun t => subject_eq (account_subject_id t) sel) l
  | None => l
  end
  = filter (Spec.subjectOk f) l.
Proof.
  unfold Spec.subjectOk, subject_eq.
  destruct (filter_account_subject f) as [sel|].
  - reflexivity.
  - symmetry. apply filter_all. reflexivity.
Qed.


(** ** Scenarios of the specification (section 8) *)

(** Scenario A. *)
Example scenario_A :
  totals (renderTransactions
            (appWith 0 [mkTx "2024-01-05" income "Sale" "" 10000]) Spec.noOptions)
  = {| total_income := 10000; total_expense := 0; final_balance := 10000 |}.
Proof. reflexivity. Qed.

(** Scenario B. *)
Example scenario_B :
  map row_balance
      (rows (renderTransactions
               (appWith 5000 [mkTx "2024-01-05" income "Sale" "" 3000;
                              mkTx "2024-01-06" expense "Rent" "" 2000])
               Spec.noOptions))
  = [8000; 6000].
Proof. reflexivity. Qed.

(** Scenario C: the keyword is searched in the description and in the
    client, whatever the case. *)
Example scenario_C :
  applyFilters (keywordOnly "taxi")
               [mkTx "2024-01-05" expense "Taxi fare to airport" "" 3000;
                mkTx "2024-01-06" income "Consulting" "Taxi Co." 9000;
                mkTx "2024-01-07" expense "Lunch" "Cafe" 1200]
  = [mkTx "2024-01-05" expense "Taxi fare to airport" "" 3000;
     mkTx "2024-01-06" income "Consulting" "Taxi Co." 9000].
Proof. reflexivity. Qed.

(** Scenario D. *)
Example scenario_D :
  map amount
      (applyFilters (amountsOnly 1000 5000)
                    [mkTx "2024-01-05" expense "a" "" 999;
                     mkTx "2024-01-05" expense "b" "" 5000;
                     mkTx "2024-01-05" expense "c" "" 5001;
                     mkTx "2024-01-05" expense "d" "" 1000])
  = [5000; 1000].
Proof. vm_compute. reflexivity. Qed.

(** Inclusive date bounds. *)
Example scenario_date_bounds :
  map date
      (applyFilters (datesOnly "2024-01-05" "2024-01-31")
                    [mkTx "2024-01-04" expense "a" "" 1;
                     mkTx "2024-01-05" expense "b" "" 1;
                     mkTx "2024-01-31" expense "c" "" 1;
                     mkTx "2024-02-01" expense "d" "" 1])
  = ["2024-01-05"; "2024-01-31"].
Proof. reflexivity. Qed.

(* ================================================================== *)
(** * Export Formatter: tax-code tables *)
(* ================================================================== *)





(* ================================================================== *)
(** * Export Formatter: rows and payloads *)
(* ================================================================== *)


(** In the basic, MF Cloud and yayoi rows every free-text field that is
    embedded (description and client; description only for yayoi) has its
    double quotes doubled and stands between quotes; so does the
    description of a freee row. *)
Lemma free_text_fields_quoted (app : App) (t : Transaction) (b i : Z) :
  nth 2 (basicFields app t b) "" = quoted (JS.escapeQuotes (description t)) /\
  nth 3 (basicFields app t b) "" = quoted (JS.escapeQuotes (client t)) /\
  nth 14 (mfFields i t) "" = quoted (JS.escapeQuotes (description t)) /\
  nth 15 (mfFields i t) "" = quoted (JS.escapeQuotes (client t)) /\
  nth 15 (yayoiFields i t) "" = quoted (JS.escapeQuotes (description t)) /\
  nth 9 (freeeFields t) "" = quoted (JS.escapeQuotes (description t)).
Proof.
  unfold mfFields, yayoiFields. destruct (type t); cbn; auto 10.
Qed.

(** The client of a freee row has its quotes doubled but is not put
    between quotes. *)
Lemma freee_client_field (t : Transaction) :
  nth 4 (freeeFields t) "" = JS.escapeQuotes (client t).
Proof. reflexivity. Qed.

(** Every payload of [exportToCSV] starts with the byte-order mark. *)
Lemma exportToCSV_BOM (app : App) (startMonth endMonth csv : string) :
  exportToCSV app startMonth endMonth = Download csv ->
  exists body, csv = BOM ++ body.
Proof.
  unfold exportToCSV.
  destruct (negb (JS.truthy startMonth) || negb (JS.truthy endMonth));
    [discriminate|].
  destruct (filter (inMonthRange startMonth endMonth) (getCurrentTransactions app));
    [discriminate|].
  intros H. injection H as <-.
  repeat match goal with
         | |- context [if ?c then _ else _] => destruct c
         end; eexists; reflexivity.
Qed.

(** C5.  The freee row embeds the client with its quotes doubled but not
    between quotes, and the payload that [sendMonthlyClosing] hands to the
    mail API carries no byte-order mark: for a book exported as freee with
    one income from a client whose name holds a comma and double quotes,
    the fifth field of the row
    is the escaped client without surrounding quotes, the payload of
    [sendMonthlyClosing] is the bare output of [generateFreeeCSV] and does
    not start with the byte-order mark, while the payload of
    [exportToCSV] for the same book does. *)
Theorem C5_freee_client_unquoted_and_mail_payload_without_BOM :
  nth 4 (freeeFields quotedClientTx) ""
  = JS.escapeQuotes (client quotedClientTx) /\
  nth 4 (freeeFields quotedClientTx) ""
  <> quoted (JS.escapeQuotes (client quotedClientTx)) /\
  sendMonthlyClosing freeeBookApp "2024-01" "2024-01" (Some "a@example.com") true
  = ClosingSent (generateFreeeCSV [quotedClientTx]) /\
  JS.startsWith (generateFreeeCSV [quotedClientTx]) BOM = false /\
  exportToCSV freeeBookApp "2024-01" "2024-01"
  = Download (BOM ++ generateFreeeCSV [quotedClientTx]).
Proof.
  split; [reflexivity|].
  split; [vm_compute; discriminate|].
  split; [reflexivity|].
  split; [vm_compute; reflexivity|].
  reflexivity.
Qed.


(** C7.  For every requested period (both months given): when no
    transaction of the current book falls in the period, [exportToCSV]
    raises the no-data alert and produces no payload; otherwise it
    produces a payload, which starts with the byte-order mark. *)
Theorem C7_export_no_data (app : App) (startMonth endMonth : string) :
  startMonth <> "" ->
  endMonth <> "" ->
  let filtered :=
    filter (inMonthRange startMonth endMonth) (getCurrentTransactions app) in
  (filtered = [] -> exportToCSV app startMonth endMonth = AlertNoData) /\
  (filtered <> [] ->
   exists body, exportToCSV app startMonth endMonth = Download (BOM ++ body)) /\
  (exportToCSV app startMonth endMonth = AlertNoData <-> filtered = []).
Proof.
  intros Hs He filtered.
  assert (Hguard : negb (JS.truthy startMonth) || negb (JS.truthy endMonth) = false).
  { destruct startMonth; [congruence|]. destruct endMonth; [congruence|]. reflexivity. }
  assert (Hcases :
            (filtered = [] /\ exportToCSV app startMonth endMonth = AlertNoData) \/
            (filtered <> [] /\
             exists body, exportToCSV app startMonth endMonth = Download (BOM ++ body))).
  { unfold exportToCSV. rewrite Hguard. fold filtered.
    destruct filtered as [|t rest].
    - left. split; reflexivity.
    - right. split; [discriminate|].
      repeat match goal with
             | |- context [if ?c then _ else _] => destruct c
             end; eexists; reflexivity. }
  destruct Hcases as [[Hnil Hout]|[Hcons [body Hout]]].
  - split; [intros _; exact Hout|].
    split; [intros Hne; contradiction|].
    split; [intros _; exact Hnil|intros _; exact Hout].
  - split; [intros Hnil; contradiction|].
    split; [intros _; exists body; exact Hout|].
    split; [rewrite Hout; discriminate|intros Hnil; contradiction].
Qed.

Lemma C7_export_no_data_witness :
  exportToCSV emptyBookApp "2024-01" "2024-03" = AlertNoData /\
  exists body,
    exportToCSV freeeBookApp "2024-01" "2024-01" = Download (BOM ++ body).
Proof.
  assert (Hs : "2024-01" <> "") by discriminate.
  assert (He : "2024-03" <> "") by discriminate.
  split.
  - apply (proj1 (C7_export_no_data emptyBookApp "2024-01" "2024-03" Hs He)).
    reflexivity.
  - apply (proj1 (proj2 (C7_export_no_data freeeBookApp "2024-01" "2024-01" Hs Hs))).
    vm_compute. discriminate.
Defined.

(* ================================================================== *)
(** * Coupon validation *)
(* ================================================================== *)

Section CouponValidation.

Import Coupons.

Lemma tri_and_true (a b : tri) :
  tri_and a b = TTrue <-> a = TTrue /\ b = TTrue.
Proof.
  destruct a, b; simpl; split; try intros [? ?]; try split;
    try reflexivity; try discriminate.
Qed.

Lemma tri_or_true (a b : tri) :
  tri_or a b = TTrue <-> a = TTrue \/ b = TTrue.
Proof.
  destruct a, b; simpl; split; try intros [?|?]; auto; discriminate.
Qed.

Lemma tri_of_bool_true (b : bool) : tri_of_bool b = TTrue <-> b = true.
Proof. destruct b; simpl; split; intros; try reflexivity; discriminate. Qed.

(** [x IS NULL OR x <= y], and its mirror image, for a bound [x]. *)
Lemma null_or_cmp_l {A : Type} (op : A -> A -> bool) (x : option A) (y : A) :
  tri_or (is_null x) (cmp op x (Some y)) = TTrue
  <-> (forall v, x = Some v -> op v y = true).
Proof.
  rewrite tri_or_true. destruct x as [v|]; simpl.
  - rewrite tri_of_bool_true. split.
    + intros [H|H]; [discriminate|]. intros w [= <-]. exact H.
    + intros H. right. apply H. reflexivity.
  - split; [intros _ v H; discriminate|intros _; left; reflexivity].
Qed.

Lemma null_or_cmp_r {A : Type} (op : A -> A -> bool) (x : option A) (y : A) :
  tri_or (is_null x) (cmp op (Some y) x) = TTrue
  <-> (forall v, x = Some v -> op y v = true).
Proof.
  rewrite tri_or_true. destruct x as [v|]; simpl.
  - rewrite tri_of_bool_true. split.
    + intros [H|H]; [discriminate|]. intros w [= <-]. exact H.
    + intros H. right. apply H. reflexivity.
  - split; [intros _ v H; discriminate|intros _; left; reflexivity].
Qed.

(** The [WHERE] clause is true exactly for the usable coupons carrying
    the requested code. *)
Lemma validWhere_usable (code : string) (plan : option string) (now : string)
      (c : Coupon) :
  validWhere (Some code) plan now c = TTrue
  <-> Coupons.code c = code /\ Spec.usable c now plan.
Proof.
  unfold validWhere, Spec.usable.
  rewrite !tri_and_true, null_or_cmp_l, null_or_cmp_r.
  assert (Hcode : cmp String.eqb (Some (Coupons.code c)) (Some code) = TTrue
                  <-> Coupons.code c = code).
  { simpl. rewrite tri_of_bool_true. apply String.eqb_eq. }
  assert (Hact : cmp Z.eqb (is_active c) (Some 1) = TTrue <-> is_active c = Some 1).
  { destruct (is_active c) as [a|]; simpl.
    - rewrite tri_of_bool_true, Z.eqb_eq. split; congruence.
    - split; discriminate. }
  assert (Hcap : tri_or (is_null (max_redemptions c))
                        (cmp Z.ltb (redemption_count c) (max_redemptions c)) = TTrue
                 <-> (forall cap, max_redemptions c = Some cap ->
                                  exists n, redemption_count c = Some n /\ n < cap)).
  { rewrite tri_or_true.
    destruct (max_redemptions c) as [cap|], (redemption_count c) as [n|]; simpl.
    - rewrite tri_of_bool_true, Z.ltb_lt. split.
      + intros [H|H]; [discriminate|]. intros k [= <-]. exists n. auto.
      + intros H. right. destruct (H cap eq_refl) as (m & [= <-] & Hlt). exact Hlt.
    - split.
      + intros [H|H]; discriminate.
      + intros H. destruct (H cap eq_refl) as (m & Hm & _). discriminate.
    - split; [intros _ k H; discriminate|intros _; left; reflexivity].
    - split; [intros _ k H; discriminate|intros _; left; reflexivity]. }
  assert (Hplan : tri_or (is_null (plan_restriction c))
                         (cmp String.eqb (plan_restriction c) plan) = TTrue
                  <-> (forall r, plan_restriction c = Some r -> plan = Some r)).
  { rewrite tri_or_true.
    destruct (plan_restriction c) as [r|], plan as [p|]; simpl.
    - rewrite tri_of_bool_true, String.eqb_eq. split.
      + intros [H|H]; [discriminate|]. intros k [= <-]. congruence.
      + intros H. right. specialize (H r eq_refl). congruence.
    - split.
      + intros [H|H]; discriminate.
      + intros H. specialize (H r eq_refl). discriminate.
    - split; [intros _ k H; discriminate|intros _; left; reflexivity].
    - split; [intros _ k H; discriminate|intros _; left; reflexivity]. }
  rewrite Hcode, Hact, Hcap, Hplan. tauto.
Qed.



(** C10.  The validation handler leaves the database as it found it, for
    every request (also one whose body cannot be read): neither [coupons]
    nor [coupon_redemptions] changes.  Hence a sequence of validations
    leaves the database unchanged and answers each request as a validation
    run alone on the initial database would; in particular validating one
    request again and again gives the same answer every time. *)
Theorem C10_validate_read_only (db : DB) (body : Body) (now : string)
        (reqs : list (Body * string)) (n : nat) :
  snd (validate body now db) = db /\
  coupons (snd (validate body now db)) = coupons db /\
  coupon_redemptions (snd (validate body now db)) = coupon_redemptions db /\
  snd (validateAll reqs db) = db /\
  fst (validateAll reqs db) = map (fun r => fst (validate (fst r) (snd r) db)) reqs /\
  fst (validateAll (repeat (body, now) n) db)
  = repeat (fst (validate body now db)) n.
Proof.
  assert (Hframe : forall b t d, snd (validate b t d) = d).
  { intros b t d. unfold validate, bind, first, ret.
    destruct b as [msg|[c p]]; simpl; [reflexivity|].
    destruct (selectFirst _ _); reflexivity. }
  assert (Hall : forall l d,
             validateAll l d
             = (map (fun r => fst (validate (fst r) (snd r) d)) l, d)).
  { induction l as [|[b t] l IH]; intros d; [reflexivity|].
    cbn [validateAll map fst snd]. unfold bind. cbv beta.
    pose proof (Hframe b t d) as Hf.
    destruct (validate b t d) as [r d1]. cbn [fst snd] in Hf |- *. subst d1.
    rewrite IH. reflexivity. }
  split; [apply Hframe|].
  split; [rewrite Hframe; reflexivity|].
  split; [rewrite Hframe; reflexivity|].
  split; [rewrite Hall; reflexivity|].
  split; [rewrite Hall; reflexivity|].
  rewrite Hall. cbn [fst].
  induction n as [|k IH]; [reflexivity|].
  cbn [repeat map fst snd]. rewrite IH. reflexivity.
Qed.

(** A coupon whose count is below the cap validates, and validates again:
    the second attempt is not refused, the count being untouched. *)
Example validate_twice :
  fst (validateAll [(inr (Some "ONCE", Some "basic"), "2024-02-01 00:00:00");
                    (inr (Some "ONCE", Some "basic"), "2024-02-01 00:00:05")]
                   freshDB)
  = [Json200Valid freshCoupon; Json200Valid freshCoupon].
Proof. reflexivity. Qed.

(** Deleting a coupon, by contrast, writes. *)
Example delete_writes :
  snd (deleteCoupon 1 onceDB) = {| coupons := []; coupon_redemptions := [] |}.
Proof. reflexivity. Qed.

End CouponValidation.

(* ================================================================== *)
(** * Bearer tokens: base64 *)
(* ================================================================== *)

Section Base64Facts.

Import Base64.
Local Open Scope nat_scope.

Ltac divlia := zify; Z.to_euclidean_division_equations; lia.

Lemma sextetOf_alphabetChar (n : nat) :
  n < 64 -> sextetOf (alphabetChar n) = Some n.
Proof.
  intros H. do 64 (destruct n as [|n]; [reflexivity|]). lia.
Qed.

Lemma alphabetChar_not_pad (n : nat) :
  n < 64 -> Ascii.eqb (alphabetChar n) pad = false.
Proof.
  intros H. do 64 (destruct n as [|n]; [reflexivity|]). lia.
Qed.

Lemma alphabetChar_not_space (n : nat) :
  n < 64 -> isAsciiWhitespace (alphabetChar n) = false.
Proof.
  intros H. do 64 (destruct n as [|n]; [reflexivity|]). lia.
Qed.

(** Induction on strings three characters at a time. *)
Lemma string_ind3 (P : string -> Prop) :
  P EmptyString ->
  (forall a, P (String a EmptyString)) ->
  (forall a b, P (String a (String b EmptyString))) ->
  (forall a b c r, P r -> P (String a (String b (String c r)))) ->
  forall s, P s.
Proof.
  intros H0 H1 H2 H3.
  assert (H : forall s, P s /\ (forall a, P (String a s))
                        /\ (forall a b, P (String a (String b s)))).
  { induction s as [|c s (IHa & IHb & IHc)].
    - split; [exact H0|]. split; [exact H1|exact H2].
    - split; [apply IHb|]. split; [intros a; apply IHc|].
      intros a b. apply H3. exact IHa. }
  intros s. apply H.
Qed.

Lemma stripWhitespace_btoa (s : string) : stripWhitespace (btoa s) = btoa s.
Proof.
  induction s as [|a|a b|a b c r IH] using string_ind3.
  - reflexivity.
  - pose proof (nat_ascii_bounded a).
    cbn [btoa stripWhitespace].
    rewrite !alphabetChar_not_space by divlia. reflexivity.
  - pose proof (nat_ascii_bounded a). pose proof (nat_ascii_bounded b).
    cbn [btoa stripWhitespace].
    rewrite !alphabetChar_not_space by divlia. reflexivity.
  - pose proof (nat_ascii_bounded a). pose proof (nat_ascii_bounded b).
    pose proof (nat_ascii_bounded c).
    cbn [btoa stripWhitespace].
    rewrite !alphabetChar_not_space by divlia. rewrite IH. reflexivity.
Qed.

(** A full group of four followed by more input. *)
Lemma decode_step (c1 c2 c3 c4 : ascii) (rest tail : string) :
  Ascii.eqb c4 pad = false ->
  decode rest = Some tail ->
  decode (String c1 (String c2 (String c3 (String c4 rest))))
  = dec4 c1 c2 c3 c4 tail.
Proof.
  intros Hpad Hrest. destruct rest as [|x rest'].
  - cbn [decode] in *. rewrite Hpad. injection Hrest as <-. reflexivity.
  - change (decode (String c1 (String c2 (String c3 (String c4 (String x rest'))))))
      with (match decode (String x rest') with
            | Some tail => dec4 c1 c2 c3 c4 tail
            | None => None
            end).
    rewrite Hrest. reflexivity.
Qed.

Lemma byte_of_nat (a : ascii) (n : nat) :
  n = nat_of_ascii a -> ascii_of_nat n = a.
Proof. intros ->. apply ascii_nat_embedding. Qed.

Lemma decode_btoa (s : string) : decode (btoa s) = Some s.
Proof.
  induction s as [|a|a b|a b c r IH] using string_ind3.
  - reflexivity.
  - pose proof (nat_ascii_bounded a).
    cbn [btoa decode]. change (Ascii.eqb pad pad) with true. cbv iota.
    unfold dec2. rewrite !sextetOf_alphabetChar by divlia.
    rewrite (byte_of_nat a) by divlia. reflexivity.
  - pose proof (nat_ascii_bounded a). pose proof (nat_ascii_bounded b).
    cbn [btoa decode]. change (Ascii.eqb pad pad) with true. cbv iota.
    rewrite alphabetChar_not_pad by divlia.
    unfold dec3. rewrite !sextetOf_alphabetChar by divlia.
    rewrite (byte_of_nat a), (byte_of_nat b) by divlia. reflexivity.
  - pose proof (nat_ascii_bounded a). pose proof (nat_ascii_bounded b).
    pose proof (nat_ascii_bounded c).
    cbn [btoa].
    rewrite (decode_step _ _ _ _ _ r); [|apply alphabetChar_not_pad; divlia|exact IH].
    unfold dec4. rewrite !sextetOf_alphabetChar by divlia.
    rewrite (byte_of_nat a), (byte_of_nat b), (byte_of_nat c) by divlia.
    reflexivity.
Qed.

(** [atob] undoes [btoa]. *)
Lemma atob_btoa (s : string) : atob (btoa s) = Some s.
Proof.
  unfold atob. rewrite stripWhitespace_btoa. apply decode_btoa.
Qed.

End Base64Facts.

(* ================================================================== *)
(** * Bearer tokens: JSON *)
(* ================================================================== *)

Section JSONFacts.

Import JSON.

Lemma spanDigits_uint (d : uint) (rest : string) :
  spanDigits rest = (EmptyString, rest) ->
  spanDigits (NilEmpty.string_of_uint d ++ rest)
  = (NilEmpty.string_of_uint d, rest).
Proof.
  intros Hrest. induction d; cbn [NilEmpty.string_of_uint append];
    [exact Hrest|..]; cbn [spanDigits]; rewrite IHd; reflexivity.
Qed.

Lemma to_uint_no_leading_zero (p : positive) (d : uint) :
  Pos.to_uint p <> D0 d.
Proof.
  intros E.
  pose proof (DecimalPos.Unsigned.to_of (Pos.to_uint p)) as H.
  rewrite DecimalPos.Unsigned.of_to in H. cbn [N.to_uint] in H.
  rewrite E, DecimalFacts.unorm_D0 in H.
  unfold unorm in H.
  destruct (nzhead d) eqn:Hd; try discriminate H.
  - injection H as H'. subst d. apply (DecimalPos.Unsigned.to_uint_nonzero p). exact E.
  - exact (DecimalFacts.nzhead_nonzero d _ Hd).
Qed.

Lemma of_uint_to_uint (p : positive) : Z.of_uint (Pos.to_uint p) = Z.pos p.
Proof.
  unfold Z.of_uint. rewrite DecimalPos.Unsigned.of_to. reflexivity.
Qed.

Lemma parseDigits_pos (negative : bool) (p : positive) (rest : string) :
  endsNumber rest ->
  parseDigits negative (NilEmpty.string_of_uint (Pos.to_uint p) ++ rest)
  = Some (Number (if negative then Z.neg p else Z.pos p), rest).
Proof.
  intros [Hspan Hfrac]. unfold parseDigits.
  rewrite spanDigits_uint by exact Hspan.
  rewrite Hfrac, NilEmpty.usu, of_uint_to_uint.
  pose proof (DecimalPos.Unsigned.to_uint_nonnil p) as Hnil.
  pose proof (to_uint_no_leading_zero p) as Hzero.
  destruct (Pos.to_uint p) as [|d|d|d|d|d|d|d|d|d|d];
    try (destruct d; destruct negative; reflexivity).
  - congruence.
  - exfalso. exact (Hzero d eq_refl).
Qed.

Lemma parseNumber_numToString (z : Z) (rest : string) :
  endsNumber rest ->
  parseNumber (JS.numToString z ++ rest) = Some (Number z, rest).
Proof.
  intros Hend. unfold JS.numToString.
  destruct z as [|p|p]; cbn [Z.to_int NilEmpty.string_of_int].
  - destruct Hend as [Hspan Hfrac].
    cbn [append Z.to_int NilEmpty.string_of_uint]. unfold parseNumber.
    change ((nat_of_ascii "0"%char =? 45)%nat) with false. cbv iota.
    unfold parseDigits. cbn [spanDigits].
    change (isDigit "0"%char) with true. cbv iota.
    rewrite Hspan. cbn. rewrite Hfrac. reflexivity.
  - pose proof (parseDigits_pos false p rest Hend) as H.
    pose proof (DecimalPos.Unsigned.to_uint_nonnil p) as Hnil.
    destruct (Pos.to_uint p); try congruence; exact H.
  - cbn [append]. unfold parseNumber. cbn [nat_of_ascii Nat.eqb].
    change ((nat_of_ascii "-"%char =? 45)%nat) with true. cbv iota.
    apply (parseDigits_pos true p rest Hend).
Qed.

(** The first character of a rendered integer is a minus sign or a
    digit. *)
Lemma numToString_head (z : Z) :
  exists c r, JS.numToString z = String c r /\
              ((nat_of_ascii c =? 45)%nat || isDigit c) = true.
Proof.
  unfold JS.numToString. destruct z as [|p|p]; cbn [Z.to_int NilEmpty.string_of_int].
  - eexists _, _. split; reflexivity.
  - pose proof (DecimalPos.Unsigned.to_uint_nonnil p) as Hnil.
    destruct (Pos.to_uint p); try congruence; eexists _, _; split; reflexivity.
  - eexists _, _. split; reflexivity.
Qed.

Lemma parseValue_dispatch_number (fuel : nat) (c : ascii) (r : string) :
  ((nat_of_ascii c =? 45)%nat || isDigit c) = true ->
  parseValue (S fuel) (String c r) = parseNumber (String c r).
Proof.
  destruct c as [[|] [|] [|] [|] [|] [|] [|] [|]];
    intros H; try discriminate H; reflexivity.
Qed.

Lemma parseValue_number (fuel : nat) (z : Z) (rest : string) :
  endsNumber rest ->
  parseValue (S fuel) (JS.numToString z ++ rest) = Some (Number z, rest).
Proof.
  intros Hend.
  rewrite <- (parseNumber_numToString z rest Hend).
  destruct (numToString_head z) as (c & r & -> & Hc).
  cbn [append]. apply parseValue_dispatch_number. exact Hc.
Qed.

(** An object whose first member starts right after the brace. *)
Lemma parseValue_object (fuel : nat) (s : string) :
  parseValue (S fuel) (String "{" (String JS.dquote s))
  = parseMembers (parseValue fuel) fuel (String JS.dquote s) [].
Proof. reflexivity. Qed.

(** A member followed by a comma, and the last member of an object. *)
Lemma parseMembers_comma (pv : string -> option (value * string)) (n : nat)
      (s key r2 r4 : string) (v : value) (acc : list (string * value)) :
  parseStringBody s = Some (key, String ":" r2) ->
  pv r2 = Some (v, String "," r4) ->
  parseMembers pv (S n) (String JS.dquote s) acc
  = parseMembers pv n r4 (acc ++ [(key, v)]).
Proof.
  intros Hkey Hval. cbn [parseMembers].
  change (skipWs (String JS.dquote s)) with (String JS.dquote s). cbv iota.
  change ((nat_of_ascii JS.dquote =? 34)%nat) with true. cbv iota.
  rewrite Hkey.
  change (skipWs (String ":" r2)) with (String ":"%char r2). cbv iota.
  change ((nat_of_ascii ":" =? 58)%nat) with true. cbv iota.
  rewrite Hval.
  change (skipWs (String "," r4)) with (String ","%char r4). cbv iota.
  change ((nat_of_ascii "," =? 44)%nat) with true. cbv iota.
  reflexivity.
Qed.

Lemma parseMembers_last (pv : string -> option (value * string)) (n : nat)
      (s key r2 r4 : string) (v : value) (acc : list (string * value)) :
  parseStringBody s = Some (key, String ":" r2) ->
  pv r2 = Some (v, String "}" r4) ->
  parseMembers pv (S n) (String JS.dquote s) acc
  = Some (Object (acc ++ [(key, v)]), r4).
Proof.
  intros Hkey Hval. cbn [parseMembers].
  change (skipWs (String JS.dquote s)) with (String JS.dquote s). cbv iota.
  change ((nat_of_ascii JS.dquote =? 34)%nat) with true. cbv iota.
  rewrite Hkey.
  change (skipWs (String ":" r2)) with (String ":"%char r2). cbv iota.
  change ((nat_of_ascii ":" =? 58)%nat) with true. cbv iota.
  rewrite Hval.
  change (skipWs (String "}" r4)) with (String "}"%char r4). cbv iota.
  change ((nat_of_ascii "}" =? 44)%nat) with false. cbv iota.
  change ((nat_of_ascii "}" =? 125)%nat) with true. cbv iota.
  reflexivity.
Qed.

Lemma endsNumber_comma (r : string) : endsNumber (String "," r).
Proof. split; reflexivity. Qed.

Lemma endsNumber_brace (r : string) : endsNumber (String "}" r).
Proof. split; reflexivity. Qed.

(** The payload text, character by character. *)
Lemma stringifyPayload_shape (userId exp : Z) :
  stringifyPayload userId exp
  = String "{" (String JS.dquote
      ("userId" ++ String JS.dquote (String ":"
         (JS.numToString userId ++ String "," (String JS.dquote
            ("exp" ++ String JS.dquote (String ":"
               (JS.numToString exp ++ String "}" EmptyString)))))))).
Proof. reflexivity. Qed.

Lemma parseStringBody_userId (rest : string) :
  parseStringBody ("userId" ++ String JS.dquote rest) = Some ("userId", rest).
Proof. reflexivity. Qed.

Lemma parseStringBody_exp (rest : string) :
  parseStringBody ("exp" ++ String JS.dquote rest) = Some ("exp", rest).
Proof. reflexivity. Qed.

Lemma parseValue_payload (fuel : nat) (userId exp : Z) :
  parseValue (S (S (S fuel))) (stringifyPayload userId exp)
  = Some (Object [("userId", Number userId); ("exp", Number exp)], EmptyString).
Proof.
  rewrite stringifyPayload_shape, parseValue_object.
  rewrite (parseMembers_comma _ _ _ _ _ _ _ _
             (parseStringBody_userId _)
             (parseValue_number _ userId _ (endsNumber_comma _))).
  rewrite (parseMembers_last _ _ _ _ _ _ _ _
             (parseStringBody_exp _)
             (parseValue_number _ exp _ (endsNumber_brace _))).
  reflexivity.
Qed.

(** [JSON.parse] reads back what [JSON.stringify] wrote for a payload. *)
Lemma parse_stringifyPayload (userId exp : Z) :
  parse (stringifyPayload userId exp)
  = Some (Object [("userId", Number userId); ("exp", Number exp)]).
Proof.
  unfold parse.
  assert (Hlen : exists n, String.length (stringifyPayload userId exp) = S (S n)).
  { rewrite stringifyPayload_shape. eexists. reflexivity. }
  destruct Hlen as [n ->].
  rewrite parseValue_payload. reflexivity.
Qed.

End JSONFacts.

(* ================================================================== *)
(** * Bearer tokens: [generateToken] and [verifyToken] *)
(* ================================================================== *)

Section TokenFacts.

Import Auth.

(** What [verifyToken] does with the encoding of a payload. *)
Lemma verifyToken_payload (userId exp now : Z) :
  verifyToken (Base64.btoa (JSON.stringifyPayload userId exp)) now
  = if exp <? now / 1000 then None else Some (Val (JSON.Number userId)).
Proof.
  unfold verifyToken.
  rewrite atob_btoa, parse_stringifyPayload.
  cbn [getProp member]. cbn.
  destruct (exp <? now / 1000); reflexivity.
Qed.



End TokenFacts.

(* ================================================================== *)
(** * Further properties of the ledger and of the export *)
(* ================================================================== *)




Lemma append_assoc (a b c : string) : ((a ++ b) ++ c = a ++ (b ++ c))%string.
Proof.
  induction a as [|x a IH]; cbn [append]; [reflexivity|]. rewrite IH. reflexivity.
Qed.

Lemma append_nil_r (a : string) : (a ++ "" = a)%string.
Proof.
  induction a as [|x a IH]; cbn [append]; [reflexivity|]. rewrite IH. reflexivity.
Qed.



Lemma appendIndexed_rows (row : Z -> Transaction -> string) (txs : list Transaction)
      (i : nat) (csv : string) :
  appendIndexed row (Z.of_nat i) txs csv
  = (csv ++ CSVReader.joinRows
              (map (fun p => row (Z.of_nat (fst p)) (snd p))
                   (combine (seq i (List.length txs)) txs)))%string.
Proof.
  revert i csv. induction txs as [|t txs IH]; intros i csv.
  - cbn. rewrite append_nil_r. reflexivity.
  - cbn [appendIndexed List.length seq combine map fst snd
           CSVReader.joinRows fold_right].
    replace (Z.of_nat i + 1) with (Z.of_nat (S i)) by lia.
    rewrite IH, append_assoc. reflexivity.
Qed.

Lemma fold_left_rows (row : Transaction -> string) (txs : list Transaction)
      (csv : string) :
  fold_left (fun csv t => (csv ++ row t)%string) txs csv
  = (csv ++ CSVReader.joinRows (map row txs))%string.
Proof.
  revert csv. induction txs as [|t txs IH]; intros csv.
  - cbn. rewrite append_nil_r. reflexivity.
  - cbn [fold_left map CSVReader.joinRows fold_right].
    rewrite IH, append_assoc. reflexivity.
Qed.

(** X3.  The MF Cloud, freee and yayoi payloads are the header followed
    by exactly one row per transaction, in the order of the list; the MF
    Cloud and yayoi rows are numbered 1, 2, 3, ... in their first field. *)
Theorem accounting_csv_rows (txs : list Transaction) :
  generateMFCloudCSV txs
  = (mfHeader
     ++ CSVReader.joinRows
          (map (fun p => mfRow (Z.of_nat (fst p)) (snd p))
               (combine (seq 0 (List.length txs)) txs)))%string /\
  generateYayoiCSV txs
  = (yayoiHeader
     ++ CSVReader.joinRows
          (map (fun p => yayoiRow (Z.of_nat (fst p)) (snd p))
               (combine (seq 0 (List.length txs)) txs)))%string /\
  generateFreeeCSV txs
  = (freeeHeader ++ CSVReader.joinRows (map freeeRow txs))%string /\
  (forall (k : nat) (t : Transaction),
      hd "" (mfFields (Z.of_nat k) t) = JS.numToString (Z.of_nat k + 1) /\
      hd "" (yayoiFields (Z.of_nat k) t) = JS.numToString (Z.of_nat k + 1)).
Proof.
  split; [apply (appendIndexed_rows mfRow txs 0)|].
  split; [apply (appendIndexed_rows yayoiRow txs 0)|].
  split; [apply fold_left_rows|].
  intros k t. unfold mfFields, yayoiFields.
  destruct (type t); split; reflexivity.
Qed.

(** The export of a non-empty period, in terms of the format chosen. *)
Lemma exportToCSV_nonempty (app : App) (s e : string) :
  s <> "" -> e <> "" ->
  let filtered := filter (inMonthRange s e) (getCurrentTransactions app) in
  filtered <> [] ->
  exportToCSV app s e
  = Download
      (let plan := JS.orElse (plan app) "free" in
       let format :=
         if String.eqb plan "basic" || String.eqb plan "professional"
         then JS.orElse (exportFormat (getCurrentSettings app)) "mf"
         else "basic" in
       if String.eqb format "basic" then BOM ++ generateBasicCSV app filtered
       else if String.eqb format "mf" then BOM ++ generateMFCloudCSV filtered
       else if String.eqb format "freee" then BOM ++ generateFreeeCSV filtered
       else if String.eqb format "yayoi" then BOM ++ generateYayoiCSV filtered
       else BOM ++ generateMFCloudCSV filtered)%string.
Proof.
  intros Hs He filtered Hne. unfold exportToCSV.
  destruct s; [congruence|]. destruct e; [congruence|]. cbn [JS.truthy negb orb].
  fold filtered. destruct filtered; [congruence|]. reflexivity.
Qed.

Lemma sendMonthlyClosing_nonempty (app : App) (s e rcpt : string) :
  s <> "" -> e <> "" ->
  let filtered := filter (inMonthRange s e) (getCurrentTransactions app) in
  filtered <> [] ->
  sendMonthlyClosing app s e (Some rcpt) true
  = ClosingSent
      (let format := JS.orElse (exportFormat (getCurrentSettings app)) "mf" in
       if String.eqb format "mf" then generateMFCloudCSV filtered
       else if String.eqb format "freee" then generateFreeeCSV filtered
       else if String.eqb format "yayoi" then generateYayoiCSV filtered
       else generateBasicCSV app filtered).
Proof.
  intros Hs He filtered Hne. unfold sendMonthlyClosing.
  destruct s; [congruence|]. destruct e; [congruence|]. cbn [JS.truthy negb orb].
  fold filtered. destruct filtered; [congruence|]. reflexivity.
Qed.

(** X4.  The plan gates the format of the downloaded file but not that of
    the mailed one: for a user who is neither on the basic nor on the
    professional plan, [exportToCSV] produces the basic format whatever
    format the book is set to, while [sendMonthlyClosing] mails the format
    of the book, MF Cloud when it is unset or [mf]. *)
Theorem plan_gates_download_not_mail (app : App) (s e rcpt : string) :
  s <> "" -> e <> "" ->
  let filtered := filter (inMonthRange s e) (getCurrentTransactions app) in
  filtered <> [] ->
  plan app <> "basic" -> plan app <> "professional" ->
  exportToCSV app s e = Download (BOM ++ generateBasicCSV app filtered)%string /\
  ((exportFormat (getCurrentSettings app) = ""
    \/ exportFormat (getCurrentSettings app) = "mf") ->
   sendMonthlyClosing app s e (Some rcpt) true
   = ClosingSent (generateMFCloudCSV filtered)) /\
  (exportFormat (getCurrentSettings app) = "freee" ->
   sendMonthlyClosing app s e (Some rcpt) true
   = ClosingSent (generateFreeeCSV filtered)) /\
  (exportFormat (getCurrentSettings app) = "yayoi" ->
   sendMonthlyClosing app s e (Some rcpt) true
   = ClosingSent (generateYayoiCSV filtered)).
Proof.
  intros Hs He filtered Hne Hb Hp.
  split.
  - rewrite (exportToCSV_nonempty app s e Hs He Hne). fold filtered.
    assert (Hplan : String.eqb (JS.orElse (plan app) "free") "basic"
                    || String.eqb (JS.orElse (plan app) "free") "professional" = false).
    { destruct (plan app) as [|c p] eqn:E; [reflexivity|]. cbn [JS.orElse].
      apply orb_false_iff. split; apply String.eqb_neq; assumption. }
    cbv zeta. rewrite Hplan. reflexivity.
  - rewrite (sendMonthlyClosing_nonempty app s e rcpt Hs He Hne). fold filtered.
    split; [intros [E|E]; rewrite E; reflexivity|].
    split; intros E; rewrite E; reflexivity.
Qed.

Lemma plan_gates_download_not_mail_witness :
  exportToCSV (withPlan freeeBookApp "free") "2024-01" "2024-01"
  = Download (BOM ++ generateBasicCSV (withPlan freeeBookApp "free") [quotedClientTx])%string /\
  sendMonthlyClosing (withPlan freeeBookApp "free") "2024-01" "2024-01"
                     (Some "a@example.com") true
  = ClosingSent (generateFreeeCSV [quotedClientTx]).
Proof.
  assert (Hs : "2024-01" <> "") by discriminate.
  assert (Hne : filter (inMonthRange "2024-01" "2024-01")
                       (getCurrentTransactions (withPlan freeeBookApp "free")) <> [])
    by (vm_compute; discriminate).
  assert (Hb : plan (withPlan freeeBookApp "free") <> "basic") by discriminate.
  assert (Hp : plan (withPlan freeeBookApp "free") <> "professional") by discriminate.
  pose proof (plan_gates_download_not_mail (withPlan freeeBookApp "free")
                "2024-01" "2024-01" "a@example.com" Hs Hs Hne Hb Hp) as H.
  split; [exact (proj1 H)|].
  exact (proj1 (proj2 (proj2 H)) eq_refl).
Defined.

(** X5.  On the basic and professional plans, when the book's format is
    one the settings can hold (unset, [mf], [freee], [yayoi]) or [basic],
    the file mailed by [sendMonthlyClosing] is the file downloaded by
    [exportToCSV] without its byte-order mark. *)
Theorem mailed_csv_is_downloaded_csv (app : App) (s e rcpt : string) :
  s <> "" -> e <> "" ->
  filter (inMonthRange s e) (getCurrentTransactions app) <> [] ->
  plan app = "basic" \/ plan app = "professional" ->
  In (exportFormat (getCurrentSettings app)) [""; "mf"; "freee"; "yayoi"; "basic"] ->
  exists csv,
    sendMonthlyClosing app s e (Some rcpt) true = ClosingSent csv /\
    exportToCSV app s e = Download (BOM ++ csv)%string.
Proof.
  intros Hs He Hne Hplan Hfmt.
  rewrite (exportToCSV_nonempty app s e Hs He Hne).
  rewrite (sendMonthlyClosing_nonempty app s e rcpt Hs He Hne).
  eexists. split; [reflexivity|].
  assert (Hp : String.eqb (JS.orElse (plan app) "free") "basic"
               || String.eqb (JS.orElse (plan app) "free") "professional" = true)
    by (destruct Hplan as [-> | ->]; reflexivity).
  cbv zeta. rewrite Hp.
  cbn [In] in Hfmt.
  destruct Hfmt as [<-|[<-|[<-|[<-|[<-|[]]]]]]; reflexivity.
Qed.

Lemma mailed_csv_is_downloaded_csv_witness :
  exists csv,
    sendMonthlyClosing freeeBookApp "2024-01" "2024-01" (Some "a@example.com") true
    = ClosingSent csv /\
    exportToCSV freeeBookApp "2024-01" "2024-01" = Download (BOM ++ csv)%string.
Proof.
  assert (Hs : "2024-01" <> "") by discriminate.
  apply (mailed_csv_is_downloaded_csv freeeBookApp "2024-01" "2024-01"
           "a@example.com" Hs Hs).
  - vm_compute. discriminate.
  - left. reflexivity.
  - cbn. right. right. left. reflexivity.
Defined.

(* ================================================================== *)
(** * Monthly closing *)
(* ================================================================== *)

(** The order on strings is transitive. *)
Lemma compare_le_trans (a b c : string) :
  String.compare a b <> Gt -> String.compare b c <> Gt -> String.compare a c <> Gt.
Proof.
  revert b c. induction a as [|x a IH]; intros [|y b] [|z c]; cbn [String.compare];
    try congruence.
  unfold Ascii.compare.
  destruct (N.compare_spec (N_of_ascii x) (N_of_ascii y)) as [Exy|Lxy|Gxy];
    destruct (N.compare_spec (N_of_ascii y) (N_of_ascii z)) as [Eyz|Lyz|Gyz];
    destruct (N.compare_spec (N_of_ascii x) (N_of_ascii z)) as [Exz|Lxz|Gxz];
    try congruence; try lia.
  apply IH.
Qed.

Lemma leb_trans (a b c : string) :
  String.leb a b = true -> String.leb b c = true -> String.leb a c = true.
Proof.
  unfold String.leb. intros H1 H2.
  pose proof (compare_le_trans a b c) as H.
  destruct (String.compare a b), (String.compare b c), (String.compare a c);
    try reflexivity; try discriminate; exfalso; apply H; congruence.
Qed.

(** Nothing lies between a bound and a smaller one. *)
Lemma empty_range (lo hi m : string) :
  String.ltb hi lo = true -> String.leb lo m && String.leb m hi = false.
Proof.
  intros Hlt.
  destruct (String.leb lo m) eqn:H1, (String.leb m hi) eqn:H2; try reflexivity.
  pose proof (leb_trans lo m hi H1 H2) as H.
  unfold String.ltb in Hlt. unfold String.leb in H.
  rewrite String.compare_antisym in H.
  destruct (String.compare hi lo); cbn in H; discriminate.
Qed.

Lemma filter_none {A : Type} (p : A -> bool) (l : list A) :
  (forall x, p x = false) -> filter p l = [].
Proof.
  intros H. induction l as [|x l IH]; cbn; [reflexivity|]. rewrite H. exact IH.
Qed.

(** The Filter Engine as one filter. *)
Lemma applyFilters_filter (f : FilterInputs) (l : list Transaction) :
  applyFilters f l = filter (Spec.matches f) l.
Proof.
  unfold applyFilters. cbv zeta.
  pose proof (stage_date f l) as H1. cbv zeta in H1. rewrite H1.
  pose proof (stage_keyword f) as H2. cbv zeta in H2. rewrite H2.
  pose proof (stage_amount f) as H3. cbv zeta in H3. rewrite H3.
  rewrite stage_subject, !filter_filter. apply filter_ext.
  intros t. unfold Spec.matches. rewrite !andb_assoc. reflexivity.
Qed.



(** X7.  A period whose start is after its end: [previewMonthlyClosing]
    asks for the start to be put before the end; [exportToCSV] and
    [sendMonthlyClosing], which do not compare the two months, report
    that the period has no data; and the transaction list filtered by a
    date range whose start is after its end shows its empty state. *)
Theorem start_after_end (app : App) (s e : string) :
  s <> "" -> e <> "" ->
  Closing.str_gt s e = true ->
  Closing.previewMonthlyClosing app s e = PreviewStartAfterEnd /\
  exportToCSV app s e = AlertNoData /\
  (forall rcpt confirmed,
      sendMonthlyClosing app s e (Some rcpt) confirmed = ClosingNoData) /\
  (forall f, filter_start_date f = s -> filter_end_date f = e ->
             emptyState (renderTransactions app f) = true /\
             rows (renderTransactions app f) = []).
Proof.
  intros Hs He Hgt. unfold Closing.str_gt in Hgt.
  assert (Hrange : filter (inMonthRange s e) (getCurrentTransactions app) = []).
  { apply filter_none. intros t. unfold inMonthRange, JS.str_ge, JS.str_le.
    apply empty_range. exact Hgt. }
  destruct s as [|a s]; [congruence|]. destruct e as [|b e]; [congruence|].
  split.
  { unfold Closing.previewMonthlyClosing, Closing.str_gt.
    cbn [JS.truthy negb orb]. rewrite Hgt. reflexivity. }
  split.
  { unfold exportToCSV. cbn [JS.truthy negb orb]. rewrite Hrange. reflexivity. }
  split.
  { intros rcpt confirmed. unfold sendMonthlyClosing. cbn [JS.truthy negb orb].
    rewrite Hrange. reflexivity. }
  intros f Hfs Hfe.
  assert (Hempty : applyFilters f (getCurrentTransactions app) = []).
  { rewrite applyFilters_filter. apply filter_none. intros t.
    unfold Spec.matches, Spec.dateFromOk, Spec.dateToOk. rewrite Hfs, Hfe.
    rewrite (empty_range _ _ (date t) Hgt). reflexivity. }
  rewrite (renderTransactions_empty app f Hempty). split; reflexivity.
Qed.

Lemma start_after_end_witness :
  exportToCSV freeeBookApp "2024-03" "2024-01" = AlertNoData.
Proof.
  assert (Hs : "2024-03" <> "") by discriminate.
  assert (He : "2024-01" <> "") by discriminate.
  assert (Hgt : Closing.str_gt "2024-03" "2024-01" = true) by reflexivity.
  exact (proj1 (proj2 (start_after_end freeeBookApp "2024-03" "2024-01" Hs He Hgt))).
Defined.

(* ================================================================== *)
(** * Basic rows, keyword, narrowing, quoting *)
(* ================================================================== *)

Lemma findSubAccount_none (subjects : list AccountSubject) (a : Z) :
  (forall subject sub, In subject subjects -> In sub (sub_accounts subject) ->
                       sub_id sub <> a) ->
  findSubAccount subjects (Some a) = "".
Proof.
  induction subjects as [|subject rest IH]; intros H; cbn [findSubAccount];
    [reflexivity|].
  destruct (find (fun s => sub_id s =? a) (sub_accounts subject)) as [sub|] eqn:E.
  - apply find_some in E. destruct E as [Hin Heq].
    apply Z.eqb_eq in Heq. exfalso.
    apply (H subject sub); [left; reflexivity|exact Hin|exact Heq].
  - apply IH. intros s' sub Hs Hsub. apply (H s' sub); [right; exact Hs|exact Hsub].
Qed.

(** X8.  The sub-account column of a basic CSV row is looked up with the
    account-subject id of the transaction, not with its sub-account id:
    for a transaction that has a sub-account, the row is the same
    whichever sub-account it is, and the column is blank as soon as no
    sub-account of the book has the account-subject id as its id. *)
Theorem basic_csv_sub_account_column (app : App) (t : Transaction) (b n : Z) :
  sub_account_id t = Some n -> n <> 0 ->
  nth 5 (basicFields app t b) ""
  = quoted (getSubAccountName app (account_subject_id t)) /\
  (forall n', n' <> 0 ->
              basicFields app (withSubAccount t (Some n')) b = basicFields app t b) /\
  (forall a, account_subject_id t = Some a ->
             (forall subject sub, In subject (accountSubjects app) ->
                                  In sub (sub_accounts subject) -> sub_id sub <> a) ->
             nth 5 (basicFields app t b) "" = quoted "").
Proof.
  intros Hsub Hn.
  assert (Hcol : nth 5 (basicFields app t b) ""
                 = quoted (getSubAccountName app (account_subject_id t))).
  { unfold basicFields. cbn [nth]. rewrite Hsub.
    destruct (Z.eqb_spec n 0); [contradiction|reflexivity]. }
  split; [exact Hcol|]. split.
  - intros n' Hn'. unfold basicFields, withSubAccount.
    cbn [date type description client amount account_subject_id sub_account_id taxType].
    rewrite Hsub.
    destruct (Z.eqb_spec n 0); [contradiction|].
    destruct (Z.eqb_spec n' 0); [contradiction|]. reflexivity.
  - intros a Ha Hdisj. rewrite Hcol, Ha. unfold getSubAccountName.
    rewrite (findSubAccount_none _ a Hdisj). reflexivity.
Qed.

Lemma basic_csv_sub_account_column_witness :
  nth 5 (basicFields subjectsApp subAccountTx 0) "" = quoted "".
Proof.
  assert (Hsub : sub_account_id subAccountTx = Some 7) by reflexivity.
  assert (Hn : 7 <> 0) by discriminate.
  apply (proj2 (proj2 (basic_csv_sub_account_column subjectsApp subAccountTx 0 7
                         Hsub Hn)) 2 eq_refl).
  intros subject sub [<-|[<-|[]]] Hin; cbn in Hin.
  - contradiction.
  - destruct Hin as [<-|[]]. discriminate.
Defined.





Lemma sumOf_filter_le (ty : TxType) (p : Transaction -> bool) (txs : list Transaction) :
  Forall (fun t => 0 <= amount t) txs ->
  0 <= Spec.sumOf ty (filter p txs) <= Spec.sumOf ty txs.
Proof.
  induction 1 as [|t txs Ht _ IH]; [cbn; lia|].
  cbn [filter]. destruct (p t); rewrite !sumOf_cons;
    destruct (TxType_eqb (type t) ty); lia.
Qed.

(** X10.  Filtering only narrows: the filtered list is stable under the
    same filters, each of its transactions is one of the book's, and,
    amounts being non-negative, the income and expense totals of the
    filtered list do not exceed those of the whole list. *)
Theorem filters_narrow (f : FilterInputs) (txs : list Transaction) :
  Forall (fun t => 0 <= amount t) txs ->
  applyFilters f (applyFilters f txs) = applyFilters f txs /\
  (forall t, In t (applyFilters f txs) -> In t txs /\ Spec.matches f t = true) /\
  total_income (updateTotals (applyFilters f txs) 0)
  <= total_income (updateTotals txs 0) /\
  total_expense (updateTotals (applyFilters f txs) 0)
  <= total_expense (updateTotals txs 0).
Proof.
  intros Hpos. rewrite !applyFilters_filter.
  split.
  { rewrite filter_filter. apply filter_ext. intros t. apply andb_diag. }
  split.
  { intros t Hin. apply filter_In in Hin. exact Hin. }
  destruct (updateTotals_sums (filter (Spec.matches f) txs) 0) as (A & B & _).
  destruct (updateTotals_sums txs 0) as (C & D & _).
  rewrite A, B, C, D.
  split; apply sumOf_filter_le; exact Hpos.
Qed.

Lemma filters_narrow_witness :
  total_income (updateTotals
                  (applyFilters (keywordOnly "taxi")
                                [mkTx "2024-01-05" income "Sale" "" 3000]) 0)
  <= total_income (updateTotals [mkTx "2024-01-05" income "Sale" "" 3000] 0).
Proof.
  apply (filters_narrow (keywordOnly "taxi")).
  repeat constructor. cbn. lia.
Defined.

Lemma readQuotedBody_escaped (s rest : string) :
  JS.startsWith rest (String JS.dquote "") = false ->
  CSVReader.readQuotedBody (JS.escapeQuotes s ++ String JS.dquote rest)
  = Some (s, rest).
Proof.
  intros Hrest. induction s as [|c s IH].
  - cbn [JS.escapeQuotes append CSVReader.readQuotedBody].
    rewrite Ascii.eqb_refl.
    destruct rest as [|c' r']; [reflexivity|].
    destruct (Ascii.eqb c' JS.dquote) eqn:E; [|reflexivity].
    cbn [JS.startsWith] in Hrest. rewrite E in Hrest.
    destruct r'; discriminate Hrest.
  - cbn [JS.escapeQuotes]. destruct (Ascii.eqb c JS.dquote) eqn:E.
    + apply Ascii.eqb_eq in E. subst c.
      cbn [append CSVReader.readQuotedBody].
      rewrite !Ascii.eqb_refl, IH. reflexivity.
    + cbn [append CSVReader.readQuotedBody]. rewrite E, IH. reflexivity.
Qed.

(** Reading a quoted field gives back the text that was escaped. *)
Lemma quoted_fields_read_back (t : Transaction) (i : Z) (s rest : string) :
  JS.startsWith rest (String JS.dquote "") = false ->
  CSVReader.readQuoted (quoted (JS.escapeQuotes s) ++ rest) = Some (s, rest) /\
  CSVReader.readQuoted (nth 14 (mfFields i t) "" ++ "," ++ rest)
  = Some (description t, ("," ++ rest)%string) /\
  CSVReader.readQuoted (nth 15 (mfFields i t) "" ++ "," ++ rest)
  = Some (client t, ("," ++ rest)%string) /\
  CSVReader.readQuoted (nth 9 (freeeFields t) "" ++ "," ++ rest)
  = Some (description t, ("," ++ rest)%string) /\
  CSVReader.readQuoted (nth 15 (yayoiFields i t) "" ++ "," ++ rest)
  = Some (description t, ("," ++ rest)%string).
Proof.
  intros Hrest.
  assert (H : forall x r, JS.startsWith r (String JS.dquote "") = false ->
                          CSVReader.readQuoted (quoted (JS.escapeQuotes x) ++ r)
                          = Some (x, r)).
  { intros x r Hr. unfold quoted, CSVReader.readQuoted. cbn [append].
    rewrite Ascii.eqb_refl, append_assoc. cbn [append].
    apply readQuotedBody_escaped. exact Hr. }
  split; [apply H; exact Hrest|].
  unfold mfFields, yayoiFields, freeeFields.
  destruct (type t); cbn [nth];
    (split; [apply H; reflexivity|]);
    (split; [apply H; reflexivity|]);
    (split; apply H; reflexivity).
Qed.

(** X11.  The quoted fields of the generators are unambiguous: a field
    written as the escaped text between quotes, followed by anything that
    does not start with a quote, determines the text and what follows,
    whatever commas, quotes and line feeds the text contains.  So two MF
    Cloud rows that agree from the description on have the same
    description, and likewise for the client of an MF Cloud row and the
    description of a freee and of a yayoi row. *)
Theorem quoted_fields_unambiguous (t t' : Transaction) (i i' : Z)
        (s s' rest rest' : string) :
  JS.startsWith rest (String JS.dquote "") = false ->
  JS.startsWith rest' (String JS.dquote "") = false ->
  (quoted (JS.escapeQuotes s) ++ rest = quoted (JS.escapeQuotes s') ++ rest' ->
   s = s' /\ rest = rest') /\
  (nth 14 (mfFields i t) "" ++ "," ++ rest = nth 14 (mfFields i' t') "" ++ "," ++ rest' ->
   description t = description t' /\ rest = rest') /\
  (nth 15 (mfFields i t) "" ++ "," ++ rest = nth 15 (mfFields i' t') "" ++ "," ++ rest' ->
   client t = client t' /\ rest = rest') /\
  (nth 9 (freeeFields t) "" ++ "," ++ rest = nth 9 (freeeFields t') "" ++ "," ++ rest' ->
   description t = description t' /\ rest = rest') /\
  (nth 15 (yayoiFields i t) "" ++ "," ++ rest
   = nth 15 (yayoiFields i' t') "" ++ "," ++ rest' ->
   description t = description t' /\ rest = rest').
Proof.
  intros Hrest Hrest'.
  assert (Hcomma : forall x y, ("," ++ x = "," ++ y)%string -> x = y).
  { intros x y [= E]. exact E. }
  split.
  { intros E.
    pose proof (proj1 (quoted_fields_read_back t i s rest Hrest)) as R.
    pose proof (proj1 (quoted_fields_read_back t i s' rest' Hrest')) as R'.
    rewrite E, R' in R. injection R as <- <-. auto. }
  destruct (quoted_fields_read_back t i s rest Hrest) as (_ & A1 & A2 & A3 & A4).
  destruct (quoted_fields_read_back t' i' s' rest' Hrest') as (_ & B1 & B2 & B3 & B4).
  split; [intros E; rewrite E, B1 in A1; injection A1 as <- E'; auto|].
  split; [intros E; rewrite E, B2 in A2; injection A2 as <- E'; auto|].
  split; [intros E; rewrite E, B3 in A3; injection A3 as <- E'; auto|].
  intros E; rewrite E, B4 in A4; injection A4 as <- E'; auto.
Qed.

Lemma quoted_fields_unambiguous_witness :
  description quotedClientTx = description quotedClientTx /\ ",x" = ",x".
Proof.
  exact (proj1 (proj2 (quoted_fields_unambiguous quotedClientTx quotedClientTx 0 0
                         "a, b" "a, b" ",x" ",x" eq_refl eq_refl)) eq_refl).
Defined.

(* ================================================================== *)
(** * Plans, coupons and the API client *)
(* ================================================================== *)





Lemma isLower_upperChar (c : ascii) : CouponForm.isLower (CouponForm.upperChar c) = false.
Proof.
  destruct c as [[] [] [] [] [] [] [] []]; reflexivity.
Qed.

Lemma hasLower_toUpperCase (s : string) : CouponForm.hasLower (CouponForm.toUpperCase s) = false.
Proof.
  induction s as [|c r IH]; [reflexivity|].
  cbn [CouponForm.toUpperCase CouponForm.hasLower]. now rewrite isLower_upperChar, IH.
Qed.

(** X14.  The field upper-cases what is typed before asking the server,
    and the server compares codes as they are stored: a coupon whose code
    holds a lower-case letter is never the one validated, whatever is
    typed. *)
Theorem lower_case_codes_unreachable (rejection : option string) (db : Coupons.DB)
        (now input : string) (plan : option string) (c : Coupons.Coupon) :
  CouponForm.hasLower (Coupons.code c) = true ->
  CouponForm.served rejection db now (CouponForm.normalize input) plan
  <> CouponForm.clientView (Coupons.Json200Valid c).
Proof.
  intros Hlow. unfold CouponForm.served.
  destruct rejection as [e|]; [discriminate|].
  unfold Coupons.validate, Coupons.bind, Coupons.first.
  destruct (Coupons.selectFirst _ _) as [c'|] eqn:Hsel; cbn; [|discriminate].
  intros [= ->].
  apply find_some in Hsel. destruct Hsel as [_ Hw].
  destruct (Coupons.validWhere _ _ _ _) eqn:Hv; try discriminate.
  apply validWhere_usable in Hv. destruct Hv as [Hcode _].
  rewrite Hcode in Hlow. unfold CouponForm.normalize in Hlow.
  rewrite hasLower_toUpperCase in Hlow. discriminate.
Qed.

Lemma token_in_step (op : APIClient.Op) (st : APIClient.State) :
  APIClient.token st = APIClient.storage st ->
  APIClient.token (APIClient.step st op) = APIClient.storage (APIClient.step st op).
Proof.
  intros H. destruct op as [t| |[t|]|]; cbn; try reflexivity; try exact H.
  destruct (JS.truthy t); [reflexivity|exact H].
Qed.

Lemma token_in_run (ops : list APIClient.Op) (st : APIClient.State) :
  APIClient.token st = APIClient.storage st ->
  APIClient.token (APIClient.run ops st) = APIClient.storage (APIClient.run ops st).
Proof.
  revert st. induction ops as [|op ops IH]; intros st H; [exact H|].
  cbn. apply IH, token_in_step, H.
Qed.

(** X15.  Through any sequence of [setToken], [clearToken], [login],
    [register] and [logout], the token in memory and the stored one stay
    the same value; so the client reports itself authenticated exactly
    when its requests carry a bearer token, [skipAuth] always suppresses
    the header, and after [logout] the client is not authenticated. *)
Theorem authenticated_iff_header_sent (stored : option string) (ops : list APIClient.Op) :
  let st := APIClient.run ops (APIClient.constructor stored) in
  APIClient.token st = APIClient.storage st /\
  APIClient.getToken st = APIClient.token st /\
  (APIClient.isAuthenticated st = true <->
   exists t, APIClient.authorization st false = Some ("Bearer " ++ t)
             /\ APIClient.token st = Some t) /\
  APIClient.authorization st true = None /\
  APIClient.isAuthenticated (APIClient.logout st) = false.
Proof.
  cbv zeta.
  pose proof (token_in_run ops (APIClient.constructor stored) eq_refl) as Hinv.
  set (st := APIClient.run ops (APIClient.constructor stored)) in *.
  assert (Hget : APIClient.getToken st = APIClient.token st).
  { unfold APIClient.getToken. rewrite <- Hinv. now destruct (APIClient.truthy _). }
  split; [exact Hinv|]. split; [exact Hget|].
  unfold APIClient.isAuthenticated, APIClient.authorization. rewrite Hget.
  destruct (APIClient.token st) as [t|]; cbn.
  - destruct (JS.truthy t); cbn.
    + repeat split; eauto.
    + split; [|split; reflexivity]. split; [discriminate|]. intros (t' & H & _). discriminate.
  - split; [|split; reflexivity]. split; [discriminate|]. intros (t' & H & _). discriminate.
Qed.

Lemma lower_case_codes_unreachable_witness :
  CouponForm.served None freshDB "2024-01-01 00:00:00" (CouponForm.normalize "once") None
  <> CouponForm.clientView
       (Coupons.Json200Valid
          {| Coupons.id := 2; Coupons.code := "once";
             Coupons.discount_type := "percentage";
             Coupons.discount_value := inject_Z 10;
             Coupons.plan_restriction := None; Coupons.max_redemptions := None;
             Coupons.redemption_count := Some 0; Coupons.valid_from := None;
             Coupons.valid_until := None; Coupons.is_active := Some 1;
             Coupons.stripe_coupon_id := None |}).
Proof.
  apply lower_case_codes_unreachable. reflexivity.
Defined.

(* ================================================================== *)
(** * Escaped names *)
(* ================================================================== *)

Lemma escapeHtml_quote (a b : string) :
  escapeHtml (a ++ String JS.dquote b) = (escapeHtml a ++ String JS.dquote (escapeHtml b))%string.
Proof.
  assert (H : forall n a, (String.length a <= n)%nat ->
                          escapeHtml (a ++ String JS.dquote b)
                          = (escapeHtml a ++ String JS.dquote (escapeHtml b))%string).
  { clear a. induction n as [|n IH]; intros a Hlen.
    - destruct a; [reflexivity|cbn in Hlen; lia].
    - destruct a as [|c r]; [reflexivity|]. cbn [String.length] in Hlen.
      cbn [append escapeHtml].
      destruct (Ascii.eqb c (ascii_of_nat 38));
        [rewrite IH by lia; reflexivity|].
      destruct (Ascii.eqb c (ascii_of_nat 60));
        [rewrite IH by lia; reflexivity|].
      destruct (Ascii.eqb c (ascii_of_nat 62));
        [rewrite IH by lia; reflexivity|].
      destruct (Ascii.eqb c (ascii_of_nat 194)).
      + destruct r as [|c' r'].
        * reflexivity.
        * cbn [append String.length] in *.
          destruct (Ascii.eqb c' (ascii_of_nat 160)).
          -- rewrite IH by lia. reflexivity.
          -- change (String c' (r' ++ String JS.dquote b))
               with (String c' r' ++ String JS.dquote b)%string.
             rewrite IH by (cbn; lia). reflexivity.
      + rewrite IH by lia. reflexivity. }
  apply (H (String.length a)). lia.
Qed.

(** X24.  In the basic CSV the name of the account subject is written as
    escaped for HTML, between quotes, and its own quotes are not doubled:
    a subject whose name holds a quote, a comma and a quote is written as
    two fields. *)
Theorem basic_csv_subject_column (app : App) (t : Transaction) (b k : Z)
        (subject : AccountSubject) (n m : string) :
  account_subject_id t = Some k ->
  find (fun s => subject_id s =? k) (accountSubjects app) = Some subject ->
  subject_name subject = splitName n m ->
  nth 4 (basicFields app t b) "" = quoted (escapeHtml (subject_name subject)) /\
  nth 4 (basicFields app t b) ""
  = (quoted (escapeHtml n) ++ "," ++ quoted (escapeHtml m))%string.
Proof.
  intros Hid Hfind Hname.
  assert (Hfield : nth 4 (basicFields app t b) ""
                   = quoted (escapeHtml (subject_name subject))).
  { unfold basicFields. cbn [nth]. unfold getAccountSubjectName. rewrite Hid.
    destruct (accountSubjects app) as [|s0 rest] eqn:Hsubjects; [discriminate|].
    rewrite Hfind. now destruct (escapeHtml (subject_name subject)). }
  split; [exact Hfield|].
  rewrite Hfield, Hname. unfold splitName, quoted.
  rewrite escapeHtml_quote.
  change (escapeHtml ("," ++ String JS.dquote m))
    with ("," ++ escapeHtml (String JS.dquote m))%string.
  change (String JS.dquote m) with ("" ++ String JS.dquote m)%string.
  rewrite escapeHtml_quote. cbn [escapeHtml append].
  f_equal. rewrite !append_assoc. reflexivity.
Qed.

Lemma basic_csv_subject_column_witness :
  nth 4 (basicFields splitSubjectApp subAccountTx 0) ""
  = (quoted "R&amp;D" ++ "," ++ quoted "Travel")%string.
Proof.
  exact (proj2 (basic_csv_subject_column splitSubjectApp subAccountTx 0 2
                  {| subject_id := 2; subject_name := splitName "R&D" "Travel";
                     sub_accounts := [] |}
                  "R&D" "Travel" eq_refl eq_refl eq_refl)).
Defined.




(* ================================================================== *)
(** * The server: sessions, tenants and consistency *)
(* ================================================================== *)


Import Server.
Import Tenancy.

Lemma not_expired_when_issued (issued : Z) :
  (issued / 1000 + 2592000 <? issued / 1000) = false.
Proof. apply Z.ltb_ge. lia. Qed.

Lemma find_by_key {A : Type} (key : A -> Z) (l : list A) (x : A) :
  NoDup (map key l) -> In x l ->
  find (fun y => key y =? key x) l = Some x.
Proof.
  induction l as [|y l IH]; intros Hnd Hin; [contradiction|].
  cbn [map] in Hnd. inversion Hnd as [|? ? Hnotin Hnd']; subst.
  cbn [find]. destruct Hin as [->|Hin].
  - now rewrite Z.eqb_refl.
  - destruct (Z.eqb_spec (key y) (key x)) as [E|_].
    + exfalso. apply Hnotin. rewrite E. apply in_map, Hin.
    + apply IH; assumption.
Qed.

Lemma startsWith_append (p s : string) : JS.startsWith (p ++ s) p = true.
Proof.
  induction p as [|c p IH]; cbn.
  - now destruct s.
  - now rewrite Ascii.eqb_refl.
Qed.

Lemma substringFrom_append (p s : string) :
  substringFrom (String.length p) (p ++ s) = s.
Proof.
  induction p as [|c p IH]; [reflexivity|exact IH].
Qed.

Lemma find_app_none {A : Type} (p : A -> bool) (l : list A) (x : A) :
  find p l = None -> find p (l ++ [x]) = if p x then Some x else None.
Proof.
  induction l as [|y l IH]; intros H; [reflexivity|].
  cbn [find List.app] in *. destruct (p y); [discriminate|]. apply IH, H.
Qed.

Lemma nextId_fresh (ids : list Z) (seq : Z) : ~ In (nextId ids seq) ids.
Proof.
  unfold nextId.
  assert (H : forall i, In i ids -> i <= fold_right Z.max 0 ids).
  { induction ids as [|j ids IH]; intros i Hi; [contradiction|].
    cbn [fold_right]. destruct Hi as [->|Hi]; [lia|].
    specialize (IH i Hi). lia. }
  intros Hin. apply H in Hin. lia.
Qed.

Lemma NoDup_snoc (l : list Z) (x : Z) : NoDup l -> ~ In x l -> NoDup (l ++ [x]).
Proof.
  intros Hnd Hx. apply NoDup_app; [exact Hnd|repeat constructor; intros []|].
  intros a Ha [<-|[]]. exact (Hx Ha).
Qed.

Lemma find_map_same {A : Type} (p : A -> bool) (g : A -> A) (l : list A) :
  (forall x, p (g x) = p x) ->
  find p (map g l) = option_map g (find p l).
Proof.
  intros Hp. induction l as [|x l IH]; [reflexivity|].
  cbn [map find]. rewrite Hp. destruct (p x); [reflexivity|exact IH].
Qed.

Lemma In_insertOrdered {A : Type} (before : A -> A -> bool) (x a : A) (l : list A) :
  In a (insertOrdered before x l) <-> a = x \/ In a l.
Proof.
  induction l as [|y l IH]; cbn [insertOrdered].
  - cbn. intuition.
  - destruct (before y x); cbn [In]; [rewrite IH|]; intuition.
Qed.

Lemma In_orderBy {A : Type} (before : A -> A -> bool) (a : A) (l : list A) :
  In a (orderBy before l) <-> In a l.
Proof.
  unfold orderBy. induction l as [|x l IH]; [reflexivity|].
  cbn [fold_right]. rewrite In_insertOrdered, IH. cbn. intuition.
Qed.

Lemma key_unique {A : Type} (key : A -> Z) (l : list A) (x y : A) :
  NoDup (map key l) -> In x l -> In y l -> key x = key y -> x = y.
Proof.
  induction l as [|z l IH]; intros Hnd Hx Hy E; [contradiction|].
  cbn [map] in Hnd. inversion Hnd as [|? ? Hnotin Hnd']; subst.
  destruct Hx as [->|Hx], Hy as [->|Hy].
  - reflexivity.
  - exfalso. apply Hnotin. rewrite E. apply in_map, Hy.
  - exfalso. apply Hnotin. rewrite <- E. apply in_map, Hx.
  - apply IH; assumption.
Qed.






Lemma map_key_map_if {A : Type} (key : A -> Z) (c : A -> bool) (g : A -> A)
      (l : list A) :
  (forall x, key (g x) = key x) ->
  map key (map (fun x => if c x then g x else x) l) = map key l.
Proof.
  intros Hk. induction l as [|x l IH]; [reflexivity|].
  cbn [map]. rewrite IH. destruct (c x); [rewrite Hk|]; reflexivity.
Qed.

Lemma map_text_map_if {A : Type} (key : A -> string) (c : A -> bool) (g : A -> A)
      (l : list A) :
  (forall x, key (g x) = key x) ->
  map key (map (fun x => if c x then g x else x) l) = map key l.
Proof.
  intros Hk. induction l as [|x l IH]; [reflexivity|].
  cbn [map]. rewrite IH. destruct (c x); [rewrite Hk|]; reflexivity.
Qed.

Lemma NoDup_map_filter {A : Type} (key : A -> Z) (p : A -> bool) (l : list A) :
  NoDup (map key l) -> NoDup (map key (filter p l)).
Proof.
  induction l as [|x l IH]; intros Hnd; [constructor|].
  cbn [map] in Hnd. inversion Hnd as [|? ? Hnotin Hnd']; subst.
  cbn [filter]. destruct (p x); [|apply IH, Hnd'].
  cbn [map]. constructor; [|apply IH, Hnd'].
  intros Hin. apply Hnotin. apply in_map_iff in Hin.
  destruct Hin as (y & Ey & Hy). apply filter_In in Hy.
  rewrite <- Ey. apply in_map, Hy.
Qed.


Section ServerFacts.

Variable textAsInteger : string -> option Z.
Variable hashPassword : string -> string.
Variable toISOString : Z -> string.

Local Set Default Proof Using "Type".

Lemma authMiddleware_generated (st : Store) (user : User.t) (issued now : Z) :
  NoDup (map User.id (users st)) -> In user (users st) ->
  authMiddleware textAsInteger
    (Some ("Bearer " ++ Auth.generateToken (User.id user) issued)) now st
  = if issued / 1000 + 2592000 <? now / 1000
    then Rejected 401 "Invalid token"
    else Accepted user.
Proof.
  intros Hnd Hin. unfold authMiddleware.
  rewrite startsWith_append. cbn [negb].
  change 7%nat with (String.length "Bearer ").
  rewrite substringFrom_append.
  unfold Auth.generateToken. rewrite verifyToken_payload.
  change Auth.thirtyDays with 2592000.
  destruct (issued / 1000 + 2592000 <? now / 1000); [reflexivity|].
  cbn [bindValue]. unfold idIs.
  rewrite (find_by_key User.id _ _ Hnd Hin). reflexivity.
Qed.

(** X16.  A session token needs nothing but the user id: whatever token
    [login] hands out is the one [generateToken] computes from the id of
    the user and the time, and the middleware accepts it for that user
    until thirty days after it was issued, and turns it down as invalid
    afterwards. *)
Theorem login_token_accepted (st st' : Store) (body : option Credentials)
        (issued now : Z) (token : string) (id : Z) (email name : string)
        (plan status : option string) :
  NoDup (map User.id (users st)) ->
  login hashPassword body issued st
  = ((200, LoggedIn token id email name plan status), st') ->
  st' = st /\ token = Auth.generateToken id issued /\
  exists user,
    In user (users st) /\ User.id user = id /\
    authMiddleware textAsInteger (Some ("Bearer " ++ token)) now st
    = if issued / 1000 + 2592000 <? now / 1000
      then Rejected 401 "Invalid token"
      else Accepted user.
Proof.
  intros Hnd Hlogin. unfold login in Hlogin.
  destruct body as [body|]; [|discriminate].
  destruct (cred_email body) as [| |e]; try discriminate.
  destruct (cred_password body) as [| |p]; try discriminate.
  destruct (negb (JS.truthy e) || negb (JS.truthy p)); [discriminate|].
  destruct (find _ (users st)) as [user|] eqn:Hfind; [|discriminate].
  destruct (negb (verifyPassword hashPassword p (User.password_hash user)));
    [discriminate|].
  injection Hlogin as <- <- <- <- <- <- <-.
  apply find_some in Hfind. destruct Hfind as [Hin _].
  split; [reflexivity|]. split; [reflexivity|].
  exists user. split; [exact Hin|]. split; [reflexivity|].
  apply authMiddleware_generated; assumption.
Qed.

(** X17.  Registration and login fit together.  Registering an address
    that is not yet taken adds one user with a fresh id, the free plan and
    the hash of the password, and leaves the ids distinct; the token
    handed out is accepted by the middleware for the new user; afterwards
    a login with that address succeeds exactly with a password of the same
    hash, and registering the address again is refused with 409 and
    changes nothing. *)
Theorem register_then_login (st : Store) (email password name : string)
        (issued later : Z) (attempt : string) (again : Credentials) :
  NoDup (map User.id (users st)) ->
  JS.truthy email = true -> JS.truthy password = true -> JS.truthy name = true ->
  JS.truthy attempt = true ->
  find (fun u => String.eqb (User.email u) email) (users st) = None ->
  cred_email again = Given email ->
  truthyText (cred_password again) = true -> truthyText (cred_name again) = true ->
  let creds := {| cred_email := Given email; cred_password := Given password;
                  cred_name := Given name |} in
  let userId := nextId (map User.id (users st)) (users_seq st) in
  let user := {| User.id := userId; User.email := email;
                 User.password_hash := hashPassword password; User.name := name;
                 User.subscription_plan := Some "free";
                 User.subscription_status := Some "inactive";
                 User.subscription_start_date := None;
                 User.subscription_end_date := None |} in
  let st1 := snd (register hashPassword (Some creds) issued st) in
  fst (register hashPassword (Some creds) issued st)
  = (200, Registered (Auth.generateToken userId issued) userId email name) /\
  users st1 = (users st ++ [user])%list /\
  books st1 = books st /\ transactions st1 = transactions st /\
  NoDup (map User.id (users st1)) /\
  authMiddleware textAsInteger
    (Some ("Bearer " ++ Auth.generateToken userId issued)) issued st1
  = Accepted user /\
  login hashPassword
    (Some {| cred_email := Given email; cred_password := Given attempt;
             cred_name := Missing |}) later st1
  = (if String.eqb (hashPassword attempt) (hashPassword password)
     then (200, LoggedIn (Auth.generateToken userId later) userId email name
                         (Some "free") (Some "inactive"))
     else (401, Error "Invalid email or password"), st1) /\
  register hashPassword (Some again) later st1
  = ((409, Error "Email already registered"), st1).
Proof.
  intros Hnd He Hp Hn Ha Hfree Hagain Hagain_p Hagain_n creds userId user st1.
  assert (Hreg : register hashPassword (Some creds) issued st
                 = ((200, Registered (Auth.generateToken userId issued) userId email name),
                    withUsers st (users st ++ [user])%list userId)).
  { unfold register, creds. cbn [cred_email cred_password cred_name].
    rewrite He, Hp, Hn. cbn [negb orb]. rewrite Hfree. reflexivity. }
  subst st1. rewrite Hreg. cbn [fst snd withUsers users books transactions].
  assert (Hnd1 : NoDup (map User.id (users st ++ [user])%list)).
  { rewrite map_app. cbn [map]. apply NoDup_snoc; [exact Hnd|].
    apply nextId_fresh. }
  assert (Hfind1 : find (fun u => String.eqb (User.email u) email) (users st ++ [user])%list
                   = Some user).
  { rewrite find_app_none by exact Hfree. cbn [User.email user].
    now rewrite String.eqb_refl. }
  split; [reflexivity|]. split; [reflexivity|].
  split; [reflexivity|]. split; [reflexivity|].
  split; [exact Hnd1|]. split.
  - change userId with (User.id user).
    rewrite authMiddleware_generated.
    + now rewrite not_expired_when_issued.
    + exact Hnd1.
    + cbn [users withUsers]. apply in_or_app. right. left. reflexivity.
  - split.
    + unfold login. cbn [cred_email cred_password users withUsers].
      rewrite He, Ha. cbn [negb orb]. rewrite Hfind1.
      unfold verifyPassword. cbn [User.password_hash user].
      destruct (String.eqb (hashPassword attempt) (hashPassword password));
        reflexivity.
    + unfold register. rewrite Hagain.
      destruct (cred_password again) as [| |p']; try discriminate Hagain_p.
      destruct (cred_name again) as [| |n']; try discriminate Hagain_n.
      cbn [truthyText] in Hagain_p, Hagain_n.
      rewrite He, Hagain_p, Hagain_n. cbn [negb orb users withUsers].
      rewrite Hfind1. reflexivity.
Qed.

(** X18.  Cancelling keeps the plan.  After [subscribe] with a plan and
    then [unsubscribe], the same bearer token is still accepted and
    [/me] reports the plan subscribed to, with the status cancelled and
    the period the subscription was given: nothing puts the user back on
    the free plan. *)
Theorem cancelled_subscription_keeps_plan (st : Store) (user : User.t)
        (authHeader : option string) (now subscribed : Z) (plan : string) :
  authMiddleware textAsInteger authHeader now st = Accepted user ->
  JS.truthy plan = true ->
  let st1 := snd (subscribe toISOString user (Some (Given plan)) subscribed st) in
  exists user1,
    authMiddleware textAsInteger authHeader now st1 = Accepted user1 /\
    let st2 := snd (unsubscribe user1 st1) in
    exists user2,
      authMiddleware textAsInteger authHeader now st2 = Accepted user2 /\
      fst (me user2 st2)
      = (200, Me (User.id user) (User.email user) (User.name user) plan "cancelled"
                 (Some (toISOString subscribed))
                 (Some (toISOString (subscribed + 2592000000)))).
Proof.
  intros Hauth Hplan st1.
  unfold authMiddleware in Hauth |- *.
  destruct authHeader as [h|]; [|discriminate].
  destruct (negb (JS.startsWith h "Bearer ")); [discriminate|].
  destruct (Auth.verifyToken _ now) as [userId|]; [|discriminate].
  destruct (bindValue userId) as [p|]; [|discriminate].
  destruct (find _ (users st)) as [u|] eqn:Hfind; [|discriminate].
  injection Hauth as ->.
  assert (Hid : idIs textAsInteger p (User.id user) = true).
  { apply find_some in Hfind. apply Hfind. }
  assert (Hz : (User.id user =? User.id user) = true) by apply Z.eqb_refl.
  subst st1. cbn [subscribe snd assigned updateUser withUsers users].
  rewrite find_map_same, Hfind.
  2:{ intros x. destruct (User.id x =? User.id user); reflexivity. }
  cbn [option_map]. rewrite Hz.
  eexists. split; [reflexivity|].
  cbn [unsubscribe snd updateUser withUsers users User.id].
  rewrite find_map_same.
  2:{ intros x. destruct (User.id x =? User.id user); reflexivity. }
  rewrite find_map_same, Hfind.
  2:{ intros x. destruct (User.id x =? User.id user); reflexivity. }
  cbn [option_map]. rewrite Hz. cbn [User.id]. rewrite Hz.
  eexists. split; [reflexivity|].
  cbn [me fst User.id User.email User.name User.subscription_plan
       User.subscription_status User.subscription_start_date
       User.subscription_end_date textOr].
  rewrite Hplan. reflexivity.
Qed.

(** The row a statement with [WHERE id = ?] touches, once the book the
    parameter names is known. *)
Lemma idIs_unique {A : Type} (key : A -> Z) (l : list A) (p : param) (x y : A) :
  NoDup (map key l) -> In x l -> In y l ->
  idIs textAsInteger p (key x) = true -> idIs textAsInteger p (key y) = true ->
  x = y.
Proof.
  intros Hnd Hx Hy Ex Ey. apply (key_unique key l); try assumption.
  unfold idIs in Ex, Ey. destruct p as [|z|s]; try discriminate.
  - apply Z.eqb_eq in Ex, Ey. congruence.
  - destruct (textAsInteger s); try discriminate.
    apply Z.eqb_eq in Ex, Ey. congruence.
Qed.

Lemma ownedBook_spec (bookId : string) (userId : Z) (st : Store) (b : Book.t) :
  ownedBook textAsInteger bookId userId st = Some b ->
  In b (books st) /\ idIs textAsInteger (PText bookId) (Book.id b) = true
  /\ Book.user_id b = userId.
Proof.
  unfold ownedBook. intros H. apply find_some in H. destruct H as [Hin H].
  apply andb_true_iff in H. destruct H as [H1 H2]. apply Z.eqb_eq in H2. auto.
Qed.














Lemma updateUser_wellFormed (userId : Z) (f : User.t -> User.t) (st : Store) :
  (forall u, User.id (f u) = User.id u) ->
  (forall u, User.email (f u) = User.email u) ->
  wellFormed st -> wellFormed (updateUser userId f st).
Proof.
  intros Hid Hemail (Hu & He & Hb & Ht & Hfk). unfold wellFormed.
  cbn [updateUser withUsers users books transactions].
  rewrite map_key_map_if by exact Hid.
  rewrite map_text_map_if by exact Hemail. auto.
Qed.

Lemma register_wellFormed (body : option Credentials) (now : Z) (st : Store) :
  wellFormed st -> wellFormed (snd (register hashPassword body now st)).
Proof.
  intros Hwf. unfold register. destruct body as [body|]; [|exact Hwf].
  destruct (cred_email body) as [| |e]; try exact Hwf.
  destruct (cred_password body) as [| |p]; try exact Hwf.
  destruct (cred_name body) as [| |n]; try exact Hwf.
  destruct (_ || _ || _); [exact Hwf|].
  destruct (find _ (users st)) as [u|] eqn:Hfind; [exact Hwf|].
  destruct Hwf as (Hu & He & Hb & Ht & Hfk). unfold wellFormed.
  cbn [snd withUsers users books transactions].
  rewrite !map_app. cbn [map User.id User.email].
  split; [apply NoDup_snoc; [exact Hu|apply nextId_fresh]|].
  split; [|auto].
  apply NoDup_app; [exact He|repeat constructor; intros []|].
  intros a Ha [<-|[]]. apply in_map_iff in Ha. destruct Ha as (u & Eu & Hin).
  pose proof (find_none _ _ Hfind u Hin) as Hne. cbn in Hne.
  rewrite Eu, String.eqb_refl in Hne. discriminate.
Qed.

Lemma login_unchanged (body : option Credentials) (now : Z) (st : Store) :
  snd (login hashPassword body now st) = st.
Proof.
  unfold login. destruct body as [body|]; [|reflexivity].
  destruct (cred_email body); try reflexivity.
  destruct (cred_password body); try reflexivity.
  destruct (_ || _); [reflexivity|].
  destruct (find _ _); [|reflexivity].
  destruct (negb _); reflexivity.
Qed.

Lemma createBook_wellFormed (userId : Z) (body : option BookData) (ts : string)
      (st : Store) :
  wellFormed st -> wellFormed (snd (createBook userId body ts st)).
Proof.
  intros Hwf. unfold createBook. destruct body as [body|]; [|exact Hwf].
  destruct (data_business_name body) as [| |bn]; try exact Hwf.
  destruct (data_account_name body) as [| |an]; try exact Hwf.
  destruct (_ || _); [exact Hwf|].
  destruct Hwf as (Hu & He & Hb & Ht & Hfk). unfold wellFormed.
  cbn [snd withBooks users books transactions].
  rewrite map_app. cbn [map Book.id].
  repeat split; try assumption.
  - apply NoDup_snoc; [exact Hb|apply nextId_fresh].
  - intros t Hin. destruct (Hfk t Hin) as (b & Hbin & Eb).
    exists b. split; [apply in_or_app; left; exact Hbin|exact Eb].
Qed.

Lemma updateBook_wellFormed (userId : Z) (id : string) (body : option BookData)
      (ts : string) (st : Store) :
  wellFormed st -> wellFormed (snd (updateBook textAsInteger userId id body ts st)).
Proof.
  intros Hwf. unfold updateBook. destruct body as [updates|]; [|exact Hwf].
  destruct (ownedBook _ _ _ _) as [owned|]; [|exact Hwf].
  destruct (_ && _ && _ && _); [exact Hwf|].
  destruct (_ || _); [exact Hwf|].
  destruct Hwf as (Hu & He & Hb & Ht & Hfk). unfold wellFormed.
  cbn [snd withBooks users books transactions].
  rewrite map_key_map_if by reflexivity.
  repeat split; try assumption.
  intros t Hin. destruct (Hfk t Hin) as (b & Hbin & Eb).
  exists (if idIs textAsInteger (PText id) (Book.id b)
          then updatedBook updates ts b else b).
  split.
  - apply (in_map (fun x => if idIs textAsInteger (PText id) (Book.id x)
                            then updatedBook updates ts x else x)), Hbin.
  - destruct (idIs _ _ _); exact Eb.
Qed.

Lemma deleteBook_wellFormed (userId : Z) (id : string) (st : Store) :
  wellFormed st -> wellFormed (snd (deleteBook textAsInteger userId id st)).
Proof.
  intros Hwf. unfold deleteBook. destruct (ownedBook _ _ _ _) as [owned|]; [|exact Hwf].
  destruct Hwf as (Hu & He & Hb & Ht & Hfk). unfold wellFormed, deleteBooks.
  cbn [snd users books transactions].
  split; [exact Hu|]. split; [exact He|].
  split; [apply NoDup_map_filter, Hb|].
  split; [apply NoDup_map_filter, Ht|].
  intros t Hin. apply filter_In in Hin. destruct Hin as [Hin Hkept].
  destruct (Hfk t Hin) as (b & Hbin & Eb).
  exists b. split; [|exact Eb].
  apply filter_In. split; [exact Hbin|].
  destruct (idIs textAsInteger (PText id) (Book.id b)) eqn:Egone; [|reflexivity].
  exfalso. apply negb_true_iff in Hkept.
  assert (Hex : existsb (fun b0 => Book.id b0 =? Tx.book_id t)
                        (filter (fun b0 => idIs textAsInteger (PText id) (Book.id b0))
                                (books st)) = true).
  { apply existsb_exists. exists b. split.
    - apply filter_In. auto.
    - apply Z.eqb_eq, Eb. }
  congruence.
Qed.

Lemma createTransaction_wellFormed (userId : Z) (bookId : string)
      (body : option TxData) (ts : string) (st : Store) :
  wellFormed st ->
  wellFormed (snd (createTransaction textAsInteger userId bookId body ts st)).
Proof.
  intros Hwf. unfold createTransaction. destruct body as [transaction|]; [|exact Hwf].
  destruct (ownedBook _ _ _ _) as [b|] eqn:Hown; [|exact Hwf].
  apply ownedBook_spec in Hown. destruct Hown as (Hbin & _ & _).
  destruct (data_date transaction) as [| |date]; try exact Hwf.
  destruct Hwf as (Hu & He & Hb & Ht & Hfk). unfold wellFormed.
  cbn [snd withTransactions users books transactions].
  rewrite map_app. cbn [map Tx.id].
  repeat split; try assumption.
  - apply NoDup_snoc; [exact Ht|apply nextId_fresh].
  - intros t Hin. apply in_app_or in Hin. destruct Hin as [Hin|[<-|[]]].
    + apply Hfk, Hin.
    + exists b. split; [exact Hbin|reflexivity].
Qed.

Lemma updateTransaction_wellFormed (userId : Z) (id : string)
      (body : option TxData) (ts : string) (st : Store) :
  wellFormed st ->
  wellFormed (snd (updateTransaction textAsInteger userId id body ts st)).
Proof.
  intros Hwf. unfold updateTransaction. destruct body as [updates|]; [|exact Hwf].
  destruct (ownedTransaction _ _ _ _) as [owned|]; [|exact Hwf].
  destruct (_ && _ && _ && _ && _ && _ && _ && _); [exact Hwf|].
  destruct (isNull _); [exact Hwf|].
  destruct Hwf as (Hu & He & Hb & Ht & Hfk). unfold wellFormed.
  cbn [snd withTransactions users books transactions].
  rewrite map_key_map_if by reflexivity.
  repeat split; try assumption.
  intros t Hin. apply in_map_iff in Hin. destruct Hin as (t0 & Et & Hin).
  destruct (Hfk t0 Hin) as (b & Hbin & Eb). exists b. split; [exact Hbin|].
  rewrite Eb, <- Et. destruct (idIs _ _ _); reflexivity.
Qed.

Lemma deleteTransaction_wellFormed (userId : Z) (id : string) (st : Store) :
  wellFormed st -> wellFormed (snd (deleteTransaction textAsInteger userId id st)).
Proof.
  intros Hwf. unfold deleteTransaction.
  destruct (ownedTransaction _ _ _ _) as [owned|]; [|exact Hwf].
  destruct Hwf as (Hu & He & Hb & Ht & Hfk). unfold wellFormed.
  cbn [snd withTransactions users books transactions].
  repeat split; try assumption.
  - apply NoDup_map_filter, Ht.
  - intros t Hin. apply filter_In in Hin. apply Hfk, Hin.
Qed.

Lemma handle_wellFormed (user : User.t) (now : Z) (ts : string) (req : Request)
      (st : Store) :
  wellFormed st ->
  wellFormed (snd (handle textAsInteger toISOString user now ts req st)).
Proof.
  intros Hwf.
  destruct req; cbn [handle]; unfold withUserId, getCurrentUserId;
    try (destruct (User.id user =? 0); [exact Hwf|]).
  - exact Hwf.
  - unfold subscribe. destruct body as [[| |plan]|]; try exact Hwf;
      now apply updateUser_wellFormed.
  - unfold unsubscribe. now apply updateUser_wellFormed.
  - exact Hwf.
  - unfold getBook. now destruct (ownedBook _ _ _ _).
  - now apply createBook_wellFormed.
  - now apply updateBook_wellFormed.
  - now apply deleteBook_wellFormed.
  - unfold getTransactions. now destruct (ownedBook _ _ _ _).
  - now apply createTransaction_wellFormed.
  - now apply updateTransaction_wellFormed.
  - now apply deleteTransaction_wellFormed.
Qed.

Lemma call_wellFormed (c : Call) (st : Store) :
  wellFormed st -> wellFormed (call textAsInteger hashPassword toISOString st c).
Proof.
  intros Hwf. destruct c as [body now|body now|authHeader now ts req]; cbn [call].
  - now apply register_wellFormed.
  - now rewrite login_unchanged.
  - unfold serve.
    destruct (authMiddleware _ _ _ _) as [status error| |user]; try exact Hwf.
    pose proof (handle_wellFormed user now ts req st Hwf) as H.
    now destruct (handle _ _ _ _ _ _ _).
Qed.

(** X20.  The routes keep the tables consistent.  Through any sequence of
    registrations, logins and authenticated requests, row ids of users,
    books and transactions stay unique, no mail address is registered
    twice, and every transaction still belongs to a book of the table:
    deleting a book takes its transactions with it. *)
Theorem store_stays_well_formed (calls : list Call) (st : Store) :
  wellFormed st ->
  wellFormed (run textAsInteger hashPassword toISOString calls st).
Proof.
  revert st. induction calls as [|c calls IH]; intros st Hwf; [exact Hwf|].
  cbn [run fold_left]. apply IH, call_wellFormed, Hwf.
Qed.

End ServerFacts.

Lemma sampleStore_wellFormed : Tenancy.wellFormed sampleStore.
Proof.
  assert (Hz : NoDup [1; 2]).
  { repeat constructor; cbn; intuition lia. }
  unfold Tenancy.wellFormed. cbn.
  split; [exact Hz|]. split.
  { repeat constructor; cbn; intuition discriminate. }
  split; [exact Hz|]. split; [exact Hz|].
  intros tx [<-|[<-|[]]].
  - exists (sampleBook 1 1 "Alice and co"). cbn. auto.
  - exists (sampleBook 2 2 "Bob and co"). cbn. auto.
Qed.

Lemma login_token_accepted_witness :
  exists user,
    In user (Server.users sampleStore) /\ Server.User.id user = 1 /\
    Server.authMiddleware sampleTextAsInteger aliceHeader 86400000 sampleStore
    = Server.Accepted user.
Proof.
  assert (Hnd : NoDup (map Server.User.id (Server.users sampleStore)))
    by apply sampleStore_wellFormed.
  destruct (login_token_accepted sampleTextAsInteger sampleHash
              sampleStore sampleStore
              (Some {| Server.cred_email := Server.Given "alice@example.com";
                       Server.cred_password := Server.Given "correct horse";
                       Server.cred_name := Server.Missing |})
              0 86400000 (Auth.generateToken 1 0) 1 "alice@example.com" "Alice"
              (Some "free") (Some "inactive") Hnd eq_refl)
    as (_ & _ & user & Hin & Hid & Hauth).
  exists user. auto.
Defined.

Lemma register_then_login_witness :
  fst (Server.register sampleHash
         (Some {| Server.cred_email := Server.Given "carol@example.com";
                  Server.cred_password := Server.Given "tr0ub4dor";
                  Server.cred_name := Server.Given "Carol" |}) 0 sampleStore)
  = (200, Server.Registered (Auth.generateToken 3 0) 3 "carol@example.com" "Carol").
Proof.
  assert (Hnd : NoDup (map Server.User.id (Server.users sampleStore)))
    by apply sampleStore_wellFormed.
  exact (proj1 (register_then_login sampleTextAsInteger sampleHash sampleStore
                  "carol@example.com" "tr0ub4dor" "Carol" 0 1000 "guess"
                  {| Server.cred_email := Server.Given "carol@example.com";
                     Server.cred_password := Server.Given "other";
                     Server.cred_name := Server.Given "Carol again" |}
                  Hnd eq_refl eq_refl eq_refl eq_refl eq_refl eq_refl eq_refl
                  eq_refl)).
Defined.

Lemma cancelled_subscription_keeps_plan_witness :
  exists user1,
    Server.authMiddleware sampleTextAsInteger aliceHeader 0
      (snd (Server.subscribe sampleISO alice (Some (Server.Given "professional"))
              1000 sampleStore))
    = Server.Accepted user1.
Proof.
  destruct (cancelled_subscription_keeps_plan sampleTextAsInteger sampleISO
              sampleStore alice aliceHeader 0 1000 "professional" eq_refl eq_refl)
    as (user1 & H1 & _).
  exists user1. exact H1.
Defined.


Lemma store_stays_well_formed_witness :
  Tenancy.wellFormed
    (Tenancy.run sampleTextAsInteger sampleHash sampleISO
       [Tenancy.Authenticated aliceHeader 0 "2024-02-01 00:00:00"
          (Server.DeleteBook "1")]
       sampleStore).
Proof.
  apply store_stays_well_formed. exact sampleStore_wellFormed.
Defined.

(* ================================================================== *)
(** * The server: administration of coupons *)
(* ================================================================== *)

Lemma find_all_false {A : Type} (p : A -> bool) (l : list A) :
  (forall x, In x l -> p x = false) -> find p l = None.
Proof.
  induction l as [|x l IH]; intros H; [reflexivity|].
  cbn [find]. rewrite (H x (or_introl eq_refl)).
  apply IH. intros y Hy. apply H. right. exact Hy.
Qed.

Lemma existsb_false_In {A : Type} (p : A -> bool) (l : list A) (x : A) :
  existsb p l = false -> In x l -> p x = false.
Proof.
  intros H Hin. destruct (p x) eqn:E; [|reflexivity].
  assert (Hex : existsb p l = true) by (apply existsb_exists; eauto).
  congruence.
Qed.

Lemma NoDup_text_snoc (l : list string) (x : string) :
  NoDup l -> ~ In x l -> NoDup (l ++ [x]).
Proof.
  intros Hnd Hx. apply NoDup_app; [exact Hnd|repeat constructor; intros []|].
  intros a Ha [<-|[]]. exact (Hx Ha).
Qed.

Lemma NoDup_text_filter {A : Type} (key : A -> string) (p : A -> bool) (l : list A) :
  NoDup (map key l) -> NoDup (map key (filter p l)).
Proof.
  induction l as [|x l IH]; intros Hnd; [constructor|].
  cbn [map] in Hnd. inversion Hnd as [|? ? Hnotin Hnd']; subst.
  cbn [filter]. destruct (p x); [|apply IH, Hnd'].
  cbn [map]. constructor; [|apply IH, Hnd'].
  intros Hin. apply Hnotin. apply in_map_iff in Hin.
  destruct Hin as (y & Ey & Hy). apply filter_In in Hy.
  rewrite <- Ey. apply in_map, Hy.
Qed.

Lemma validated_coupon (code : string) (plan : option string) (now : string)
      (st : CouponAdmin.Store) (c : Coupons.Coupon) :
  fst (CouponAdmin.validate (inr (Some code, plan)) now st) = Coupons.Json200Valid c ->
  In c (Coupons.coupons (CouponAdmin.db st)) /\ Coupons.code c = code /\ Spec.usable c now plan.
Proof.
  unfold CouponAdmin.validate, Coupons.validate, Coupons.bind, Coupons.first, Coupons.ret.
  destruct (Coupons.selectFirst _ _) as [c'|] eqn:Hsel; cbn; [|discriminate].
  intros [= ->]. apply find_some in Hsel. destruct Hsel as [Hin Hw].
  destruct (Coupons.validWhere _ _ _ _) eqn:Hv; try discriminate.
  apply validWhere_usable in Hv. tauto.
Qed.

Section CouponAdminFacts.

Import CouponAdmin.

Variable textAsInteger : string -> option Z.

Local Set Default Proof Using "Type".

(** X21.  A coupon created through the API can be validated at once, and
    a cap of zero is no cap.  Creating a coupon whose code is not taken,
    without validity window and plan restriction, stores it active and
    with a redemption count of zero; its cap is the one given, except that
    a cap of zero, like a missing one, is stored as no cap.  Validating
    the code then answers with the coupon, for every plan and at every
    time, unless a negative cap was given; and creating the code a second
    time fails and changes nothing. *)
Theorem created_coupon_validates (st : Store) (data : CouponData)
        (code discount_type : string) (discount_value : Q)
        (plan : option string) (now : string) :
  data_code data = Given code ->
  data_discount_type data = Given discount_type ->
  data_discount_value data = Given discount_value ->
  data_plan_restriction data = Missing ->
  data_valid_from data = Missing ->
  data_valid_until data = Missing ->
  existsb (fun c => String.eqb (Coupons.code c) code) (Coupons.coupons (db st))
  = false ->
  let st1 := snd (create (Some data) st) in
  exists c,
    fst (create (Some data) st) = Created (Some c) /\
    Coupons.coupons (db st1) = (Coupons.coupons (db st) ++ [c])%list /\
    Coupons.code c = code /\
    Coupons.is_active c = Some 1 /\
    Coupons.redemption_count c = Some 0 /\
    Coupons.max_redemptions c
    = match data_max_redemptions data with
      | Given cap => if cap =? 0 then None else Some cap
      | _ => None
      end /\
    validate (inr (Some code, plan)) now st1
    = (match Coupons.max_redemptions c with
       | Some cap => if 0 <? cap then Coupons.Json200Valid c
                     else Coupons.Json400 "Invalid or expired coupon"
       | None => Coupons.Json200Valid c
       end, st1) /\
    create (Some data) st1 = (Failed, st1).
Proof.
  intros Hcode Hty Hval Hplan Hfrom Huntil Hfree st1.
  set (couponId := nextId (map Coupons.id (Coupons.coupons (db st))) (coupons_seq st)).
  set (c := {| Coupons.id := couponId;
               Coupons.code := code;
               Coupons.discount_type := discount_type;
               Coupons.discount_value := discount_value;
               Coupons.plan_restriction := None;
               Coupons.max_redemptions := numberOrNull (data_max_redemptions data);
               Coupons.redemption_count := Some 0;
               Coupons.valid_from := None;
               Coupons.valid_until := None;
               Coupons.is_active := Some 1;
               Coupons.stripe_coupon_id := None |}).
  assert (Hfind : find (fun x => Coupons.id x =? couponId)
                       (Coupons.coupons (db st) ++ [c])%list = Some c).
  { rewrite find_app_none.
    - cbn [Coupons.id c]. now rewrite Z.eqb_refl.
    - apply find_all_false. intros x Hx. apply Z.eqb_neq. intros E.
      apply (nextId_fresh (map Coupons.id (Coupons.coupons (db st))) (coupons_seq st)).
      fold couponId. rewrite <- E. apply in_map, Hx. }
  assert (Hcreate : create (Some data) st
                    = (Created (Some c),
                       {| db := {| Coupons.coupons :=
                                     (Coupons.coupons (db st) ++ [c])%list;
                                   Coupons.coupon_redemptions :=
                                     Coupons.coupon_redemptions (db st) |};
                          coupons_seq := couponId |})).
  { unfold create. rewrite Hcode, Hty, Hval, Hfree, Hplan, Hfrom, Huntil.
    cbn [textOrNull]. fold couponId. fold c. rewrite Hfind. reflexivity. }
  subst st1. rewrite Hcreate. cbn [fst snd db Coupons.coupons].
  exists c. split; [reflexivity|]. split; [reflexivity|].
  split; [reflexivity|]. split; [reflexivity|]. split; [reflexivity|]. split.
  { cbn [Coupons.max_redemptions c]. unfold numberOrNull.
    destruct (data_max_redemptions data); reflexivity. }
  split.
  - unfold validate, Coupons.validate, Coupons.bind, Coupons.first, Coupons.ret.
    cbn [db Coupons.coupons coupons_seq]. unfold Coupons.selectFirst.
    rewrite find_app_none.
    + assert (Hw : Coupons.validWhere (Some code) plan now c
                   = match Coupons.max_redemptions c with
                     | Some cap => Coupons.tri_of_bool (0 <? cap)
                     | None => Coupons.TTrue
                     end).
      { unfold Coupons.validWhere.
        cbn [Coupons.code Coupons.is_active Coupons.valid_from Coupons.valid_until
             Coupons.plan_restriction Coupons.redemption_count c Coupons.cmp
             Coupons.is_null Coupons.tri_or Coupons.tri_and].
        rewrite String.eqb_refl. cbn [Z.eqb Pos.eqb Coupons.tri_of_bool Coupons.tri_and].
        destruct (Coupons.max_redemptions c) as [cap|]; cbn; [|reflexivity].
        destruct (0 <? cap); reflexivity. }
      rewrite Hw.
      destruct (Coupons.max_redemptions c) as [cap|]; [|reflexivity].
      destruct (0 <? cap); reflexivity.
    + apply find_all_false. intros x Hx.
      pose proof (existsb_false_In _ _ x Hfree Hx) as Hne. cbn beta in Hne.
      unfold Coupons.validWhere. cbn [Coupons.cmp]. rewrite Hne. reflexivity.
  - unfold create. rewrite Hcode, Hty, Hval. cbn [db Coupons.coupons].
    rewrite existsb_app. cbn [existsb Coupons.code c].
    rewrite String.eqb_refl, orb_true_l, orb_true_r. reflexivity.
Qed.


(** X22.  A cap of zero set through an update closes the coupon.  When no
    redemption count is negative, setting [max_redemptions] to 0 on a
    coupon leaves no coupon of that id that validates, whatever the code,
    the plan and the time; the update is answered with status 200 whether
    or not a coupon of that id exists. *)
Theorem zero_cap_by_update_closes (st : Store) (couponId : string)
        (updates : CouponUpdate) (code : string) (plan : option string)
        (now : string) (c : Coupons.Coupon) :
  update_max_redemptions updates = Given 0 ->
  (forall x n, In x (Coupons.coupons (db st)) ->
               Coupons.redemption_count x = Some n -> 0 <= n) ->
  let st1 := snd (update textAsInteger couponId (Some updates) st) in
  fst (update textAsInteger couponId (Some updates) st)
  = Updated (find (couponIs textAsInteger couponId) (Coupons.coupons (db st1))) /\
  (fst (validate (inr (Some code, plan)) now st1) = Coupons.Json200Valid c ->
   couponIs textAsInteger couponId c = false).
Proof.
  intros Hcap Hcount st1. split; [reflexivity|].
  intros Hvalid. apply validated_coupon in Hvalid.
  destruct Hvalid as (Hin & _ & _ & _ & _ & Hcapped & _).
  subst st1. unfold update in Hin. rewrite Hcap in Hin.
  rewrite andb_false_r in Hin. cbn [snd db Coupons.coupons] in Hin.
  apply in_map_iff in Hin. destruct Hin as (x & Ex & Hx).
  destruct (couponIs textAsInteger couponId c) eqn:Ec; [|reflexivity].
  exfalso.
  destruct (couponIs textAsInteger couponId x) eqn:Exid.
  - subst c. destruct (Hcapped 0) as (n & Hn & Hlt).
    { cbn [updatedCoupon Coupons.max_redemptions]. rewrite Hcap. reflexivity. }
    cbn [updatedCoupon Coupons.redemption_count] in Hn.
    specialize (Hcount x n Hx Hn). lia.
  - subst c. congruence.
Qed.

Lemma countsKept_refl (st : Store) : countsKept st st.
Proof.
  split; [|apply incl_refl].
  intros c Hc. left. exists c. auto.
Qed.

Lemma countsKept_trans (st1 st2 st3 : Store) :
  countsKept st1 st2 -> countsKept st2 st3 -> countsKept st1 st3.
Proof.
  intros [H12 I12] [H23 I23]. split.
  - intros c3 Hc3. destruct (H23 c3 Hc3) as [(c2 & Hc2 & Eid & Ecode & Ecount)|Hzero];
      [|right; exact Hzero].
    destruct (H12 c2 Hc2) as [(c1 & Hc1 & Eid' & Ecode' & Ecount')|Hzero].
    + left. exists c1. repeat split; try assumption; congruence.
    + right. congruence.
  - intros r Hr. apply I12, I23, Hr.
Qed.

Lemma validate_unchanged (body : Coupons.Body) (now : string) (st : Store) :
  snd (validate body now st) = st.
Proof.
  unfold validate, Coupons.validate.
  destruct body as [message|[code plan]]; cbn; [now destruct st|].
  unfold Coupons.bind, Coupons.first.
  destruct (Coupons.selectFirst _ _); cbn; now destruct st.
Qed.

Lemma call_countsKept (c : Call) (st : Store) :
  countsKept st (call textAsInteger st c).
Proof.
  destruct c as [body now|body|couponId body|couponId]; cbn [call].
  - rewrite validate_unchanged. apply countsKept_refl.
  - unfold create. destruct body as [data|]; [|apply countsKept_refl].
    destruct (data_code data); try apply countsKept_refl.
    destruct (data_discount_type data); try apply countsKept_refl.
    destruct (data_discount_value data); try apply countsKept_refl.
    destruct (existsb _ _); [apply countsKept_refl|].
    split; cbn [snd db Coupons.coupons Coupons.coupon_redemptions];
      [|apply incl_refl].
    intros c Hc. apply in_app_or in Hc. destruct Hc as [Hc|[<-|[]]].
    + left. exists c. auto.
    + right. reflexivity.
  - unfold update. destruct body as [updates|]; [|apply countsKept_refl].
    cbn [snd]. destruct (_ && _); [apply countsKept_refl|].
    split; cbn [db Coupons.coupons Coupons.coupon_redemptions]; [|apply incl_refl].
    intros c Hc. apply in_map_iff in Hc. destruct Hc as (x & Ex & Hx).
    left. exists x. split; [exact Hx|].
    subst c. destruct (couponIs textAsInteger couponId x); auto.
  - unfold delete. cbn [snd].
    split; cbn [db Coupons.coupons Coupons.coupon_redemptions].
    + intros c Hc. apply filter_In in Hc. left. exists c. tauto.
    + intros r Hr. apply filter_In in Hr. tauto.
Qed.

Lemma call_keys (c : Call) (st : Store) :
  (NoDup (map Coupons.code (Coupons.coupons (db st))) ->
   NoDup (map Coupons.code (Coupons.coupons (db (call textAsInteger st c))))) /\
  (NoDup (map Coupons.id (Coupons.coupons (db st))) ->
   NoDup (map Coupons.id (Coupons.coupons (db (call textAsInteger st c))))).
Proof.
  destruct c as [body now|body|couponId body|couponId]; cbn [call].
  - rewrite validate_unchanged. auto.
  - unfold create. destruct body as [data|]; [|auto].
    destruct (data_code data) as [| |code]; auto.
    destruct (data_discount_type data); auto.
    destruct (data_discount_value data); auto.
    destruct (existsb _ _) eqn:Hfree; [auto|].
    cbn [snd db Coupons.coupons]. rewrite !map_app. cbn [map Coupons.code Coupons.id].
    split; intros Hnd.
    + apply NoDup_text_snoc; [exact Hnd|].
      intros Hin. apply in_map_iff in Hin. destruct Hin as (x & Ex & Hx).
      pose proof (existsb_false_In _ _ x Hfree Hx) as Hne. cbn beta in Hne.
      rewrite Ex, String.eqb_refl in Hne. discriminate.
    + apply NoDup_snoc; [exact Hnd|apply nextId_fresh].
  - unfold update. destruct body as [updates|]; [|auto].
    cbn [snd]. destruct (_ && _); [auto|].
    cbn [db Coupons.coupons].
    rewrite map_key_map_if by reflexivity.
    rewrite map_text_map_if by reflexivity. auto.
  - unfold delete. cbn [snd db Coupons.coupons]. split; intros Hnd.
    + apply NoDup_text_filter, Hnd.
    + apply NoDup_map_filter, Hnd.
Qed.

(** X23.  No route records a redemption.  Through any sequence of
    validations, creations, updates and deletions of coupons, a coupon
    that was there at the start keeps its code and its redemption count,
    a coupon created since has a count of zero, and no row is ever added
    to the redemptions.  Codes and ids that were unique stay unique. *)
Theorem no_route_records_a_redemption (calls : list Call) (st : Store) :
  let st' := run textAsInteger calls st in
  countsKept st st' /\
  (NoDup (map Coupons.code (Coupons.coupons (db st))) ->
   NoDup (map Coupons.code (Coupons.coupons (db st')))) /\
  (NoDup (map Coupons.id (Coupons.coupons (db st))) ->
   NoDup (map Coupons.id (Coupons.coupons (db st')))).
Proof.
  cbv zeta. revert st. induction calls as [|c calls IH]; intros st.
  - cbn. split; [apply countsKept_refl|auto].
  - cbn [run fold_left]. fold (run textAsInteger calls (call textAsInteger st c)).
    destruct (IH (call textAsInteger st c)) as (Hk & Hcodes & Hids).
    destruct (call_keys c st) as [Hcodes1 Hids1].
    split; [|auto].
    apply (countsKept_trans _ (call textAsInteger st c)); [|exact Hk].
    apply call_countsKept.
Qed.

End CouponAdminFacts.

Lemma created_coupon_validates_witness :
  exists c,
    fst (CouponAdmin.create (Some (welcomeCoupon (Server.Given 0))) couponStore)
    = CouponAdmin.Created (Some c)
    /\ Coupons.max_redemptions c = None.
Proof.
  destruct (created_coupon_validates couponStore (welcomeCoupon (Server.Given 0))
              "WELCOME" "percentage" (inject_Z 20) None "2024-01-01 00:00:00"
              eq_refl eq_refl eq_refl eq_refl eq_refl eq_refl eq_refl)
    as (c & Hcreated & _ & _ & _ & _ & Hcap & _).
  exists c. split; [exact Hcreated|exact Hcap].
Defined.

Lemma zero_cap_by_update_closes_witness :
  CouponAdmin.couponIs sampleTextAsInteger "1" twiceCoupon = false.
Proof.
  assert (Hcount : forall x n,
             In x (Coupons.coupons (CouponAdmin.db twoCouponStore)) ->
             Coupons.redemption_count x = Some n -> 0 <= n).
  { intros x n [<-|[<-|[]]] [= <-]; lia. }
  exact (proj2 (zero_cap_by_update_closes sampleTextAsInteger twoCouponStore "1"
                  {| CouponAdmin.update_is_active := Server.Missing;
                     CouponAdmin.update_max_redemptions := Server.Given 0 |}
                  "TWICE" None "2024-01-01 00:00:00" twiceCoupon eq_refl Hcount)
               eq_refl).
Defined.

Lemma no_route_records_a_redemption_witness :
  NoDup (map Coupons.code
           (Coupons.coupons
              (CouponAdmin.db
                 (CouponAdmin.run sampleTextAsInteger
                    [CouponAdmin.Create (Some (welcomeCoupon Server.Missing));
                     CouponAdmin.Validate (inr (Some "WELCOME", None))
                                          "2024-01-01 00:00:00"]
                    couponStore)))).
Proof.
  apply (no_route_records_a_redemption sampleTextAsInteger).
  repeat constructor. intros [].
Defined.

(* ================================================================== *)
(** * The server: recipients and their books *)
(* ================================================================== *)

Lemma ownsBook_books (userId : Z) (st st' : Recipients.Store) :
  Recipients.books st' = Recipients.books st ->
  Recipients.ownsBook userId st' = Recipients.ownsBook userId st.
Proof. intros H. unfold Recipients.ownsBook. now rewrite H. Qed.

Lemma assigned_snoc (st : Recipients.Store) (rid z y seq : Z) (a : Recipients.Assignment.t) :
  Recipients.Assignment.recipient_id a = rid ->
  Recipients.Assignment.book_id a = z ->
  Recipients.assigned
    (Recipients.withAssignments st (Recipients.assignments st ++ [a]) seq) rid y
  = Recipients.assigned st rid y || (z =? y).
Proof.
  intros Hr Hb. unfold Recipients.assigned.
  cbn [Recipients.assignments Recipients.withAssignments].
  rewrite existsb_app. cbn [existsb]. rewrite Hr, Hb, Z.eqb_refl, orb_false_r.
  reflexivity.
Qed.

(** What the loop over [book_ids] adds. *)
Lemma assignBooks_adds (rid uid : Z) (l : list Z) (st : Recipients.Store) :
  let out := Recipients.assignBooks rid uid l st in
  Recipients.books (snd out) = Recipients.books st /\
  Recipients.recipients (snd out) = Recipients.recipients st /\
  exists added,
    Recipients.assignments (snd out) = (Recipients.assignments st ++ added)%list /\
    Forall (fun a => Recipients.Assignment.recipient_id a = rid
                     /\ Recipients.ownsBook uid st (Recipients.Assignment.book_id a) = true
                     /\ In (Recipients.Assignment.book_id a) l) added /\
    (fst out = true ->
     map Recipients.Assignment.book_id added = filter (Recipients.ownsBook uid st) l).
Proof.
  cbv zeta. revert st. induction l as [|z rest IH]; intros st.
  - cbn. repeat split. exists []. rewrite app_nil_r. repeat split. constructor.
  - cbn [Recipients.assignBooks filter].
    destruct (Recipients.ownsBook uid st z) eqn:Hown.
    + unfold Recipients.insertAssignment.
      destruct (Recipients.assigned st rid z).
      * cbn [fst snd]. repeat split. exists []. rewrite app_nil_r.
        repeat split; [constructor|discriminate].
      * set (a := Recipients.Assignment.Build_t _ _ _).
        set (st1 := Recipients.withAssignments st _ _).
        destruct (IH st1) as (Hb & Hr & added & Ha & Hall & Hfin).
        assert (Hsame : Recipients.ownsBook uid st1 = Recipients.ownsBook uid st)
          by (apply ownsBook_books; reflexivity).
        split; [exact Hb|]. split; [exact Hr|].
        exists (a :: added). split.
        { rewrite Ha. subst st1. cbn [Recipients.assignments Recipients.withAssignments].
          rewrite <- app_assoc. reflexivity. }
        split.
        { constructor.
          - split; [reflexivity|]. split; [exact Hown|left; reflexivity].
          - eapply Forall_impl; [|exact Hall]. cbn beta. intros x (H1 & H2 & H3).
            rewrite Hsame in H2.
            split; [exact H1|]. split; [exact H2|right; exact H3]. }
        intros Hok. cbn [map]. rewrite (Hfin Hok), Hsame. reflexivity.
    + destruct (IH st) as (Hb & Hr & added & Ha & Hall & Hfin).
      split; [exact Hb|]. split; [exact Hr|].
      exists added. split; [exact Ha|]. split; [|exact Hfin].
      eapply Forall_impl; [|exact Hall]. cbn beta. intros x (H1 & H2 & H3).
      split; [exact H1|]. split; [exact H2|right; exact H3].
Qed.

(** When the loop comes to its end. *)
Lemma assignBooks_finished (rid uid : Z) (l : list Z) (st : Recipients.Store) :
  fst (Recipients.assignBooks rid uid l st) = true <->
  NoDup (filter (Recipients.ownsBook uid st) l) /\
  Forall (fun z => Recipients.assigned st rid z = false)
         (filter (Recipients.ownsBook uid st) l).
Proof.
  revert st. induction l as [|z rest IH]; intros st.
  - cbn. split; [intros _; split; constructor|reflexivity].
  - cbn [Recipients.assignBooks filter].
    destruct (Recipients.ownsBook uid st z) eqn:Hown; [|apply IH].
    unfold Recipients.insertAssignment.
    destruct (Recipients.assigned st rid z) eqn:Hz.
    + cbn [fst]. split; [discriminate|].
      intros [_ Hall]. inversion Hall; subst. congruence.
    + set (a := Recipients.Assignment.Build_t _ _ _).
      set (seq := Server.nextId _ _).
      set (st1 := Recipients.withAssignments st _ _).
      assert (Hsame : Recipients.ownsBook uid st1 = Recipients.ownsBook uid st)
        by (apply ownsBook_books; reflexivity).
      assert (Has : forall y, Recipients.assigned st1 rid y
                              = Recipients.assigned st rid y || (z =? y)).
      { intros y. apply assigned_snoc; reflexivity. }
      rewrite IH, Hsame. split.
      * intros [Hnd Hall]. split.
        -- constructor; [|exact Hnd]. intros Hin.
           rewrite Forall_forall in Hall. specialize (Hall z Hin).
           rewrite Has, Z.eqb_refl, orb_true_r in Hall. discriminate.
        -- constructor; [exact Hz|].
           eapply Forall_impl; [|exact Hall]. cbn beta. intros y Hy.
           rewrite Has in Hy. apply orb_false_iff in Hy. tauto.
      * intros [Hnd Hall]. inversion Hnd as [|? ? Hnotin Hnd']; subst.
        inversion Hall as [|? ? _ Hall']; subst.
        split; [exact Hnd'|]. apply Forall_forall. intros y Hy.
        rewrite Has. apply orb_false_iff. split.
        -- rewrite Forall_forall in Hall'. apply Hall', Hy.
        -- apply Z.eqb_neq. intros ->. exact (Hnotin Hy).
Qed.

Section RecipientWrites.

Import Recipients.

(** X26.  A request that fails half way leaves its writes behind.
    [POST /recipients] with name and address stores the recipient
    whatever happens next; it answers 201 exactly when no book of the
    user is listed twice in [book_ids], and then the recipient is
    assigned to the user's books among those listed, in their order, the
    books of others being passed over; when one of the user's books is
    listed twice the answer is 500 although the recipient and the
    assignments made so far are stored. *)
Theorem failed_creation_is_stored (st : Store) (userId : Z) (name email : string)
        (book_ids : list Z) (sort_order : member Z) (timestamp : string) :
  wellFormed st ->
  JS.truthy name = true -> JS.truthy email = true ->
  let body := {| data_name := Given name; data_email := Given email;
                 data_book_ids := Given book_ids; data_sort_order := sort_order |} in
  let out := createRecipient userId (Some body) timestamp st in
  let own := filter (ownsBook userId st) book_ids in
  exists row added,
    Recipient.user_id row = userId /\
    recipients (snd out) = (recipients st ++ [row])%list /\
    assignments (snd out) = (assignments st ++ added)%list /\
    Forall (fun a => Assignment.recipient_id a = Recipient.id row
                     /\ In (Assignment.book_id a) own) added /\
    (NoDup own ->
     fst out = (201, OneRecipient (Some row))
     /\ map Assignment.book_id added = own) /\
    (~ NoDup own -> fst out = (500, Thrown)).
Proof.
  intros (Hbooks & Hrecipients & Hlinks) Hname Hemail body out own.
  subst out. unfold createRecipient, body.
  cbn [data_name data_email data_book_ids data_sort_order].
  rewrite Hname, Hemail. cbn [negb orb].
  set (rid := nextId (map Recipient.id (recipients st)) (recipients_seq st)).
  set (row := Recipient.Build_t rid userId name email _ timestamp timestamp).
  set (st1 := withRecipients st (recipients st ++ [row]) rid).
  pose proof (assignBooks_adds rid userId book_ids st1) as Hadds.
  pose proof (assignBooks_finished rid userId book_ids st1) as Hfin.
  cbv zeta in Hadds.
  assert (Hsame : ownsBook userId st1 = ownsBook userId st)
    by (apply ownsBook_books; reflexivity).
  rewrite Hsame in Hadds, Hfin. fold own in Hadds, Hfin.
  assert (Hnone : forall z, assigned st1 rid z = false).
  { intros z. unfold assigned. cbn [assignments st1 withRecipients].
    destruct (existsb _ (assignments st)) eqn:Hex; [|reflexivity].
    apply existsb_exists in Hex. destruct Hex as (a & Ha & Hpair).
    apply andb_true_iff in Hpair. destruct Hpair as [Hr _]. apply Z.eqb_eq in Hr.
    destruct (Hlinks a Ha) as (r & _ & Hr_in & _ & Hid & _).
    exfalso. apply (nextId_fresh (map Recipient.id (recipients st)) (recipients_seq st)).
    fold rid. rewrite <- Hr, <- Hid. apply in_map, Hr_in. }
  assert (Hok : fst (assignBooks rid userId book_ids st1) = true <-> NoDup own).
  { rewrite Hfin. split; [tauto|]. intros Hnd. split; [exact Hnd|].
    apply Forall_forall. intros z _. apply Hnone. }
  destruct (assignBooks rid userId book_ids st1) as [finished st2].
  cbn [fst snd] in Hadds, Hok.
  destruct Hadds as (_ & Hrs & added & Has & Hall & Hmap).
  exists row, added.
  assert (Hfind : find (fun r => Recipient.id r =? rid) (recipients st2) = Some row).
  { rewrite Hrs. cbn [recipients st1 withRecipients].
    rewrite find_app_none.
    - cbn [Recipient.id row]. now rewrite Z.eqb_refl.
    - destruct (find _ (recipients st)) as [r|] eqn:Hf; [|reflexivity].
      apply find_some in Hf. destruct Hf as [Hin Hid]. apply Z.eqb_eq in Hid.
      exfalso.
      apply (nextId_fresh (map Recipient.id (recipients st)) (recipients_seq st)).
      fold rid. rewrite <- Hid. apply in_map, Hin. }
  assert (Hown : Forall (fun a => Assignment.recipient_id a = Recipient.id row
                                 /\ In (Assignment.book_id a) own) added).
  { eapply Forall_impl; [|exact Hall]. cbn beta. intros a (H1 & H2 & H3).
    split; [exact H1|]. apply filter_In. auto. }
  destruct finished; cbn [fst snd].
  - split; [reflexivity|]. split; [exact Hrs|]. split; [exact Has|].
    split; [exact Hown|]. split.
    + intros _. rewrite Hfind. split; [reflexivity|]. apply Hmap. reflexivity.
    + intros Hdup. exfalso. apply Hdup, Hok. reflexivity.
  - split; [reflexivity|]. split; [exact Hrs|]. split; [exact Has|].
    split; [exact Hown|]. split.
    + intros Hnd. apply Hok in Hnd. discriminate.
    + reflexivity.
Qed.

End RecipientWrites.

Lemma ownsBook_found (userId : Z) (st : Recipients.Store) (z : Z) :
  Recipients.ownsBook userId st z = true ->
  exists b, In b (Recipients.books st) /\ Server.Book.id b = z
            /\ Server.Book.user_id b = userId.
Proof.
  unfold Recipients.ownsBook. intros H. apply existsb_exists in H.
  destruct H as (b & Hin & Hb). apply andb_true_iff in Hb.
  destruct Hb as [H1 H2]. apply Z.eqb_eq in H1, H2. eauto.
Qed.

Lemma assignBooks_wellFormed (rid uid : Z) (l : list Z) (st : Recipients.Store)
      (r : Recipients.Recipient.t) :
  Recipients.wellFormed st ->
  In r (Recipients.recipients st) ->
  Recipients.Recipient.id r = rid -> Recipients.Recipient.user_id r = uid ->
  Recipients.wellFormed (snd (Recipients.assignBooks rid uid l st)).
Proof.
  intros (Hbooks & Hrecipients & Hlinks) Hr Hid Huser.
  destruct (assignBooks_adds rid uid l st) as (Hb & Hrs & added & Ha & Hall & _).
  unfold Recipients.wellFormed. rewrite Hb, Hrs, Ha.
  split; [exact Hbooks|]. split; [exact Hrecipients|].
  intros a Hin. apply in_app_or in Hin. destruct Hin as [Hin|Hin].
  - apply Hlinks, Hin.
  - rewrite Forall_forall in Hall. destruct (Hall a Hin) as (H1 & H2 & _).
    destruct (ownsBook_found uid st _ H2) as (b & Hbin & Hbid & Hbuser).
    exists r, b. repeat split; congruence || assumption.
Qed.

Section RecipientFacts.

Import Recipients.

Variable textAsInteger : string -> option Z.

Local Set Default Proof Using "Type".

Lemma ownedRecipient_spec (recipientId : string) (userId : Z) (st : Store)
      (r : Recipient.t) :
  ownedRecipient textAsInteger recipientId userId st = Some r ->
  In r (recipients st)
  /\ idIs textAsInteger (PText recipientId) (Recipient.id r) = true
  /\ Recipient.user_id r = userId.
Proof.
  unfold ownedRecipient. intros H. apply find_some in H. destruct H as [Hin H].
  apply andb_true_iff in H. destruct H as [H1 H2]. apply Z.eqb_eq in H2. auto.
Qed.

Lemma ownedBook_found (bookId : string) (userId : Z) (st : Store) (b : Book.t) :
  Recipients.ownedBook textAsInteger bookId userId st = Some b ->
  In b (books st)
  /\ idIs textAsInteger (PText bookId) (Book.id b) = true
  /\ Book.user_id b = userId.
Proof.
  unfold Recipients.ownedBook. intros H. apply find_some in H. destruct H as [Hin H].
  apply andb_true_iff in H. destruct H as [H1 H2]. apply Z.eqb_eq in H2. auto.
Qed.

Lemma createRecipient_wellFormed (userId : Z) (body : option RecipientData)
      (ts : string) (st : Store) :
  wellFormed st -> wellFormed (snd (createRecipient userId body ts st)).
Proof.
  intros Hwf. unfold createRecipient. destruct body as [body|]; [|exact Hwf].
  destruct (data_name body) as [| |name]; try exact Hwf.
  destruct (data_email body) as [| |email]; try exact Hwf.
  destruct (negb (JS.truthy name) || negb (JS.truthy email)); [exact Hwf|].
  cbv zeta.
  set (rid := nextId (map Recipient.id (recipients st)) (recipients_seq st)).
  set (row := Recipient.Build_t rid userId name email _ ts ts).
  set (st1 := withRecipients st (recipients st ++ [row]) rid).
  set (l := match data_book_ids body with Given l => l | _ => [] end).
  assert (Hwf1 : wellFormed st1).
  { destruct Hwf as (Hbooks & Hrecipients & Hlinks). unfold wellFormed.
    cbn [st1 withRecipients books recipients assignments].
    split; [exact Hbooks|]. split.
    - rewrite map_app. cbn [map Recipient.id row].
      apply NoDup_snoc; [exact Hrecipients|apply nextId_fresh].
    - intros a Ha. destruct (Hlinks a Ha) as (r & b & Hr & Hb & H).
      exists r, b. split; [apply in_or_app; left; exact Hr|]. auto. }
  pose proof (assignBooks_wellFormed rid userId l st1 row Hwf1) as H.
  destruct (assignBooks rid userId l st1) as [finished st2]. cbn [snd] in H.
  assert (Hwf2 : wellFormed st2).
  { apply H; [|reflexivity|reflexivity].
    cbn [st1 withRecipients recipients]. apply in_or_app. right. left. reflexivity. }
  destruct finished; exact Hwf2.
Qed.

Lemma updateRecipient_wellFormed (userId : Z) (id : string)
      (body : option RecipientData) (ts : string) (st : Store) :
  wellFormed st -> wellFormed (snd (updateRecipient textAsInteger userId id body ts st)).
Proof.
  intros Hwf. unfold updateRecipient. destruct body as [updates|]; [|exact Hwf].
  destruct (ownedRecipient _ _ _ _) as [recipient|] eqn:Hown; [|exact Hwf].
  apply ownedRecipient_spec in Hown. destruct Hown as (Hin & Hid & Huser).
  destruct (isNull _ || isNull _); [exact Hwf|].
  cbv zeta.
  set (f := fun r => if idIs textAsInteger (PText id) (Recipient.id r)
                     then updatedRecipient updates ts r else r).
  set (st1 := if _ && _ && _ then st else withRecipients st _ _).
  assert (Hf : forall r, Recipient.id (f r) = Recipient.id r
                         /\ Recipient.user_id (f r) = Recipient.user_id r).
  { intros r. unfold f.
    destruct (idIs textAsInteger (PText id) (Recipient.id r)); split; reflexivity. }
  assert (H1 : wellFormed st1
               /\ exists r, In r (recipients st1)
                            /\ Recipient.id r = Recipient.id recipient
                            /\ Recipient.user_id r = userId).
  { subst st1. destruct (_ && _ && _).
    - split; [exact Hwf|]. exists recipient. auto.
    - destruct Hwf as (Hbooks & Hrecipients & Hlinks). split.
      + unfold wellFormed. cbn [withRecipients books recipients assignments].
        split; [exact Hbooks|]. split.
        * rewrite map_map.
          rewrite (map_ext _ Recipient.id) by (intros r; apply Hf).
          exact Hrecipients.
        * intros a Ha. destruct (Hlinks a Ha) as (r & b & Hr & Hb & E1 & E2 & E3).
          exists (f r), b. split; [apply in_map, Hr|].
          destruct (Hf r) as [-> ->]. auto.
      + exists (f recipient). cbn [withRecipients recipients].
        split; [apply in_map, Hin|]. destruct (Hf recipient) as [-> ->]. auto. }
  destruct H1 as (Hwf1 & r1 & Hr1 & Hr1id & Hr1user).
  destruct (data_book_ids updates) as [| |book_ids].
  - exact Hwf1.
  - exact Hwf1.
  - set (st1' := withAssignments st1 _ _).
    assert (Hwf1' : wellFormed st1').
    { destruct Hwf1 as (Hbooks & Hrecipients & Hlinks). unfold wellFormed.
      cbn [st1' withAssignments books recipients assignments].
      split; [exact Hbooks|]. split; [exact Hrecipients|].
      intros a Ha. apply filter_In in Ha. apply Hlinks, Ha. }
    pose proof (assignBooks_wellFormed (Recipient.id recipient) userId book_ids st1'
                  r1 Hwf1' Hr1 Hr1id Hr1user) as H.
    destruct (assignBooks _ _ _ st1') as [finished st2]. cbn [snd] in H.
    destruct finished; exact H.
Qed.

Lemma deleteRecipient_wellFormed (userId : Z) (id : string) (st : Store) :
  wellFormed st -> wellFormed (snd (deleteRecipient textAsInteger userId id st)).
Proof.
  intros Hwf. unfold deleteRecipient.
  destruct (ownedRecipient _ _ _ _) as [recipient|]; [|exact Hwf].
  destruct Hwf as (Hbooks & Hrecipients & Hlinks). unfold wellFormed.
  cbn [snd books recipients assignments].
  split; [exact Hbooks|]. split; [apply NoDup_map_filter, Hrecipients|].
  intros a Ha. apply filter_In in Ha. destruct Ha as [Ha Hkept].
  destruct (Hlinks a Ha) as (r & b & Hr & Hb & E1 & E2 & E3).
  exists r, b. split; [|auto].
  apply filter_In. split; [exact Hr|].
  destruct (idIs textAsInteger (PText id) (Recipient.id r)) eqn:Egone; [|reflexivity].
  exfalso. apply negb_true_iff in Hkept.
  assert (Hex : existsb (fun r0 => Recipient.id r0 =? Assignment.recipient_id a)
                        (filter (fun r0 => idIs textAsInteger (PText id) (Recipient.id r0))
                                (recipients st)) = true).
  { apply existsb_exists. exists r. split.
    - apply filter_In. auto.
    - apply Z.eqb_eq, E1. }
  congruence.
Qed.

Lemma assign_wellFormed (userId : Z) (id bookId : string) (st : Store) :
  wellFormed st -> wellFormed (snd (assign textAsInteger userId id bookId st)).
Proof.
  intros Hwf. unfold assign.
  destruct (ownedRecipient _ _ _ _) as [recipient|] eqn:Hr; [|exact Hwf].
  destruct (Recipients.ownedBook _ _ _ _) as [book|] eqn:Hb; [|exact Hwf].
  destruct (existsb _ _); [exact Hwf|].
  apply ownedRecipient_spec in Hr. destruct Hr as (Hrin & _ & Hruser).
  apply ownedBook_found in Hb. destruct Hb as (Hbin & _ & Hbuser).
  destruct Hwf as (Hbooks & Hrecipients & Hlinks). unfold wellFormed.
  cbn [snd withAssignments books recipients assignments].
  split; [exact Hbooks|]. split; [exact Hrecipients|].
  intros a Ha. apply in_app_or in Ha. destruct Ha as [Ha|[<-|[]]].
  - apply Hlinks, Ha.
  - exists recipient, book. cbn. repeat split; congruence || assumption.
Qed.

Lemma unassign_wellFormed (userId : Z) (id bookId : string) (st : Store) :
  wellFormed st -> wellFormed (snd (unassign textAsInteger userId id bookId st)).
Proof.
  intros Hwf. unfold unassign.
  destruct (ownedRecipient _ _ _ _) as [recipient|]; [|exact Hwf].
  destruct (Recipients.ownedBook _ _ _ _) as [book|]; [|exact Hwf].
  destruct Hwf as (Hbooks & Hrecipients & Hlinks). unfold wellFormed.
  cbn [snd withAssignments books recipients assignments].
  split; [exact Hbooks|]. split; [exact Hrecipients|].
  intros a Ha. apply filter_In in Ha. apply Hlinks, Ha.
Qed.

Lemma handle_recipients_wellFormed (userId : Z) (ts : string) (req : Request)
      (st : Store) :
  wellFormed st -> wellFormed (snd (Recipients.handle textAsInteger userId ts req st)).
Proof.
  intros Hwf. destruct req; cbn [Recipients.handle].
  - exact Hwf.
  - now apply createRecipient_wellFormed.
  - now apply updateRecipient_wellFormed.
  - now apply deleteRecipient_wellFormed.
  - now apply assign_wellFormed.
  - now apply unassign_wellFormed.
  - unfold getRecipientsForBook. now destruct (Recipients.ownedBook _ _ _ _).
Qed.

(** X27.  A recipient is only ever assigned to books of its own user.
    Through any sequence of requests to the recipient routes, by whatever
    users, the ids of recipients stay unique and every assignment links a
    recipient to a book of the user the recipient belongs to: the book
    ids of a body that are not the user's are passed over, and deleting a
    recipient takes its assignments with it. *)
Theorem assignments_stay_within_a_user (reqs : list (Z * string * Request))
        (st : Store) :
  wellFormed st -> wellFormed (Recipients.run textAsInteger reqs st).
Proof.
  revert st. induction reqs as [|[[userId ts] req] reqs IH]; intros st Hwf;
    [exact Hwf|].
  cbn [Recipients.run fold_left fst snd].
  apply IH, handle_recipients_wellFormed, Hwf.
Qed.

(** X28.  The recipients answered are the user's own.  In a store where
    ids are unique and assignments stay within a user, every recipient an
    answer of the recipient routes carries belongs to the user asking; in
    particular the list of the recipients of a book, which is looked up
    through the assignments alone. *)
Theorem answered_recipients_are_own (userId : Z) (ts : string) (req : Request)
        (st : Store) :
  wellFormed st ->
  Forall (fun r => Recipient.user_id r = userId)
         (recipientsOf (fst (Recipients.handle textAsInteger userId ts req st))).
Proof.
  intros Hwf. pose proof Hwf as (Hbooks & Hrecipients & Hlinks).
  destruct req; cbn [Recipients.handle].
  - unfold getRecipients, recipientsOf. cbn [fst snd].
    rewrite map_map. cbn [fst]. rewrite map_id.
    apply Forall_forall. intros r Hr. apply In_orderBy in Hr.
    apply filter_In in Hr. now apply Z.eqb_eq.
  - unfold createRecipient. destruct body as [body|]; [|constructor].
    destruct (data_name body) as [| |name]; try constructor.
    destruct (data_email body) as [| |email]; try constructor.
    destruct (negb (JS.truthy name) || negb (JS.truthy email)); [constructor|].
    cbv zeta.
    set (rid := nextId (map Recipient.id (recipients st)) (recipients_seq st)).
    set (row := Recipient.Build_t rid userId name email _ ts ts).
    set (st1 := withRecipients st (recipients st ++ [row]) rid).
    set (l := match data_book_ids body with Given l => l | _ => [] end).
    destruct (assignBooks_adds rid userId l st1) as (_ & Hrs & _).
    destruct (assignBooks rid userId l st1) as [finished st2]. cbn [snd] in Hrs.
    destruct finished; [|constructor].
    unfold recipientsOf. cbn [fst snd].
    destruct (find _ (recipients st2)) as [x|] eqn:Hf; [|constructor].
    apply find_some in Hf. destruct Hf as [Hx Hxid]. apply Z.eqb_eq in Hxid.
    rewrite Hrs in Hx. cbn [st1 withRecipients recipients] in Hx.
    apply in_app_or in Hx. destruct Hx as [Hx|[<-|[]]].
    + exfalso.
      apply (nextId_fresh (map Recipient.id (recipients st)) (recipients_seq st)).
      fold rid. rewrite <- Hxid. apply in_map, Hx.
    + repeat constructor.
  - unfold updateRecipient. destruct body as [updates|]; [|constructor].
    destruct (ownedRecipient _ _ _ _) as [recipient|] eqn:Hown; [|constructor].
    apply ownedRecipient_spec in Hown. destruct Hown as (Hin & Hid & Huser).
    destruct (isNull _ || isNull _); [constructor|].
    cbv zeta.
    set (f := fun r => if idIs textAsInteger (PText id) (Recipient.id r)
                       then updatedRecipient updates ts r else r).
    set (st1 := if _ && _ && _ then st else withRecipients st _ _).
    assert (Hst1 : forall x, In x (recipients st1) ->
                             exists y, In y (recipients st)
                                       /\ Recipient.id x = Recipient.id y
                                       /\ Recipient.user_id x = Recipient.user_id y).
    { intros x Hx. subst st1. destruct (_ && _ && _).
      - exists x. auto.
      - cbn [withRecipients recipients] in Hx. apply in_map_iff in Hx.
        destruct Hx as (y & <- & Hy). exists y. split; [exact Hy|].
        unfold f.
        destruct (idIs textAsInteger (PText id) (Recipient.id y)); split; reflexivity. }
    assert (Hst2 : forall finished st2,
               recipients st2 = recipients st1 ->
               Forall (fun r => Recipient.user_id r = userId)
                      (recipientsOf
                         (fst (if finished : bool
                               then ((200, OneRecipient
                                             (find (fun r => idIs textAsInteger (PText id)
                                                                  (Recipient.id r))
                                                   (recipients st2))), st2)
                               else ((500, Thrown), st2))))).
    { intros finished st2 Hrs. destruct finished; [|constructor].
      unfold recipientsOf. cbn [fst snd].
      destruct (find _ (recipients st2)) as [x|] eqn:Hf; [|constructor].
      apply find_some in Hf. destruct Hf as [Hx Hxid]. rewrite Hrs in Hx.
      destruct (Hst1 x Hx) as (y & Hy & Eid & Euser).
      rewrite Eid in Hxid.
      rewrite (idIs_unique textAsInteger Recipient.id (recipients st) (PText id)
                 y recipient Hrecipients Hy Hin Hxid Hid) in Euser.
      repeat constructor. congruence. }
    destruct (data_book_ids updates) as [| |book_ids].
    + apply (Hst2 true st1). reflexivity.
    + apply (Hst2 true st1). reflexivity.
    + set (st1' := withAssignments st1 _ _).
      destruct (assignBooks_adds (Recipient.id recipient) userId book_ids st1')
        as (_ & Hrs & _).
      destruct (assignBooks _ _ _ st1') as [finished st2]. cbn [snd] in Hrs.
      apply Hst2. exact Hrs.
  - unfold deleteRecipient. destruct (ownedRecipient _ _ _ _); constructor.
  - unfold assign. destruct (ownedRecipient _ _ _ _); [|constructor].
    destruct (Recipients.ownedBook _ _ _ _); [|constructor].
    destruct (existsb _ _); constructor.
  - unfold unassign. destruct (ownedRecipient _ _ _ _); [|constructor].
    destruct (Recipients.ownedBook _ _ _ _); constructor.
  - unfold getRecipientsForBook.
    destruct (Recipients.ownedBook _ _ _ _) as [book|] eqn:Hb; [|constructor].
    apply ownedBook_found in Hb. destruct Hb as (Hbin & Hbid & Hbuser).
    unfold recipientsOf. cbn [fst snd].
    apply Forall_forall. intros x Hx. apply In_orderBy in Hx.
    apply in_flat_map in Hx. destruct Hx as (a & Ha & Hx).
    destruct (idIs textAsInteger (PText bookId) (Assignment.book_id a)) eqn:Ea;
      [|contradiction].
    apply filter_In in Hx. destruct Hx as [Hx Hxid]. apply Z.eqb_eq in Hxid.
    destruct (Hlinks a Ha) as (r & b & Hr & Hb & E1 & E2 & E3).
    assert (Hxr : x = r).
    { apply (key_unique Recipient.id (recipients st)); try assumption. congruence. }
    assert (Hbb : b = book).
    { apply (idIs_unique textAsInteger Book.id (books st) (PText bookId));
        try assumption. now rewrite E2. }
    subst x b. congruence.
Qed.

End RecipientFacts.

Lemma recipientStore_wellFormed : Recipients.wellFormed recipientStore.
Proof.
  unfold Recipients.wellFormed. cbn.
  split; [repeat constructor; cbn; intuition lia|].
  split; [repeat constructor; intros []|].
  intros a [<-|[]].
  exists accountant, (sampleBook 1 1 "Alice and co"). cbn. auto.
Qed.

Lemma failed_creation_is_stored_witness :
  exists row,
    Recipients.recipients
      (snd (Recipients.createRecipient 1 (Some (auditor [1; 2; 1]))
              "2024-02-01 00:00:00" recipientStore))
    = (Recipients.recipients recipientStore ++ [row])%list
    /\ fst (Recipients.createRecipient 1 (Some (auditor [1; 2; 1]))
              "2024-02-01 00:00:00" recipientStore)
       = (500, Recipients.Thrown).
Proof.
  destruct (failed_creation_is_stored recipientStore 1 "Auditor" "audit@example.com"
              [1; 2; 1] Server.Missing "2024-02-01 00:00:00"
              recipientStore_wellFormed eq_refl eq_refl)
    as (row & added & _ & Hrows & _ & _ & _ & Hfailed).
  exists row. split; [exact Hrows|]. apply Hfailed.
  intros Hnd. inversion Hnd as [|x l Hnotin _]. apply Hnotin. left. reflexivity.
Defined.

Lemma assignments_stay_within_a_user_witness :
  Recipients.wellFormed
    (Recipients.run sampleTextAsInteger
       [ (1, "2024-02-01 00:00:00", Recipients.PostRecipient (Some (auditor [1; 2])));
         (1, "2024-02-02 00:00:00", Recipients.DeleteRecipient "1") ]
       recipientStore).
Proof.
  apply assignments_stay_within_a_user. exact recipientStore_wellFormed.
Defined.

Lemma answered_recipients_are_own_witness :
  Forall (fun r => Recipients.Recipient.user_id r = 1)
         (Recipients.recipientsOf
            (fst (Recipients.handle sampleTextAsInteger 1 "2024-02-01 00:00:00"
                    (Recipients.GetRecipientsForBook "1") recipientStore))).
Proof.
  apply answered_recipients_are_own. exact recipientStore_wellFormed.
Defined.
